(** * The yum distributor of pulp_rpm: publication pipeline

    A shallow embedding of
    [pulp_rpm/plugins/distributors/yum_distributor/distributor.py]
    (class [YumDistributor]) and the properties of its publication
    pipeline: symlink reconciliation, distribution tree publishing with its
    manifest, configuration validation and the publish orchestrator,
    followed by cancellation, the copy of the importer's repodata and the
    consumer payload, and by the filelists parser of the yum importer
    ([plugins/pulp_rpm/plugins/importers/yum/repomd/filelists.py]).

    The Python code is modelled in a state-and-exception monad.  The
    filesystem, the [util] helpers, the conduits and the certificate
    bookkeeping are collaborators the distributor calls but does not
    define; they are the fields of the class [Host], over an abstract world.
    Every mutating collaborator call is recorded in a call trace, and the
    error-level log entries in a log.

    The collaborators of [cancel_publish_repo], [copy_importer_repodata]
    and [create_consumer_payload] ([metadata.cancel_createrepo], [shutil],
    the server and repo_auth configurations, [open]) are variables of the
    sections that define these methods.

    Not modelled: debug and info logging, message formatting and gettext
    (messages are kept as structured values), the body of [load_config]
    (its result is read through a collaborator) and the method
    [metadata], which the properties below do not involve. *)

From Stdlib Require Import String Ascii List ZArith Bool Lia.
Import ListNotations.
Local Open Scope string_scope.
Local Open Scope Z_scope.

(** ** Python values and exceptions *)

Definition path := string.

(** The values a configuration entry can hold. *)
Inductive PyVal : Type :=
| VNone
| VBool (b : bool)
| VInt (z : Z)
| VStr (s : string)
| VList (l : list string).

(** Python truth value, as tested by [if x:] and [x or y]. *)
Definition truthy (v : PyVal) : bool :=
  match v with
  | VNone => false
  | VBool b => b
  | VInt z => negb (z =? 0)
  | VStr s => negb (s =? "")%string
  | VList l => match l with [] => false | _ => true end
  end.

Definition is_none (v : PyVal) : bool :=
  match v with VNone => true | _ => false end.

(** [isinstance(v, bool)] and [isinstance(v, basestring)]. *)
Definition isinstance_bool (v : PyVal) : bool :=
  match v with VBool _ => true | _ => false end.

Definition isinstance_basestring (v : PyVal) : bool :=
  match v with VStr _ => true | _ => false end.

Definition isinstance_list (v : PyVal) : bool :=
  match v with VList _ => true | _ => false end.

Inductive Exn : Type :=
| RuntimeError (msg : string)
| KeyError (key : string)
| AttributeError (attr : string)
| TypeError (msg : string)
| OSError (msg : string)
| OtherError (msg : string).

(** The outcome of a Python call: a value, or a raised exception. *)
Inductive Res (A : Type) : Type :=
| Ok (a : A)
| Raise (e : Exn).
Arguments Ok {A} a.
Arguments Raise {A} e.

(** ** Strings and paths *)

Definition startswith_slash (s : string) : bool :=
  match s with
  | String c _ => (c =? "/")%char
  | EmptyString => false
  end.

Fixpoint endswith_slash (s : string) : bool :=
  match s with
  | EmptyString => false
  | String c EmptyString => (c =? "/")%char
  | String _ rest => endswith_slash rest
  end.

(** [s[1:]] *)
Definition drop_first (s : string) : string :=
  match s with
  | String _ rest => rest
  | EmptyString => EmptyString
  end.

(** The idiom [if p.startswith("/"): p = p[1:]]. *)
Definition strip_leading_slash (s : string) : string :=
  if startswith_slash s then drop_first s else s.

(** [os.path.join(a, b)] of posixpath. *)
Definition os_path_join (a b : path) : path :=
  if startswith_slash b then b
  else if ((a =? "")%string || endswith_slash a)%bool then a ++ b
  else a ++ "/" ++ b.

Definition os_path_join3 (a b c : path) : path :=
  os_path_join (os_path_join a b) c.

(** [s.rstrip('/')] *)
Fixpoint rstrip_slash (s : string) : string :=
  match s with
  | EmptyString => EmptyString
  | String c rest =>
      match rstrip_slash rest with
      | EmptyString => if (c =? "/")%char then EmptyString else String c EmptyString
      | r => String c r
      end
  end.

(** [needle in haystack] on two strings. *)
Definition str_contains (needle haystack : string) : bool :=
  match String.index 0 needle haystack with
  | Some _ => true
  | None => false
  end.

Fixpoint mem_string (x : string) (l : list string) : bool :=
  match l with
  | [] => false
  | y :: l' => ((x =? y)%string || mem_string x l')%bool
  end.

(** The character class [a-zA-Z0-9/_-] of the relative_url check. *)
Definition allowed_url_char (c : ascii) : bool :=
  let n := nat_of_ascii c in
  (((97 <=? n) && (n <=? 122)) || ((65 <=? n) && (n <=? 90))
   || ((48 <=? n) && (n <=? 57))
   || (c =? "/")%char || (c =? "_")%char || (c =? "-")%char)%nat%bool.

(** [re.match('[^a-zA-Z0-9/_-]+', s)] as a truth value: [re.match] anchors
    the pattern at the start of [s], so it matches exactly when [s] begins
    with at least one character outside the class. *)
Definition re_match_disallowed (s : string) : bool :=
  match s with
  | EmptyString => false
  | String c _ => negb (allowed_url_char c)
  end.

(** Every character of [s] is in the class. *)
Fixpoint all_allowed (s : string) : bool :=
  match s with
  | EmptyString => true
  | String c rest => (allowed_url_char c && all_allowed rest)%bool
  end.

(** ** A monad for Python control flow

    A computation reads and updates a state and either returns a value or
    raises.  A raised exception keeps the state reached so far: effects that
    happened before the [raise] are not undone. *)

Definition M (St A : Type) : Type := St -> Res A * St.

Definition ret {St A} (a : A) : M St A := fun s => (Ok a, s).

Definition bind {St A B} (m : M St A) (k : A -> M St B) : M St B :=
  fun s =>
    match m s with
    | (Ok a, s') => k a s'
    | (Raise e, s') => (Raise e, s')
    end.

Definition raise {St A} (e : Exn) : M St A := fun s => (Raise e, s).

(** [try: body  except Exception, e: handler(e)] *)
Definition try_except {St A} (body : M St A) (handler : Exn -> M St A) : M St A :=
  fun s =>
    match body s with
    | (Ok a, s') => (Ok a, s')
    | (Raise e, s') => handler e s'
    end.

Definition gets {St A} (f : St -> A) : M St A := fun s => (Ok (f s), s).

Definition modify {St} (f : St -> St) : M St unit := fun s => (Ok tt, f s).

Declare Scope py_scope.
Delimit Scope py_scope with py.
Notation "x <- m ;; k" := (bind m (fun x => k))
  (at level 61, m at next level, right associativity) : py_scope.
Notation "' pat <- m ;; k" := (bind m (fun x => match x with pat => k end))
  (at level 61, pat pattern, m at next level, right associativity) : py_scope.
Notation "m ;;; k" := (bind m (fun _ => k))
  (at level 61, right associativity) : py_scope.

(** ** Data model *)

(** A file descriptor in a distribution unit's [files] list. *)
Record DistroFile : Type := { relativepath : string }.

(** The metadata dict of a unit.  [md_packagedir] is [None] when the
    [KEY_PACKAGEDIR] key is missing or maps to Python's [None];
    [md_files] is [None] when the dict has no ['files'] key. *)
Record UnitMetadata : Type := {
  md_packagedir : option string;
  md_files : option (list DistroFile)
}.

Record Unit : Type := {
  unit_id : string;
  type_id : string;
  storage_path : path;
  metadata : UnitMetadata
}.

Record Repo : Type := {
  repo_id : string;
  working_dir : path;
  display_name : string
}.

(** A plugin call configuration: [config.keys()] lists the keys in order,
    [config.get(key)] is the first binding or Python's [None]. *)
Definition Config : Type := list (string * PyVal).

Fixpoint config_get (config : Config) (key : string) : PyVal :=
  match config with
  | [] => VNone
  | (k, v) :: rest => if (k =? key)%string then v else config_get rest key
  end.

Definition config_keys (config : Config) : list string := map fst config.

(** Messages of the distributor, kept structured instead of formatted. *)
Inductive Msg : Type :=
| MsgMissingRequiredKey (key : string)
| MsgRelativeUrlNotBasestring (v : PyVal)
| MsgRelativeUrlCharacters
| MsgHttpNotBoolean (v : PyVal)
| MsgHttpsNotBoolean (v : PyVal)
| MsgKeyNotSupported (key : string)
| MsgProtectedNotBoolean (v : PyVal)
| MsgUseCreaterepoNotBoolean (v : PyVal)
| MsgInvalidChecksumType (v : PyVal)
| MsgSkipNotList (v : PyVal)
| MsgAuthCertInvalid
| MsgAuthCaInvalid
| MsgHttpsPublishDirNotDirectory (d : path)
| MsgHttpsPublishDirNotReadWrite (d : path)
| MsgHttpPublishDirNotDirectory (d : path)
| MsgHttpPublishDirNotReadWrite (d : path)
| MsgRelativeUrlConflict (rel_url : path) (conflict_rel_url : string) (conflict_repo_id : string)
| MsgSourcePathMissing (source_path : path)
| MsgUnableToCreateSymlink (symlink_path source_path : path)
| MsgException (e : Exn)
| MsgPackagesSymlink
| MsgNoDistributionFiles (unit : string)
| MsgUnableToPublishDistribution (n : nat)
| MsgUnableToPublish (n : nat).

(** An error tuple [(source_path, symlink_path, msg)]. *)
Definition ErrorTuple : Type := (path * path * Msg)%type.

Inductive PhaseState : Type :=
| NOT_STARTED | IN_PROGRESS | FINISHED | FAILED | SKIPPED.

(** The dict built by [init_progress] and updated in place by a phase. *)
Record Tracker : Type := {
  state : PhaseState;
  num_success : Z;
  num_error : Z;
  items_left : Z;
  items_total : Z;
  error_details : list ErrorTuple
}.

Definition init_progress : Tracker :=
  {| state := IN_PROGRESS; num_success := 0; num_error := 0;
     items_left := 0; items_total := 0; error_details := [] |}.

Definition incr_num_success (t : Tracker) : Tracker :=
  {| state := state t; num_success := num_success t + 1; num_error := num_error t;
     items_left := items_left t; items_total := items_total t;
     error_details := error_details t |}.

Definition incr_num_error (t : Tracker) : Tracker :=
  {| state := state t; num_success := num_success t; num_error := num_error t + 1;
     items_left := items_left t; items_total := items_total t;
     error_details := error_details t |}.

Definition decr_items_left (t : Tracker) : Tracker :=
  {| state := state t; num_success := num_success t; num_error := num_error t;
     items_left := items_left t - 1; items_total := items_total t;
     error_details := error_details t |}.

(** [t["items_total"] = n; t["items_left"] = n] *)
Definition set_items (n : Z) (t : Tracker) : Tracker :=
  {| state := state t; num_success := num_success t; num_error := num_error t;
     items_left := n; items_total := n; error_details := error_details t |}.

Definition set_state (s : PhaseState) (t : Tracker) : Tracker :=
  {| state := s; num_success := num_success t; num_error := num_error t;
     items_left := items_left t; items_total := items_total t;
     error_details := error_details t |}.

Definition set_error_details (errs : list ErrorTuple) (t : Tracker) : Tracker :=
  {| state := state t; num_success := num_success t; num_error := num_error t;
     items_left := items_left t; items_total := items_total t;
     error_details := errs |}.

(** A phase entry of [progress_status]: the bare [{"state": s}] dict, or a
    full tracker. *)
Inductive PhaseStatus : Type :=
| StateOnly (s : PhaseState)
| Progress (t : Tracker).

Inductive Phase : Type :=
| packages | distribution | metadata_phase | packagegroups | publish_http | publish_https.

Record ProgressStatus : Type := {
  ps_packages : PhaseStatus;
  ps_distribution : PhaseStatus;
  ps_metadata : PhaseStatus;
  ps_packagegroups : PhaseStatus;
  ps_publish_http : PhaseStatus;
  ps_publish_https : PhaseStatus
}.

Definition initial_progress_status : ProgressStatus :=
  {| ps_packages := StateOnly NOT_STARTED; ps_distribution := StateOnly NOT_STARTED;
     ps_metadata := StateOnly NOT_STARTED; ps_packagegroups := StateOnly NOT_STARTED;
     ps_publish_http := StateOnly NOT_STARTED; ps_publish_https := StateOnly NOT_STARTED |}.

(** [progress_status[type_id] = status] *)
Definition set_phase (p : Phase) (v : PhaseStatus) (ps : ProgressStatus) : ProgressStatus :=
  match p with
  | packages =>
      {| ps_packages := v; ps_distribution := ps_distribution ps;
         ps_metadata := ps_metadata ps; ps_packagegroups := ps_packagegroups ps;
         ps_publish_http := ps_publish_http ps; ps_publish_https := ps_publish_https ps |}
  | distribution =>
      {| ps_packages := ps_packages ps; ps_distribution := v;
         ps_metadata := ps_metadata ps; ps_packagegroups := ps_packagegroups ps;
         ps_publish_http := ps_publish_http ps; ps_publish_https := ps_publish_https ps |}
  | metadata_phase =>
      {| ps_packages := ps_packages ps; ps_distribution := ps_distribution ps;
         ps_metadata := v; ps_packagegroups := ps_packagegroups ps;
         ps_publish_http := ps_publish_http ps; ps_publish_https := ps_publish_https ps |}
  | packagegroups =>
      {| ps_packages := ps_packages ps; ps_distribution := ps_distribution ps;
         ps_metadata := ps_metadata ps; ps_packagegroups := v;
         ps_publish_http := ps_publish_http ps; ps_publish_https := ps_publish_https ps |}
  | publish_http =>
      {| ps_packages := ps_packages ps; ps_distribution := ps_distribution ps;
         ps_metadata := ps_metadata ps; ps_packagegroups := ps_packagegroups ps;
         ps_publish_http := v; ps_publish_https := ps_publish_https ps |}
  | publish_https =>
      {| ps_packages := ps_packages ps; ps_distribution := ps_distribution ps;
         ps_metadata := ps_metadata ps; ps_packagegroups := ps_packagegroups ps;
         ps_publish_http := ps_publish_http ps; ps_publish_https := v |}
  end.

Definition get_phase (p : Phase) (ps : ProgressStatus) : PhaseStatus :=
  match p with
  | packages => ps_packages ps
  | distribution => ps_distribution ps
  | metadata_phase => ps_metadata ps
  | packagegroups => ps_packagegroups ps
  | publish_http => ps_publish_http ps
  | publish_https => ps_publish_https ps
  end.

(** ** Python dicts under iteration

    The manifest is a Python dict that [_handle_orphaned_distributions]
    iterates and deletes from at the same time, so the dict is modelled as
    CPython keeps it: a table of slots, where [del] leaves a dummy in the
    slot ([None] here) and the other entries stay where they are.  A dict
    iterator remembers the number of live entries it started with
    ([di_used]) and its position in the table ([di_pos]); each [next]
    first compares [di_used] with the dict's current size and raises
    [RuntimeError] when they differ. *)

Definition PyDict (V : Type) : Type := list (option (string * V)).

Fixpoint dict_used {V} (d : PyDict V) : nat :=
  match d with
  | [] => O
  | Some _ :: rest => S (dict_used rest)
  | None :: rest => dict_used rest
  end.

(** [d.get(k)] / [k in d] *)
Fixpoint dict_get {V} (d : PyDict V) (k : string) : option V :=
  match d with
  | [] => None
  | Some (k', v) :: rest => if (k' =? k)%string then Some v else dict_get rest k
  | None :: rest => dict_get rest k
  end.

(** [d[k]], raising [KeyError] for a missing key. *)
Definition dict_getitem {V} (d : PyDict V) (k : string) : Res V :=
  match dict_get d k with
  | Some v => Ok v
  | None => Raise (KeyError k)
  end.

Fixpoint dict_remove {V} (d : PyDict V) (k : string) : PyDict V :=
  match d with
  | [] => []
  | Some (k', v) :: rest =>
      if (k' =? k)%string then None :: rest else Some (k', v) :: dict_remove rest k
  | None :: rest => None :: dict_remove rest k
  end.

(** [del d[k]] *)
Definition dict_delitem {V} (d : PyDict V) (k : string) : Res (PyDict V) :=
  match dict_get d k with
  | Some _ => Ok (dict_remove d k)
  | None => Raise (KeyError k)
  end.

(** The keys in iteration order. *)
Fixpoint dict_keys {V} (d : PyDict V) : list string :=
  match d with
  | [] => []
  | Some (k, _) :: rest => k :: dict_keys rest
  | None :: rest => dict_keys rest
  end.

(** The dict display [{k: v}]. *)
Definition dict_single {V} (k : string) (v : V) : PyDict V := [Some (k, v)].

Record dictiter : Type := { di_used : nat; di_pos : nat }.

(** [iter(d)] *)
Definition dict_iter {V} (d : PyDict V) : dictiter :=
  {| di_used := dict_used d; di_pos := O |}.

(** The first live slot of [slots], which start at table index [pos]. *)
Fixpoint scan_slots {V} (slots : PyDict V) (pos : nat) : option (string * nat) :=
  match slots with
  | [] => None
  | Some (k, _) :: _ => Some (k, S pos)
  | None :: rest => scan_slots rest (S pos)
  end.

(** [next(it)] on a key iterator of [d]: [Ok None] is [StopIteration]. *)
Definition dictiter_iternextkey {V} (d : PyDict V) (it : dictiter)
  : Res (option (string * dictiter)) :=
  if Nat.eqb (di_used it) (dict_used d) then
    match scan_slots (skipn (di_pos it) d) (di_pos it) with
    | Some (k, pos') => Ok (Some (k, {| di_used := di_used it; di_pos := pos' |}))
    | None => Ok None
    end
  else Raise (RuntimeError "dictionary changed size during iteration").

(** ** Persisted state *)

(** The distributor scratchpad.  [published_distributions] is the entry under
    [constants.PUBLISHED_DISTRIBUTION_FILES_KEY], the manifest: unit id to
    the list of published paths; [None] when the key is missing. *)
Record Scratchpad : Type := {
  published_distributions : option (PyDict (list path));
  sp_other : list (string * PyVal)
}.

Definition empty_scratchpad : Scratchpad :=
  {| published_distributions := None; sp_other := [] |}.

(** The repository scratchpad, holding [OLD_REL_PATH_KEYWORD]. *)
Record RepoScratchpad : Type := {
  old_relative_path : option path;
  rs_other : list (string * PyVal)
}.

(** The dict [auth_cert_bundle] of [validate_config]. *)
Record CertBundle : Type := {
  bundle_cert : option string;
  bundle_ca : option string
}.

Definition empty_bundle : CertBundle := {| bundle_cert := None; bundle_ca := None |}.

Definition bundle_nonempty (b : CertBundle) : bool :=
  match bundle_cert b, bundle_ca b with
  | None, None => false
  | _, _ => true
  end.

(** An item of the cursor returned by
    [get_repo_distributors_by_relative_url]. *)
Record ConflictItem : Type := {
  conflict_repo_id : string;
  conflict_relative_url : option string
}.

(** The mutating collaborator calls, in the order they are made. *)
Inductive Event : Type :=
| EvCreateSymlink (source_path symlink_path : path)
| EvRemoveRepoPublishDir (publish_dir link_path : path)
| EvGenerateListingFiles (publish_dir repo_publish_dir : path)
| EvUnlink (p : path)
| EvMakedirs (p : path)
| EvSetProgress (ps : ProgressStatus)
| EvSetScratchpad (sp : Scratchpad)
| EvSetRepoScratchpad (rs : RepoScratchpad)
| EvWriteConsumerCertBundle (repo : string) (bundle : CertBundle)
| EvAddProtectedRepo (relative_path : path) (repo : string)
| EvDeleteProtectedRepo (relative_path : path)
| EvDeleteCertsForRepo (repo : string)
| EvUpdateinfo (working : path)
| EvWriteCompsXml (working : path)
| EvGenerateMetadata (working : path).

(** Summary and details of a publish report. *)
Definition Summary : Type := list (string * PyVal).

Record Details (Duration : Type) : Type := {
  errors : list ErrorTuple;
  time_metadata_sec : Duration
}.
Arguments errors {Duration} d.
Arguments time_metadata_sec {Duration} d.

(** What [build_cancel_report], [build_failure_report] and
    [build_success_report] of the publish conduit are given. *)
Inductive Report (Duration : Type) : Type :=
| CancelReport (summary : Summary)
| FailureReport (summary : Summary) (details : Details Duration)
| SuccessReport (summary : Summary) (details : Details Duration).
Arguments CancelReport {Duration} summary.
Arguments FailureReport {Duration} summary details.
Arguments SuccessReport {Duration} summary details.

(** ** The collaborators

    What the distributor calls but does not define: the [os] module, the
    helpers of [pulp_rpm.yum_plugin], the conduits, the repo_auth utilities
    and two constants.  Queries read the world; calls that can fail return
    a [Res] next to the new world. *)

Class Host (W : Type) : Type := {
  (* time.time() and the difference of two readings *)
  Clock : Type;
  time_time : W -> Clock * W;
  clock_sub : Clock -> Clock -> Clock;
  (* constants.TREE_INFO_LIST and the type ids of pulp_rpm.common.ids *)
  TREE_INFO_LIST : list string;
  TYPE_ID_RPM : string;
  TYPE_ID_SRPM : string;
  TYPE_ID_DRPM : string;
  TYPE_ID_ERRATA : string;
  TYPE_ID_DISTRO : string;
  TYPE_ID_PKG_GROUP : string;
  TYPE_ID_PKG_CATEGORY : string;
  (* os, os.path *)
  os_path_exists : path -> W -> bool;
  os_path_lexists : path -> W -> bool;
  os_path_islink : path -> W -> bool;
  os_path_isdir : path -> W -> bool;
  os_access_R_OK : path -> W -> bool;
  os_access_W_OK : path -> W -> bool;
  os_unlink : path -> W -> Res unit * W;
  os_makedirs : path -> W -> Res unit * W;
  (* pulp_rpm.yum_plugin.util *)
  util_create_symlink : path -> path -> W -> Res bool * W;
  util_remove_repo_publish_dir : path -> path -> W -> Res unit * W;
  util_generate_listing_files : path -> path -> W -> Res unit * W;
  util_get_relpath_from_unit : Unit -> path;
  util_is_valid_checksum_type : PyVal -> bool;
  util_validate_cert : string -> bool;
  (* publish conduit *)
  conduit_get_units : list string -> W -> Res (list Unit) * W;
  conduit_get_scratchpad : W -> Res (option Scratchpad) * W;
  conduit_set_scratchpad : Scratchpad -> W -> Res unit * W;
  conduit_get_repo_scratchpad : W -> Res RepoScratchpad * W;
  conduit_set_repo_scratchpad : RepoScratchpad -> W -> Res unit * W;
  conduit_set_progress : ProgressStatus -> W -> W;
  (* config conduit *)
  get_repo_distributors_by_relative_url : path -> string -> W -> Res (list ConflictItem) * W;
  (* updateinfo, comps_util, metadata *)
  updateinfo_updateinfo : list Unit -> path -> W -> Res (option path) * W;
  comps_util_write_comps_xml : path -> list Unit -> list Unit -> W -> Res (option path) * W;
  metadata_generate_metadata :
    path -> Config -> option path -> W -> Res (bool * list string) * W;
  metadata_generate_yum_metadata :
    string -> path -> Config -> bool -> option path -> option path -> RepoScratchpad ->
    W -> Res (bool * list string) * W;
  (* repo_cert_utils, protected_repo_utils *)
  write_consumer_cert_bundle : string -> CertBundle -> W -> Res unit * W;
  delete_for_repo : string -> W -> Res unit * W;
  add_protected_repo : path -> string -> W -> Res unit * W;
  delete_protected_repo : path -> W -> Res unit * W
}.

Definition REQUIRED_CONFIG_KEYS : list string := ["relative_url"; "http"; "https"].
Definition OPTIONAL_CONFIG_KEYS : list string :=
  ["protected"; "auth_cert"; "auth_ca"; "https_ca"; "gpgkey"; "checksum_type";
   "skip"; "https_publish_dir"; "http_publish_dir"; "use_createrepo"; "skip_pkg_tags"].

Definition HTTP_PUBLISH_DIR : path := "/var/lib/pulp/published/http/repos".
Definition HTTPS_PUBLISH_DIR : path := "/var/lib/pulp/published/https/repos".

(** ** The state a call runs in *)

(** The world, the trace of collaborator calls, the error log, the fields
    of the [YumDistributor] instance, and the [progress_status] dict that
    the progress callback of [publish_repo] closes over. *)
Record PyState (W : Type) : Type := {
  world : W;
  calls : list Event;
  log : list Msg;
  canceled : bool;
  use_createrepo : PyVal;
  package_dir : option string;
  repo_working_dir : option path;
  progress_status : ProgressStatus
}.
Arguments world {W} p.
Arguments calls {W} p.
Arguments log {W} p.
Arguments canceled {W} p.
Arguments use_createrepo {W} p.
Arguments package_dir {W} p.
Arguments repo_working_dir {W} p.
Arguments progress_status {W} p.

(** [YumDistributor.__init__] in a world [w]. *)
Definition new_distributor {W} (w : W) : PyState W :=
  {| world := w; calls := []; log := []; canceled := false;
     use_createrepo := VBool false; package_dir := None;
     repo_working_dir := None; progress_status := initial_progress_status |}.

Definition with_world {W} (w : W) (s : PyState W) : PyState W :=
  {| world := w; calls := calls s; log := log s; canceled := canceled s;
     use_createrepo := use_createrepo s; package_dir := package_dir s;
     repo_working_dir := repo_working_dir s; progress_status := progress_status s |}.

Definition record_call {W} (ev : Event) (s : PyState W) : PyState W :=
  {| world := world s; calls := calls s ++ [ev]; log := log s; canceled := canceled s;
     use_createrepo := use_createrepo s; package_dir := package_dir s;
     repo_working_dir := repo_working_dir s; progress_status := progress_status s |}.

Definition record_log {W} (m : Msg) (s : PyState W) : PyState W :=
  {| world := world s; calls := calls s; log := log s ++ [m]; canceled := canceled s;
     use_createrepo := use_createrepo s; package_dir := package_dir s;
     repo_working_dir := repo_working_dir s; progress_status := progress_status s |}.

Definition with_package_dir {W} (pd : option string) (s : PyState W) : PyState W :=
  {| world := world s; calls := calls s; log := log s; canceled := canceled s;
     use_createrepo := use_createrepo s; package_dir := pd;
     repo_working_dir := repo_working_dir s; progress_status := progress_status s |}.

Definition with_use_createrepo {W} (v : PyVal) (s : PyState W) : PyState W :=
  {| world := world s; calls := calls s; log := log s; canceled := canceled s;
     use_createrepo := v; package_dir := package_dir s;
     repo_working_dir := repo_working_dir s; progress_status := progress_status s |}.

Definition with_repo_working_dir {W} (d : path) (s : PyState W) : PyState W :=
  {| world := world s; calls := calls s; log := log s; canceled := canceled s;
     use_createrepo := use_createrepo s; package_dir := package_dir s;
     repo_working_dir := Some d; progress_status := progress_status s |}.

Definition with_progress_status {W} (ps : ProgressStatus) (s : PyState W) : PyState W :=
  {| world := world s; calls := calls s; log := log s; canceled := canceled s;
     use_createrepo := use_createrepo s; package_dir := package_dir s;
     repo_working_dir := repo_working_dir s; progress_status := ps |}.

(** [self.canceled = b]; [cancel_publish_repo] sets it to [True]. *)
Definition with_canceled {W} (b : bool) (s : PyState W) : PyState W :=
  {| world := world s; calls := calls s; log := log s; canceled := b;
     use_createrepo := use_createrepo s; package_dir := package_dir s;
     repo_working_dir := repo_working_dir s; progress_status := progress_status s |}.

(** A collaborator call: the call is recorded, then made; the world it
    leaves is kept whether it returns or raises. *)
Definition call {W A} (ev : Event) (op : W -> Res A * W) : M (PyState W) A :=
  fun s =>
    let s1 := record_call ev s in
    let '(r, w') := op (world s1) in
    (r, with_world w' s1).

(** A collaborator call that is not recorded: it only reads. *)
Definition fetch {W A} (op : W -> Res A * W) : M (PyState W) A :=
  fun s => let '(r, w') := op (world s) in (r, with_world w' s).

(** A query of the world. *)
Definition ask {W} (q : W -> bool) : M (PyState W) bool :=
  fun s => (Ok (q (world s)), s).

(** [_LOG.error(msg)] *)
Definition LOG_error {W} (m : Msg) : M (PyState W) unit :=
  fun s => (Ok tt, record_log m s).

(** Runs [m] and hands its outcome, value or exception, to the caller: the
    raising points of a [try] block made explicit. *)
Definition attempt {St A} (m : M St A) : M St (Res A) :=
  fun s => let '(r, s') := m s in (Ok r, s').

(** [for x in l: acc = body(x, acc)] *)
Fixpoint for_each {St A B} (l : list A) (body : A -> B -> M St B) (acc : B) : M St B :=
  match l with
  | [] => ret acc
  | x :: rest => bind (body x acc) (fun acc' => for_each rest body acc')
  end.

(** ** The distributor *)

Section YumDistributor.

Context {W : Type} {host : Host W}.

Local Open Scope list_scope.
Local Open Scope py_scope.

(** Computations of the distributor. *)
Definition Py (A : Type) : Type := M (PyState W) A.

(** The closure [progress_callback] of [publish_repo]:
    [progress_status[type_id] = status] and
    [publish_conduit.set_progress(progress_status)]. *)
Definition progress_callback (type_id : Phase) (status : PhaseStatus) : Py unit :=
  fun s =>
    let ps := set_phase type_id status (progress_status s) in
    let s1 := record_call (EvSetProgress ps) (with_progress_status ps s) in
    (Ok tt, with_world (conduit_set_progress ps (world s1)) s1).

(** [set_progress]: [callback] tells whether a progress callback was passed. *)
Definition set_progress (type_id : Phase) (status : PhaseStatus) (callback : bool)
  : Py unit :=
  if callback then progress_callback type_id status else ret tt.

(** A tracker handed to the callback is the dict stored in
    [progress_status]: updates made to it afterwards show there without a
    further call. *)
Definition shared_update (type_id : Phase) (t : Tracker) (callback : bool) : Py unit :=
  if callback
  then modify (fun s => with_progress_status (set_phase type_id (Progress t) (progress_status s)) s)
  else ret tt.

(** [get_repo_relative_path] *)
Definition get_repo_relative_path (repo : Repo) (config : Config) : PyVal :=
  let relative_url := config_get config "relative_url" in
  if truthy relative_url then relative_url else VStr (repo_id repo).

(** [relpath.startswith("/")] then [relpath[1:]], on the value returned by
    [get_repo_relative_path]; only strings have [startswith]. *)
Definition normalized_relative_path (v : PyVal) : Py path :=
  match v with
  | VStr s => ret (strip_leading_slash s)
  | _ => raise (AttributeError "startswith")
  end.

(** [get_https_publish_dir] and [get_http_publish_dir], called with a
    configuration.  The override is used as a path. *)
Definition get_publish_dir (key : string) (default : path) (config : Config) : PyVal :=
  let publish_dir := config_get config key in
  if truthy publish_dir then publish_dir else VStr default.

Definition get_https_publish_dir (config : Config) : PyVal :=
  get_publish_dir "https_publish_dir" HTTPS_PUBLISH_DIR config.

Definition get_http_publish_dir (config : Config) : PyVal :=
  get_publish_dir "http_publish_dir" HTTP_PUBLISH_DIR config.

(** A value used where [os.path] wants a string. *)
Definition as_path (v : PyVal) : Py path :=
  match v with
  | VStr s => ret s
  | _ => raise (TypeError "expected a string")
  end.

(** *** handle_symlinks *)

(** The [except Exception, e] arm of the loop body. *)
Definition handle_symlinks_except (source_path symlink_path : path) (e : Exn)
    (t : Tracker) (errors : list ErrorTuple) : Py (Tracker * list ErrorTuple) :=
  LOG_error (MsgException e) ;;;
  ret (decr_items_left (incr_num_error t),
       errors ++ [(source_path, symlink_path, MsgException e)]).

(** One iteration of [for u in units]. *)
Definition handle_symlinks_unit (symlink_dir : path) (callback : bool) (u : Unit)
    (acc : Tracker * list ErrorTuple) : Py (Tracker * list ErrorTuple) :=
  let '(t, errors) := acc in
  set_progress packages (Progress t) callback ;;;
  let relpath := util_get_relpath_from_unit u in
  let source_path := storage_path u in
  let symlink_path := os_path_join symlink_dir relpath in
  source_exists <- ask (os_path_exists source_path) ;;
  if negb source_exists then
    ret (decr_items_left (incr_num_error t),
         errors ++ [(source_path, symlink_path, MsgSourcePathMissing source_path)])
  else
    (* try: *)
    r1 <- attempt (call (EvCreateSymlink source_path symlink_path)
                        (util_create_symlink source_path symlink_path)) ;;
    match r1 with
    | Raise e => handle_symlinks_except source_path symlink_path e t errors
    | Ok false =>
        LOG_error (MsgUnableToCreateSymlink symlink_path source_path) ;;;
        ret (decr_items_left (incr_num_error t),
             errors ++ [(source_path, symlink_path,
                         MsgUnableToCreateSymlink symlink_path source_path)])
    | Ok true =>
        pd <- gets package_dir ;;
        match pd with
        | Some package_dir =>
            let symlink_path := os_path_join3 symlink_dir package_dir relpath in
            r2 <- attempt (call (EvCreateSymlink source_path symlink_path)
                                (util_create_symlink source_path symlink_path)) ;;
            match r2 with
            | Raise e => handle_symlinks_except source_path symlink_path e t errors
            | Ok false =>
                LOG_error (MsgUnableToCreateSymlink symlink_path source_path) ;;;
                let errors := errors ++ [(source_path, symlink_path,
                                          MsgUnableToCreateSymlink symlink_path source_path)] in
                let t := decr_items_left (incr_num_error t) in
                (* no [continue] here: falls through to the success count *)
                ret (decr_items_left (incr_num_success t), errors)
            | Ok true => ret (decr_items_left (incr_num_success t), errors)
            end
        | None => ret (decr_items_left (incr_num_success t), errors)
        end
    end.

Definition handle_symlinks (units : list Unit) (symlink_dir : path) (callback : bool)
  : Py (bool * list ErrorTuple * Tracker) :=
  let packages_progress_status := init_progress in
  set_progress packages (Progress packages_progress_status) callback ;;;
  let packages_progress_status :=
    set_items (Z.of_nat (length units)) packages_progress_status in
  ' (t, errors) <- for_each units (handle_symlinks_unit symlink_dir callback)
                            (packages_progress_status, []) ;;
  match errors with
  | _ :: _ =>
      let t := set_error_details errors t in
      shared_update packages t callback ;;;
      ret (false, errors, t)
  | [] =>
      let t := set_state FINISHED t in
      set_progress packages (Progress t) callback ;;;
      ret (true, [], t)
  end.

(** *** _handle_orphaned_distributions *)

(** [for orphaned_path in published_distro_units[distroid]] *)
Definition remove_orphaned_path (repo_working_dir : path) (orphaned_path : path) (_ : unit)
  : Py unit :=
  is_link <- ask (os_path_islink orphaned_path) ;;
  if is_link
  then call (EvRemoveRepoPublishDir repo_working_dir orphaned_path)
            (util_remove_repo_publish_dir repo_working_dir orphaned_path)
  else ret tt.

(** [for distroid in published_distro_units], where [published_distro_units]
    is the dict stored in the scratchpad: [d] is that dict as it stands,
    [it] the iterator of the [for] statement.  [fuel] bounds the number of
    [next] calls; the table has fewer slots than that. *)
Fixpoint orphaned_loop (fuel : nat) (it : dictiter) (distro_unit_ids : list string)
    (repo_working_dir : path) (d : PyDict (list path)) : Py (PyDict (list path)) :=
  match fuel with
  | O => raise (OtherError "dict iterator ran past its table")
  | S fuel' =>
      match dictiter_iternextkey d it with
      | Raise e => raise e
      | Ok None => ret d
      | Ok (Some (distroid, it')) =>
          if negb (mem_string distroid distro_unit_ids) then
            match dict_getitem d distroid with
            | Raise e => raise e
            | Ok orphaned_paths =>
                for_each orphaned_paths (remove_orphaned_path repo_working_dir) tt ;;;
                match dict_delitem d distroid with
                | Raise e => raise e
                | Ok d' => orphaned_loop fuel' it' distro_unit_ids repo_working_dir d'
                end
            end
          else orphaned_loop fuel' it' distro_unit_ids repo_working_dir d
      end
  end.

Definition _handle_orphaned_distributions (units : list Unit) (repo_working_dir : path)
    (scratchpad : Scratchpad) : Py Scratchpad :=
  let distro_unit_ids := map unit_id units in
  match published_distributions scratchpad with
  | None => ret scratchpad   (* the default [] of scratchpad.get: nothing to iterate *)
  | Some published_distro_units =>
      d <- orphaned_loop (S (length published_distro_units))
                         (dict_iter published_distro_units)
                         distro_unit_ids repo_working_dir published_distro_units ;;
      ret {| published_distributions := Some d; sp_other := sp_other scratchpad |}
  end.

(** *** symlink_distribution_unit_files *)

(** The search of [constants.TREE_INFO_LIST]: the loop leaves
    [src_treeinfo_path] and [treeinfo] at the first candidate that exists,
    or at the last candidate when none does. *)
Fixpoint lookup_treeinfo (source_path_dir : path) (candidates : list string)
    (current : option (path * string)) (w : W) : option (path * string) :=
  match candidates with
  | [] => current
  | treeinfo :: rest =>
      let src_treeinfo_path := os_path_join source_path_dir treeinfo in
      if os_path_exists src_treeinfo_path w then Some (src_treeinfo_path, treeinfo)
      else lookup_treeinfo source_path_dir rest (Some (src_treeinfo_path, treeinfo)) w
  end.

(** One iteration of [for dfile in distro_files]; the accumulator is the
    tracker, the error list and [published_distro_files]. *)
Definition link_distro_file (source_path_dir symlink_dir : path) (callback : bool)
    (dfile : DistroFile) (acc : Tracker * list ErrorTuple * list path)
  : Py (Tracker * list ErrorTuple * list path) :=
  let '(t, errors, published_distro_files) := acc in
  set_progress distribution (Progress t) callback ;;;
  let source_path := os_path_join source_path_dir (relativepath dfile) in
  let symlink_path := os_path_join symlink_dir (relativepath dfile) in
  already <- ask (os_path_exists symlink_path) ;;
  if already then
    (* path already exists, skip symlink *)
    ret (decr_items_left t, errors, published_distro_files ++ [symlink_path])
  else
    source_exists <- ask (os_path_exists source_path) ;;
    if negb source_exists then
      ret (decr_items_left (incr_num_error t),
           errors ++ [(source_path, symlink_path, MsgSourcePathMissing source_path)],
           published_distro_files)
    else
      (* try: *)
      r <- attempt (call (EvCreateSymlink source_path symlink_path)
                         (util_create_symlink source_path symlink_path)) ;;
      match r with
      | Raise e =>
          LOG_error (MsgException e) ;;;
          ret (decr_items_left (incr_num_error t),
               errors ++ [(source_path, symlink_path, MsgException e)],
               published_distro_files)
      | Ok false =>
          LOG_error (MsgUnableToCreateSymlink symlink_path source_path) ;;;
          ret (decr_items_left (incr_num_error t),
               errors ++ [(source_path, symlink_path,
                           MsgUnableToCreateSymlink symlink_path source_path)],
               published_distro_files)
      | Ok true =>
          ret (decr_items_left (incr_num_success t), errors,
               published_distro_files ++ [symlink_path])
      end.

(** [scratchpad.update({PUBLISHED_DISTRIBUTION_FILES_KEY: {u.id: files}})]:
    the value under the key is replaced by the one-entry dict. *)
Definition scratchpad_update (id : string) (published_distro_files : list path)
    (scratchpad : Scratchpad) : Scratchpad :=
  {| published_distributions := Some (dict_single id published_distro_files);
     sp_other := sp_other scratchpad |}.

(** One iteration of [for u in units]; the accumulator is the scratchpad,
    the tracker and the error list. *)
Definition symlink_distribution_unit (symlink_dir : path) (callback : bool) (u : Unit)
    (acc : Scratchpad * Tracker * list ErrorTuple)
  : Py (Scratchpad * Tracker * list ErrorTuple) :=
  let '(scratchpad, t, errors) := acc in
  let source_path_dir := storage_path u in
  match md_packagedir (metadata u) with
  | Some pd =>
      modify (with_package_dir (Some pd)) ;;;
      let package_path := os_path_join symlink_dir pd in
      is_link <- ask (os_path_islink package_path) ;;
      (if is_link then call (EvUnlink package_path) (os_unlink package_path) else ret tt) ;;;
      there <- ask (os_path_exists package_path) ;;
      (if negb there then call (EvMakedirs package_path) (os_makedirs package_path) else ret tt)
  | None => ret tt
  end ;;;
  match md_files (metadata u) with
  | None => LOG_error (MsgNoDistributionFiles (unit_id u))
  | Some _ => ret tt
  end ;;;
  (* distro_files = u.metadata['files'] *)
  distro_files <- match md_files (metadata u) with
                  | Some files => ret files
                  | None => raise (KeyError "files")
                  end ;;
  let t := set_items (Z.of_nat (length distro_files)) t in
  found <- gets (fun s => lookup_treeinfo source_path_dir TREE_INFO_LIST None (world s)) ;;
  match found with
  | Some (src_treeinfo_path, treeinfo) =>
      let symlink_treeinfo_path := os_path_join symlink_dir treeinfo in
      call (EvCreateSymlink src_treeinfo_path symlink_treeinfo_path)
           (util_create_symlink src_treeinfo_path symlink_treeinfo_path) ;;;
      ret tt
  | None => ret tt
  end ;;;
  ' (t, errors, published_distro_files) <-
    for_each distro_files (link_distro_file source_path_dir symlink_dir callback)
             (t, errors, []) ;;
  ret (scratchpad_update (unit_id u) published_distro_files scratchpad, t, errors).

Definition symlink_distribution_unit_files (units : list Unit) (symlink_dir : path)
    (callback : bool) : Py (bool * list ErrorTuple * Tracker) :=
  let distro_progress_status := init_progress in
  set_progress distribution (Progress distro_progress_status) callback ;;;
  (* handle orphaned *)
  stored <- fetch conduit_get_scratchpad ;;
  let existing_scratchpad :=
    match stored with Some sp => sp | None => empty_scratchpad end in
  scratchpad <- _handle_orphaned_distributions units symlink_dir existing_scratchpad ;;
  ' (scratchpad, t, errors) <-
    for_each units (symlink_distribution_unit symlink_dir callback)
             (scratchpad, distro_progress_status, []) ;;
  (* create the Packages symlink to the content dir, in the content dir *)
  let packages_symlink_path := os_path_join symlink_dir "Packages" in
  there <- ask (os_path_exists packages_symlink_path) ;;
  errors <- (if negb there then
               created <- call (EvCreateSymlink symlink_dir packages_symlink_path)
                               (util_create_symlink symlink_dir packages_symlink_path) ;;
               if negb created then
                 LOG_error MsgPackagesSymlink ;;;
                 ret (errors ++ [(symlink_dir, packages_symlink_path, MsgPackagesSymlink)])
               else ret errors
             else ret errors) ;;
  call (EvSetScratchpad scratchpad) (conduit_set_scratchpad scratchpad) ;;;
  match errors with
  | _ :: _ =>
      let t := set_state FAILED (set_error_details errors t) in
      set_progress distribution (Progress t) callback ;;;
      ret (false, errors, t)
  | [] =>
      let t := set_state FINISHED t in
      set_progress distribution (Progress t) callback ;;;
      ret (true, [], t)
  end.

(** *** validate_config *)

Definition or_else (a b : option Msg) : option Msg :=
  match a with
  | Some m => Some m
  | None => b
  end.

(** The body of [for key in REQUIRED_CONFIG_KEYS]: [Some msg] is
    [return False, msg]. *)
Definition check_required_key (config : Config) (key : string) : option Msg :=
  let value := config_get config key in
  if is_none value then Some (MsgMissingRequiredKey key)
  else
    or_else
      (if (key =? "relative_url")%string then
         let relative_path := config_get config "relative_url" in
         match relative_path with
         | VNone => None
         | VStr s => if re_match_disallowed s then Some MsgRelativeUrlCharacters else None
         | v => Some (MsgRelativeUrlNotBasestring v)
         end
       else None)
   (or_else
      (if (key =? "http")%string then
         let config_http := config_get config "http" in
         if (negb (is_none config_http) && negb (isinstance_bool config_http))%bool
         then Some (MsgHttpNotBoolean config_http) else None
       else None)
      (if (key =? "https")%string then
         let config_https := config_get config "https" in
         if (negb (is_none config_https) && negb (isinstance_bool config_https))%bool
         then Some (MsgHttpsNotBoolean config_https) else None
       else None)).

Fixpoint check_required_keys (config : Config) (keys : list string) : option Msg :=
  match keys with
  | [] => None
  | key :: rest => or_else (check_required_key config key) (check_required_keys config rest)
  end.

(** The outcome of the loop over [config.keys()]. *)
Inductive KeyCheck : Type :=
| Reject (m : Msg)
| Accept (auth_cert_bundle : CertBundle).

(** [config.get(key).encode('utf-8')] *)
Definition encode_utf8 (v : PyVal) : Res string :=
  match v with
  | VStr s => Ok s
  | _ => Raise (AttributeError "encode")
  end.

(** The body of [for key in config.keys()]. *)
Definition check_config_key (config : Config) (key : string) (bundle : CertBundle)
  : Res KeyCheck :=
  if (negb (mem_string key REQUIRED_CONFIG_KEYS) && negb (mem_string key OPTIONAL_CONFIG_KEYS))%bool
  then Ok (Reject (MsgKeyNotSupported key))
  else if (key =? "protected")%string then
    let protected := config_get config "protected" in
    if negb (isinstance_bool protected) then Ok (Reject (MsgProtectedNotBoolean protected))
    else Ok (Accept bundle)
  else if (key =? "use_createrepo")%string then
    let v := config_get config "use_createrepo" in
    if negb (isinstance_bool v) then Ok (Reject (MsgUseCreaterepoNotBoolean v))
    else Ok (Accept bundle)
  else if (key =? "checksum_type")%string then
    let checksum_type := config_get config "checksum_type" in
    if (negb (is_none checksum_type) && negb (util_is_valid_checksum_type checksum_type))%bool
    then Ok (Reject (MsgInvalidChecksumType checksum_type))
    else Ok (Accept bundle)
  else if (key =? "skip")%string then
    let metadata_types := config_get config "skip" in
    if negb (isinstance_list metadata_types) then Ok (Reject (MsgSkipNotList metadata_types))
    else Ok (Accept bundle)
  else if (key =? "auth_cert")%string then
    match encode_utf8 (config_get config "auth_cert") with
    | Raise e => Raise e
    | Ok auth_pem =>
        if negb (util_validate_cert auth_pem) then Ok (Reject MsgAuthCertInvalid)
        else Ok (Accept {| bundle_cert := Some auth_pem; bundle_ca := bundle_ca bundle |})
    end
  else if (key =? "auth_ca")%string then
    match encode_utf8 (config_get config "auth_ca") with
    | Raise e => Raise e
    | Ok auth_ca =>
        if negb (util_validate_cert auth_ca) then Ok (Reject MsgAuthCaInvalid)
        else Ok (Accept {| bundle_cert := bundle_cert bundle; bundle_ca := Some auth_ca |})
    end
  else Ok (Accept bundle).

Fixpoint check_config_keys (config : Config) (keys : list string) (bundle : CertBundle)
  : Res KeyCheck :=
  match keys with
  | [] => Ok (Accept bundle)
  | key :: rest =>
      match check_config_key config key bundle with
      | Ok (Accept bundle') => check_config_keys config rest bundle'
      | other => other
      end
  end.

(** [process_repo_auth_certificate_bundle] *)
Definition process_repo_auth_certificate_bundle (repo : string) (repo_relative_path : path)
    (cert_bundle : CertBundle) : Py unit :=
  if bundle_nonempty cert_bundle then
    call (EvWriteConsumerCertBundle repo cert_bundle)
         (write_consumer_cert_bundle repo cert_bundle) ;;;
    (* add repo to protected list *)
    call (EvAddProtectedRepo repo_relative_path repo)
         (add_protected_repo repo_relative_path repo)
  else
    (* remove stale info, if any *)
    call (EvDeleteProtectedRepo repo_relative_path)
         (delete_protected_repo repo_relative_path).

(** The check of an overriding publish directory: [Some msg] is
    [return False, msg]. *)
Definition check_publish_dir (config : Config) (key : string)
    (not_directory not_read_write : path -> Msg) : Py (option Msg) :=
  let publish_dir := config_get config key in
  if truthy publish_dir then
    d <- as_path publish_dir ;;
    there <- ask (os_path_exists d) ;;
    is_dir <- ask (os_path_isdir d) ;;
    if (negb there || negb is_dir)%bool then ret (Some (not_directory d))
    else
      readable <- ask (os_access_R_OK d) ;;
      writable <- ask (os_access_W_OK d) ;;
      if (negb readable || negb writable)%bool then ret (Some (not_read_write d))
      else ret None
  else ret None.

Definition validate_config (repo : Repo) (config : Config) : Py (bool * option Msg) :=
  match check_required_keys config REQUIRED_CONFIG_KEYS with
  | Some msg => LOG_error msg ;;; ret (false, Some msg)
  | None =>
      match check_config_keys config (config_keys config) empty_bundle with
      | Raise e => raise e
      | Ok (Reject msg) => LOG_error msg ;;; ret (false, Some msg)
      | Ok (Accept auth_cert_bundle) =>
          (* process auth certs *)
          repo_relative_path <- normalized_relative_path (get_repo_relative_path repo config) ;;
          process_repo_auth_certificate_bundle (repo_id repo) repo_relative_path
                                               auth_cert_bundle ;;;
          https_dir <- check_publish_dir config "https_publish_dir"
                         MsgHttpsPublishDirNotDirectory MsgHttpsPublishDirNotReadWrite ;;
          match https_dir with
          | Some msg => ret (false, Some msg)
          | None =>
              http_dir <- check_publish_dir config "http_publish_dir"
                            MsgHttpPublishDirNotDirectory MsgHttpPublishDirNotReadWrite ;;
              match http_dir with
              | Some msg => ret (false, Some msg)
              | None =>
                  conflict_items <-
                    fetch (get_repo_distributors_by_relative_url repo_relative_path
                                                                 (repo_id repo)) ;;
                  match conflict_items with
                  | item :: _ =>
                      let conflicting_url :=
                        match conflict_relative_url item with
                        | Some url => url
                        | None => conflict_repo_id item
                        end in
                      ret (false, Some (MsgRelativeUrlConflict repo_relative_path
                                          conflicting_url (conflict_repo_id item)))
                  | [] => ret (true, None)
                  end
              end
          end
      end
  end.

(** *** distributor_removed *)

(** [os.path.join(publish_dir, relpath).rstrip('/')] on the value returned
    by [get_https_publish_dir].  A publish directory that is not a string
    is taken to raise here: [posixpath.join] calls [endswith] on it
    (unless [relpath] is itself absolute, when the first collaborator
    handed the directory would be the one to reject it). *)
Definition repo_publish_dir (publish_dir : PyVal) (relpath : path) : Py (path * path) :=
  match publish_dir with
  | VStr d => ret (d, rstrip_slash (os_path_join d relpath))
  | _ => raise (AttributeError "endswith")
  end.

Definition distributor_removed (repo : Repo) (config : Config) : Py unit :=
  (* clean up any repo specific data *)
  repo_relative_path <- normalized_relative_path (get_repo_relative_path repo config) ;;
  call (EvDeleteCertsForRepo (repo_id repo)) (delete_for_repo (repo_id repo)) ;;;
  call (EvDeleteProtectedRepo repo_relative_path) (delete_protected_repo repo_relative_path) ;;;
  (* Clean up https and http publishing paths, if they exist *)
  ' (https_publish_dir, https_repo_publish_dir) <-
    repo_publish_dir (get_https_publish_dir config) repo_relative_path ;;
  ' (http_publish_dir, http_repo_publish_dir) <-
    repo_publish_dir (get_http_publish_dir config) repo_relative_path ;;
  https_there <- ask (os_path_exists https_repo_publish_dir) ;;
  (if https_there
   then call (EvRemoveRepoPublishDir https_publish_dir https_repo_publish_dir)
             (util_remove_repo_publish_dir https_publish_dir https_repo_publish_dir)
   else ret tt) ;;;
  http_there <- ask (os_path_exists http_repo_publish_dir) ;;
  (if http_there
   then call (EvRemoveRepoPublishDir http_publish_dir http_repo_publish_dir)
             (util_remove_repo_publish_dir http_publish_dir http_repo_publish_dir)
   else ret tt).

(** *** publish_repo *)

(** [x in skip_list] for [skip_list = config.get('skip') or []]. *)
Definition in_skip_list (x : string) (skip : PyVal) : Py bool :=
  if truthy skip then
    match skip with
    | VList l => ret (mem_string x l)
    | VStr s => ret (str_contains x s)
    | _ => raise (TypeError "argument is not iterable")
    end
  else ret false.

(** Distribution units and their symlinks: the units queried and the errors
    of [symlink_distribution_unit_files], both empty when distributions are
    skipped. *)
Definition publish_distribution_units (repo : Repo) (skip : PyVal)
  : Py (list Unit * list ErrorTuple) :=
  skipped <- in_skip_list "distribution" skip ;;
  if negb skipped then
    distro_units <- fetch (conduit_get_units [TYPE_ID_DISTRO]) ;;
    (* symlink distribution files if any under repo.working_dir *)
    ' (distro_status, distro_errors, t) <-
      symlink_distribution_unit_files distro_units (working_dir repo) true ;;
    (if negb distro_status
     then LOG_error (MsgUnableToPublishDistribution (length distro_errors))
     else ret tt) ;;;
    ret (distro_units, distro_errors)
  else ret ([], []).

(** Package units and their symlinks. *)
Definition publish_package_units (repo : Repo) (skip : PyVal)
  : Py (list Unit * list ErrorTuple) :=
  skipped <- in_skip_list "rpm" skip ;;
  if negb skipped then
    rpm_units <- fetch (conduit_get_units [TYPE_ID_RPM]) ;;
    srpm_units <- fetch (conduit_get_units [TYPE_ID_SRPM]) ;;
    let pkg_units := rpm_units ++ srpm_units in
    drpm_skipped <- in_skip_list "drpm" skip ;;
    drpm_units <- (if negb drpm_skipped then fetch (conduit_get_units [TYPE_ID_DRPM])
                   else ret []) ;;
    let pkg_units := pkg_units ++ drpm_units in
    (* Create symlinks under repo.working_dir *)
    ' (pkg_status, pkg_errors, t) <- handle_symlinks pkg_units (working_dir repo) true ;;
    (if negb pkg_status then LOG_error (MsgUnableToPublish (length pkg_errors)) else ret tt) ;;;
    ret (pkg_units, pkg_errors)
  else ret ([], []).

(** The handling of one protocol's publish link, written twice in the
    source, for HTTPS and for HTTP. *)
Definition handle_publish_link (phase : Phase) (summary_key : string) (enabled : PyVal)
    (repo_working_dir publish_dir repo_publish_dir : path) (summary : Summary)
  : Py Summary :=
  if truthy enabled then
    set_progress phase (StateOnly IN_PROGRESS) true ;;;
    try_except
      (call (EvCreateSymlink repo_working_dir repo_publish_dir)
            (util_create_symlink repo_working_dir repo_publish_dir) ;;;
       call (EvGenerateListingFiles publish_dir repo_publish_dir)
            (util_generate_listing_files publish_dir repo_publish_dir) ;;;
       let summary := summary ++ [(summary_key, VStr repo_publish_dir)] in
       set_progress phase (StateOnly FINISHED) true ;;;
       ret summary)
      (fun _ =>
         set_progress phase (StateOnly FAILED) true ;;;
         ret summary)
  else
    set_progress phase (StateOnly SKIPPED) true ;;;
    there <- ask (os_path_lexists repo_publish_dir) ;;
    (if there
     then call (EvRemoveRepoPublishDir publish_dir repo_publish_dir)
               (util_remove_repo_publish_dir publish_dir repo_publish_dir)
     else ret tt) ;;;
    ret summary.

(** Handle publish link for HTTPS, then for HTTP. *)
Definition handle_publish_links (repo : Repo) (config : Config)
    (https_publish_dir https_repo_publish_dir http_publish_dir http_repo_publish_dir : path)
    (summary : Summary) : Py Summary :=
  summary <- handle_publish_link publish_https "https_publish_dir" (config_get config "https")
               (working_dir repo) https_publish_dir https_repo_publish_dir summary ;;
  handle_publish_link publish_http "http_publish_dir" (config_get config "http")
    (working_dir repo) http_publish_dir http_repo_publish_dir summary.

(** Clean up the old publish directories, if they exist, and write the
    current relative path to the repository scratchpad. *)
Definition migrate_publish_path (relpath https_publish_dir http_publish_dir : path)
  : Py unit :=
  scratchpad <- fetch conduit_get_repo_scratchpad ;;
  match old_relative_path scratchpad with
  | Some old =>
      let old_https_repo_publish_dir := os_path_join https_publish_dir old in
      https_there <- ask (os_path_exists old_https_repo_publish_dir) ;;
      (if https_there
       then call (EvRemoveRepoPublishDir https_publish_dir old_https_repo_publish_dir)
                 (util_remove_repo_publish_dir https_publish_dir old_https_repo_publish_dir)
       else ret tt) ;;;
      let old_http_repo_publish_dir := os_path_join http_publish_dir old in
      http_there <- ask (os_path_exists old_http_repo_publish_dir) ;;
      (if http_there
       then call (EvRemoveRepoPublishDir http_publish_dir old_http_repo_publish_dir)
                 (util_remove_repo_publish_dir http_publish_dir old_http_repo_publish_dir)
       else ret tt)
  | None => ret tt
  end ;;;
  let scratchpad := {| old_relative_path := Some relpath; rs_other := rs_other scratchpad |} in
  call (EvSetRepoScratchpad scratchpad) (conduit_set_repo_scratchpad scratchpad).

Definition is_type (t : string) (u : Unit) : bool := (type_id u =? t)%string.

Definition publish_repo (repo : Repo) (config : Config) : Py (Report Clock) :=
  let summary : Summary := [] in
  modify (with_progress_status initial_progress_status) ;;;
  modify (with_repo_working_dir (working_dir repo)) ;;;
  canceled_at_start <- gets canceled ;;
  if canceled_at_start then ret (CancelReport summary) else
  let skip := config_get config "skip" in
  (* Determine Content in this repo *)
  ' (distro_units, distro_errors) <- publish_distribution_units repo skip ;;
  ' (pkg_units, pkg_errors) <- publish_package_units repo skip ;;
  erratum_skipped <- in_skip_list "erratum" skip ;;
  updateinfo_xml_path <-
    (if negb erratum_skipped then
       errata_units <- fetch (conduit_get_units [TYPE_ID_ERRATA]) ;;
       call (EvUpdateinfo (working_dir repo))
            (updateinfo_updateinfo errata_units (working_dir repo))
     else ret None) ;;
  canceled_now <- gets canceled ;;
  if canceled_now then ret (CancelReport summary) else
  groups_skipped <- in_skip_list "packagegroup" skip ;;
  ' (groups_xml_path, existing_groups, existing_cats) <-
    (if negb groups_skipped then
       existing_units <- fetch (conduit_get_units [TYPE_ID_PKG_GROUP; TYPE_ID_PKG_CATEGORY]) ;;
       let existing_groups := filter (is_type TYPE_ID_PKG_GROUP) existing_units in
       let existing_cats := filter (is_type TYPE_ID_PKG_CATEGORY) existing_units in
       groups_xml_path <- call (EvWriteCompsXml (working_dir repo))
                               (comps_util_write_comps_xml (working_dir repo)
                                                           existing_groups existing_cats) ;;
       ret (groups_xml_path, existing_groups, existing_cats)
     else ret (None, [], [])) ;;
  metadata_start_time <- fetch (fun w => let '(c, w') := time_time w in (Ok c, w')) ;;
  (* update/generate metadata for the published repo *)
  modify (with_use_createrepo (config_get config "use_createrepo")) ;;;
  ' (metadata_status, metadata_errors) <-
    (if truthy (config_get config "use_createrepo") then
       call (EvGenerateMetadata (working_dir repo))
            (metadata_generate_metadata (working_dir repo) config groups_xml_path)
     else
       is_cancelled <- gets canceled ;;
       repo_scratchpad <- fetch conduit_get_repo_scratchpad ;;
       call (EvGenerateMetadata (working_dir repo))
            (metadata_generate_yum_metadata (repo_id repo) (working_dir repo) config
               is_cancelled groups_xml_path updateinfo_xml_path repo_scratchpad)) ;;
  metadata_end_time <- fetch (fun w => let '(c, w') := time_time w in (Ok c, w')) ;;
  relpath <- normalized_relative_path (get_repo_relative_path repo config) ;;
  (* Build the https and http publishing paths *)
  ' (https_publish_dir, https_repo_publish_dir) <-
    repo_publish_dir (get_https_publish_dir config) relpath ;;
  ' (http_publish_dir, http_repo_publish_dir) <-
    repo_publish_dir (get_http_publish_dir config) relpath ;;
  migrate_publish_path relpath https_publish_dir http_publish_dir ;;;
  summary <- handle_publish_links repo config https_publish_dir https_repo_publish_dir
               http_publish_dir http_repo_publish_dir summary ;;
  let summary := summary ++
    [("num_package_units_attempted", VInt (Z.of_nat (length pkg_units)));
     ("num_package_units_published",
        VInt (Z.of_nat (length pkg_units) - Z.of_nat (length pkg_errors)));
     ("num_package_units_errors", VInt (Z.of_nat (length pkg_errors)));
     ("num_distribution_units_attempted", VInt (Z.of_nat (length distro_units)));
     ("num_distribution_units_published",
        VInt (Z.of_nat (length distro_units) - Z.of_nat (length distro_errors)));
     ("num_distribution_units_errors", VInt (Z.of_nat (length distro_errors)));
     ("num_package_groups_published", VInt (Z.of_nat (length existing_groups)));
     ("num_package_categories_published", VInt (Z.of_nat (length existing_cats)));
     ("relative_path", VStr relpath);
     ("skip_metadata_update",
        VBool (negb metadata_status && match metadata_errors with [] => true | _ => false end))] in
  let details := {| errors := pkg_errors ++ distro_errors; (* metadata_errors *)
                    time_metadata_sec := clock_sub metadata_end_time metadata_start_time |} in
  match errors details with
  | _ :: _ => ret (FailureReport summary details)
  | [] => ret (SuccessReport summary details)
  end.

End YumDistributor.

(** ** An in-memory host

    A small world to run the distributor in: a flat filesystem of files,
    directories and symlinks, the conduit's stored scratchpads and units,
    the protected-repo listing and the certificate store.  The [util]
    helpers, the conduits and the repo_auth utilities are not part of the
    distributor's source; their behaviour here follows what the
    specification says of them. *)

Module MemHost.

Inductive Node : Type :=
| NFile
| NDir
| NLink (target : path).

Record World : Type := {
  fs : list (path * Node);
  denied : list path;                       (* paths where creation raises OSError *)
  stored_scratchpad : option Scratchpad;
  stored_repo_scratchpad : RepoScratchpad;
  stored_units : list Unit;
  reported_progress : option ProgressStatus;
  protected_repos : list (path * string);
  cert_bundles : list (string * CertBundle);
  other_distributors : list (path * ConflictItem);
  metadata_outcome : bool * list string;
  now : Z
}.

Definition with_fs (f : list (path * Node)) (w : World) : World :=
  {| fs := f; denied := denied w; stored_scratchpad := stored_scratchpad w;
     stored_repo_scratchpad := stored_repo_scratchpad w; stored_units := stored_units w;
     reported_progress := reported_progress w; protected_repos := protected_repos w;
     cert_bundles := cert_bundles w; other_distributors := other_distributors w;
     metadata_outcome := metadata_outcome w; now := now w |}.

Fixpoint node_at (f : list (path * Node)) (p : path) : option Node :=
  match f with
  | [] => None
  | (q, n) :: rest => if (q =? p)%string then Some n else node_at rest p
  end.

Fixpoint remove_node (f : list (path * Node)) (p : path) : list (path * Node) :=
  match f with
  | [] => []
  | (q, n) :: rest => if (q =? p)%string then remove_node rest p else (q, n) :: remove_node rest p
  end.

Definition put_node (f : list (path * Node)) (p : path) (n : Node) : list (path * Node) :=
  remove_node f p ++ [(p, n)].

Definition lexists (p : path) (w : World) : bool :=
  match node_at (fs w) p with Some _ => true | None => false end.

Definition islink (p : path) (w : World) : bool :=
  match node_at (fs w) p with Some (NLink _) => true | _ => false end.

(** [os.path.exists] follows a symlink to its target. *)
Definition exists_ (p : path) (w : World) : bool :=
  match node_at (fs w) p with
  | Some (NLink t) => match node_at (fs w) t with Some _ => true | None => false end
  | Some _ => true
  | None => false
  end.

Definition isdir (p : path) (w : World) : bool :=
  match node_at (fs w) p with
  | Some (NLink t) => match node_at (fs w) t with Some NDir => true | _ => false end
  | Some NDir => true
  | _ => false
  end.

Definition unlink (p : path) (w : World) : Res unit * World :=
  match node_at (fs w) p with
  | Some _ => (Ok tt, with_fs (remove_node (fs w) p) w)
  | None => (Raise (OSError "No such file or directory"), w)
  end.

Definition makedirs (p : path) (w : World) : Res unit * World :=
  match node_at (fs w) p with
  | Some _ => (Raise (OSError "File exists"), w)
  | None => (Ok tt, with_fs (put_node (fs w) p NDir) w)
  end.

(** Modelled from the spec: [util.create_symlink] is not in the source at
    hand.  It ensures a symlink at [symlink_path] pointing at
    [source_path]; it reports a failure by returning [False] when something
    that is not a symlink is in the way, and an OS-level error (here: a
    path of [denied]) is raised. *)
Definition create_symlink (source_path symlink_path : path) (w : World) : Res bool * World :=
  if mem_string symlink_path (denied w) then (Raise (OSError "Permission denied"), w)
  else
    match node_at (fs w) symlink_path with
    | Some (NLink t) =>
        if (t =? source_path)%string then (Ok true, w)
        else (Ok true, with_fs (put_node (fs w) symlink_path (NLink source_path)) w)
    | Some _ => (Ok false, w)
    | None => (Ok true, with_fs (put_node (fs w) symlink_path (NLink source_path)) w)
    end.

(** Modelled from the spec: [util.remove_repo_publish_dir] is not in the
    source at hand.  It removes the published link; pruning of emptied
    parent directories has nothing to do in a flat filesystem. *)
Definition remove_repo_publish_dir (publish_dir link_path : path) (w : World)
  : Res unit * World :=
  (Ok tt, with_fs (remove_node (fs w) link_path) w).

(** Modelled from the spec: [util.generate_listing_files] is not in the
    source at hand.  It (re)writes an index file under the publish root. *)
Definition generate_listing_files (publish_dir repo_publish_dir : path) (w : World)
  : Res unit * World :=
  if mem_string publish_dir (denied w) then (Raise (OSError "Permission denied"), w)
  else (Ok tt, with_fs (put_node (fs w) (os_path_join publish_dir "listing") NFile) w).

Definition get_units (type_ids : list string) (w : World) : Res (list Unit) * World :=
  (Ok (filter (fun u => mem_string (type_id u) type_ids) (stored_units w)), w).

Definition set_scratchpad (sp : Scratchpad) (w : World) : Res unit * World :=
  (Ok tt,
   {| fs := fs w; denied := denied w; stored_scratchpad := Some sp;
      stored_repo_scratchpad := stored_repo_scratchpad w; stored_units := stored_units w;
      reported_progress := reported_progress w; protected_repos := protected_repos w;
      cert_bundles := cert_bundles w; other_distributors := other_distributors w;
      metadata_outcome := metadata_outcome w; now := now w |}).

Definition set_repo_scratchpad (rs : RepoScratchpad) (w : World) : Res unit * World :=
  (Ok tt,
   {| fs := fs w; denied := denied w; stored_scratchpad := stored_scratchpad w;
      stored_repo_scratchpad := rs; stored_units := stored_units w;
      reported_progress := reported_progress w; protected_repos := protected_repos w;
      cert_bundles := cert_bundles w; other_distributors := other_distributors w;
      metadata_outcome := metadata_outcome w; now := now w |}).

Definition set_progress_report (ps : ProgressStatus) (w : World) : World :=
  {| fs := fs w; denied := denied w; stored_scratchpad := stored_scratchpad w;
     stored_repo_scratchpad := stored_repo_scratchpad w; stored_units := stored_units w;
     reported_progress := Some ps; protected_repos := protected_repos w;
     cert_bundles := cert_bundles w; other_distributors := other_distributors w;
     metadata_outcome := metadata_outcome w; now := now w |}.

Definition with_protected (l : list (path * string)) (w : World) : World :=
  {| fs := fs w; denied := denied w; stored_scratchpad := stored_scratchpad w;
     stored_repo_scratchpad := stored_repo_scratchpad w; stored_units := stored_units w;
     reported_progress := reported_progress w; protected_repos := l;
     cert_bundles := cert_bundles w; other_distributors := other_distributors w;
     metadata_outcome := metadata_outcome w; now := now w |}.

Definition with_cert_bundles (l : list (string * CertBundle)) (w : World) : World :=
  {| fs := fs w; denied := denied w; stored_scratchpad := stored_scratchpad w;
     stored_repo_scratchpad := stored_repo_scratchpad w; stored_units := stored_units w;
     reported_progress := reported_progress w; protected_repos := protected_repos w;
     cert_bundles := l; other_distributors := other_distributors w;
     metadata_outcome := metadata_outcome w; now := now w |}.

Definition tick (w : World) : Z * World :=
  (now w,
   {| fs := fs w; denied := denied w; stored_scratchpad := stored_scratchpad w;
      stored_repo_scratchpad := stored_repo_scratchpad w; stored_units := stored_units w;
      reported_progress := reported_progress w; protected_repos := protected_repos w;
      cert_bundles := cert_bundles w; other_distributors := other_distributors w;
      metadata_outcome := metadata_outcome w; now := now w + 1 |}).

Definition distributors_by_relative_url (rel : path) (repo : string) (w : World)
  : Res (list ConflictItem) * World :=
  (Ok (map snd (filter (fun e => ((fst e =? rel)%string
                                  && negb (conflict_repo_id (snd e) =? repo)%string)%bool)
                       (other_distributors w))), w).

#[export] Instance mem_host : Host World := {|
  Clock := Z;
  time_time := tick;
  clock_sub := Z.sub;
  TREE_INFO_LIST := [".treeinfo"; "treeinfo"];
  TYPE_ID_RPM := "rpm";
  TYPE_ID_SRPM := "srpm";
  TYPE_ID_DRPM := "drpm";
  TYPE_ID_ERRATA := "erratum";
  TYPE_ID_DISTRO := "distribution";
  TYPE_ID_PKG_GROUP := "package_group";
  TYPE_ID_PKG_CATEGORY := "package_category";
  os_path_exists := exists_;
  os_path_lexists := lexists;
  os_path_islink := islink;
  os_path_isdir := isdir;
  os_access_R_OK := exists_;
  os_access_W_OK := exists_;
  os_unlink := unlink;
  os_makedirs := makedirs;
  util_create_symlink := create_symlink;
  util_remove_repo_publish_dir := remove_repo_publish_dir;
  util_generate_listing_files := generate_listing_files;
  util_get_relpath_from_unit := fun u => unit_id u ++ ".rpm";
  util_is_valid_checksum_type :=
    fun v => match v with VStr s => mem_string s ["sha"; "sha1"; "sha256"; "md5"] | _ => false end;
  util_validate_cert := fun pem => String.prefix "-----BEGIN CERTIFICATE-----" pem;
  conduit_get_units := get_units;
  conduit_get_scratchpad := fun w => (Ok (stored_scratchpad w), w);
  conduit_set_scratchpad := set_scratchpad;
  conduit_get_repo_scratchpad := fun w => (Ok (stored_repo_scratchpad w), w);
  conduit_set_repo_scratchpad := set_repo_scratchpad;
  conduit_set_progress := set_progress_report;
  get_repo_distributors_by_relative_url := distributors_by_relative_url;
  updateinfo_updateinfo := fun _ _ w => (Ok None, w);
  comps_util_write_comps_xml := fun _ _ _ w => (Ok None, w);
  metadata_generate_metadata := fun _ _ _ w => (Ok (metadata_outcome w), w);
  metadata_generate_yum_metadata := fun _ _ _ _ _ _ _ w => (Ok (metadata_outcome w), w);
  write_consumer_cert_bundle :=
    fun repo b w => (Ok tt, with_cert_bundles (cert_bundles w ++ [(repo, b)]) w);
  delete_for_repo :=
    fun repo w => (Ok tt, with_cert_bundles
                            (filter (fun e => negb (fst e =? repo)%string) (cert_bundles w)) w);
  add_protected_repo :=
    fun rel repo w => (Ok tt, with_protected (protected_repos w ++ [(rel, repo)]) w);
  delete_protected_repo :=
    fun rel w => (Ok tt, with_protected
                           (filter (fun e => negb (fst e =? rel)%string) (protected_repos w)) w)
|}.

(** A world with nothing in it. *)
Definition empty_world : World :=
  {| fs := []; denied := []; stored_scratchpad := None;
     stored_repo_scratchpad := {| old_relative_path := None; rs_other := [] |};
     stored_units := []; reported_progress := None; protected_repos := [];
     cert_bundles := []; other_distributors := []; metadata_outcome := (true, []); now := 0 |}.

(** The manifest the conduit has stored. *)
Definition persisted_manifest (w : World) : PyDict (list path) :=
  match stored_scratchpad w with
  | Some sp => match published_distributions sp with Some m => m | None => [] end
  | None => []
  end.

End MemHost.

(** ** Concrete repositories *)

Module Scenario.
Import MemHost.

Definition distro_unit (id : string) (package_subdir : option string) (files : option (list string))
  : Unit :=
  {| unit_id := id; type_id := "distribution"; storage_path := "/content/" ++ id;
     metadata := {| md_packagedir := package_subdir;
                    md_files := option_map (map (fun f => {| relativepath := f |})) files |} |}.

Definition rpm_unit (id : string) : Unit :=
  {| unit_id := id; type_id := "rpm"; storage_path := "/content/" ++ id ++ ".rpm";
     metadata := {| md_packagedir := None; md_files := None |} |}.

Definition repo1 : Repo :=
  {| repo_id := "repo1"; working_dir := "/wd"; display_name := "Repo 1" |}.

(** U1 owns the files a and b, U2 the file c. *)
Definition U1 : Unit := distro_unit "U1" None (Some ["a"; "b"]).
Definition U2 : Unit := distro_unit "U2" None (Some ["c"]).

(** A unit whose metadata has no 'files' key. *)
Definition U_nofiles : Unit := distro_unit "U0" None None.

(** The content storage of U1 and U2. *)
Definition content : list (path * Node) :=
  [("/content/U1/a", NFile); ("/content/U1/b", NFile); ("/content/U2/c", NFile)].

Definition content_world : World := with_fs content empty_world.

(** After a publish of U1 and U2: the three links exist and the manifest
    lists them under their units. *)
Definition both_published : World :=
  snd (set_scratchpad
         {| published_distributions :=
              Some [Some ("U1", ["/wd/a"; "/wd/b"]); Some ("U2", ["/wd/c"])];
            sp_other := [] |}
         (with_fs (content ++ [("/wd/a", NLink "/content/U1/a");
                               ("/wd/b", NLink "/content/U1/b");
                               ("/wd/c", NLink "/content/U2/c")])
                  empty_world)).

(** Two packages in storage. *)
Definition packages_world : World :=
  with_fs [("/content/p1.rpm", NFile); ("/content/p2.rpm", NFile)] empty_world.

(** The same, with a plain file where the first link of p1 should go. *)
Definition first_link_blocked : World :=
  with_fs [("/content/p1.rpm", NFile); ("/wd/p1.rpm", NFile)] empty_world.

(** The same, with a plain file where the second link of p1 should go. *)
Definition second_link_blocked : World :=
  with_fs [("/content/p1.rpm", NFile); ("/wd/Packages/p1.rpm", NFile)] empty_world.

Definition minimal_config (relative_url : string) : Config :=
  [("relative_url", VStr relative_url); ("http", VBool true); ("https", VBool true)].

(** Another repository, repo2, already publishes under "shared" and is
    protected there. *)
Definition claimed_world : World :=
  {| fs := []; denied := []; stored_scratchpad := None;
     stored_repo_scratchpad := {| old_relative_path := None; rs_other := [] |};
     stored_units := []; reported_progress := None;
     protected_repos := [("shared", "repo2")];
     cert_bundles := [];
     other_distributors :=
       [("shared", {| conflict_repo_id := "repo2"; conflict_relative_url := Some "shared" |})];
     metadata_outcome := (true, []); now := 0 |}.

(** One package in storage; metadata generation reports a failure. *)
Definition metadata_failing_world : World :=
  {| fs := [("/content/p1.rpm", NFile)]; denied := []; stored_scratchpad := None;
     stored_repo_scratchpad := {| old_relative_path := None; rs_other := [] |};
     stored_units := [rpm_unit "p1"]; reported_progress := None; protected_repos := [];
     cert_bundles := []; other_distributors := [];
     metadata_outcome := (false, ["metadata generation failed"]); now := 0 |}.

(** One package associated with the repository, missing from storage. *)
Definition missing_package_world : World :=
  {| fs := []; denied := []; stored_scratchpad := None;
     stored_repo_scratchpad := {| old_relative_path := None; rs_other := [] |};
     stored_units := [rpm_unit "p1"]; reported_progress := None; protected_repos := [];
     cert_bundles := []; other_distributors := [];
     metadata_outcome := (true, []); now := 0 |}.

Definition https_only_config : Config :=
  [("relative_url", VStr "r"); ("http", VBool false); ("https", VBool true)].

(** The HTTPS publish root cannot be written to. *)
Definition https_denied_world : World :=
  {| fs := []; denied := ["/var/lib/pulp/published/https/repos/r"];
     stored_scratchpad := None;
     stored_repo_scratchpad := {| old_relative_path := None; rs_other := [] |};
     stored_units := []; reported_progress := None; protected_repos := [];
     cert_bundles := []; other_distributors := [];
     metadata_outcome := (true, []); now := 0 |}.

End Scenario.

Local Open Scope list_scope.

(** ** Reading a call trace *)

Definition is_set_scratchpad (ev : Event) : bool :=
  match ev with EvSetScratchpad _ => true | _ => false end.

Definition is_set_progress (ev : Event) : bool :=
  match ev with EvSetProgress _ => true | _ => false end.

Definition is_create_symlink (ev : Event) : bool :=
  match ev with EvCreateSymlink _ _ => true | _ => false end.

Definition not_set_scratchpad (ev : Event) : bool := negb (is_set_scratchpad ev).

(** The calls of the certificate and protected-repo bookkeeping. *)
Definition is_auth_bookkeeping (ev : Event) : bool :=
  match ev with
  | EvWriteConsumerCertBundle _ _ | EvAddProtectedRepo _ _ | EvDeleteProtectedRepo _ => true
  | _ => false
  end.

Definition any_event (ev : Event) : bool := true.

(** The collaborator calls made between [s] and [s'], progress reports
    left out. *)
Definition link_calls {W} (s s' : PyState W) : list Event :=
  filter (fun ev => negb (is_set_progress ev)) (skipn (length (calls s)) (calls s')).

(** [m] only appends to the call trace, and every call it appends
    satisfies [P]. *)
Definition emits {W A} (P : Event -> bool) (m : M (PyState W) A) : Prop :=
  forall s, exists evs, calls (snd (m s)) = calls s ++ evs /\ forallb P evs = true.

(** ** Outcomes of the symlink reconciler *)

(** An error tuple that reports a refused link ([create_symlink] returned
    [False]) at the package-subdirectory path of one of [units]. *)
Definition second_link_refusal {W} {host : Host W} (symlink_dir package_subdir : path)
    (units : list Unit) (e : ErrorTuple) : bool :=
  match e with
  | (_, symlink_path, MsgUnableToCreateSymlink _ _) =>
      existsb (fun u => (symlink_path =?
                         os_path_join3 symlink_dir package_subdir
                                       (util_get_relpath_from_unit u))%string) units
  | _ => false
  end.

(** No error of [errors] reports a refused second link. *)
Definition no_second_link_refusal {W} {host : Host W} (package_subdir : option string)
    (symlink_dir : path) (units : list Unit) (errors : list ErrorTuple) : bool :=
  match package_subdir with
  | None => true
  | Some pd => forallb (fun e => negb (second_link_refusal symlink_dir pd units e)) errors
  end.

(** The three ways one unit can change the tracker and the error list. *)
Inductive unit_outcome {W} {host : Host W} (symlink_dir : path) (u : Unit) (pd : option string)
    (t t' : Tracker) (extra : list ErrorTuple) : Prop :=
| outcome_success :
    num_success t' = num_success t + 1 -> num_error t' = num_error t ->
    items_left t' = items_left t - 1 -> extra = [] ->
    unit_outcome symlink_dir u pd t t' extra
| outcome_error e :
    num_success t' = num_success t -> num_error t' = num_error t + 1 ->
    items_left t' = items_left t - 1 -> extra = [e] ->
    unit_outcome symlink_dir u pd t t' extra
| outcome_second_link_refused package_subdir :
    pd = Some package_subdir ->
    num_success t' = num_success t + 1 -> num_error t' = num_error t + 1 ->
    items_left t' = items_left t - 2 ->
    extra = [(storage_path u,
              os_path_join3 symlink_dir package_subdir (util_get_relpath_from_unit u),
              MsgUnableToCreateSymlink
                (os_path_join3 symlink_dir package_subdir (util_get_relpath_from_unit u))
                (storage_path u))] ->
    unit_outcome symlink_dir u pd t t' extra.

(** ** Rejections and reports *)

(** The rejections [validate_config] returns after the auth certificates
    have been processed: those of the publish directories and of the
    relative-url conflict. *)
Definition late_rejection (m : Msg) : bool :=
  match m with
  | MsgHttpsPublishDirNotDirectory _ | MsgHttpsPublishDirNotReadWrite _
  | MsgHttpPublishDirNotDirectory _ | MsgHttpPublishDirNotReadWrite _
  | MsgRelativeUrlConflict _ _ _ => true
  | _ => false
  end.

(** The report is not a cancel report. *)
Definition completed {D} (r : Report D) : bool :=
  match r with CancelReport _ => false | _ => true end.

Definition is_failure {D} (r : Report D) : bool :=
  match r with FailureReport _ _ => true | _ => false end.

Definition is_success {D} (r : Report D) : bool :=
  match r with SuccessReport _ _ => true | _ => false end.

Definition report_summary {D} (r : Report D) : Summary :=
  match r with
  | CancelReport sm | FailureReport sm _ | SuccessReport sm _ => sm
  end.

Definition report_errors {D} (r : Report D) : list ErrorTuple :=
  match r with
  | CancelReport _ => []
  | FailureReport _ d | SuccessReport _ d => errors d
  end.

(** The entries [publish_repo] adds to the summary after the protocol
    steps. *)
Definition final_counts (pkg_units distro_units : list Unit)
    (pkg_errors distro_errors : list ErrorTuple) (groups cats : nat)
    (relpath : path) (skip_metadata_update : bool) : Summary :=
  [("num_package_units_attempted", VInt (Z.of_nat (length pkg_units)));
   ("num_package_units_published",
      VInt (Z.of_nat (length pkg_units) - Z.of_nat (length pkg_errors)));
   ("num_package_units_errors", VInt (Z.of_nat (length pkg_errors)));
   ("num_distribution_units_attempted", VInt (Z.of_nat (length distro_units)));
   ("num_distribution_units_published",
      VInt (Z.of_nat (length distro_units) - Z.of_nat (length distro_errors)));
   ("num_distribution_units_errors", VInt (Z.of_nat (length distro_errors)));
   ("num_package_groups_published", VInt (Z.of_nat groups));
   ("num_package_categories_published", VInt (Z.of_nat cats));
   ("relative_path", VStr relpath);
   ("skip_metadata_update", VBool skip_metadata_update)].

(** ** Reading a configuration *)

(** The PEM text [config] holds under [key], when the key is one of
    [config.keys()] and its value is a string. *)
Definition config_pem (config : Config) (key : string) : option string :=
  if mem_string key (config_keys config) then
    match config_get config key with
    | VStr pem => Some pem
    | _ => None
    end
  else None.

(** The calls [process_repo_auth_certificate_bundle] makes when both
    return. *)
Definition auth_bookkeeping_calls (repo : string) (rel : path) (bundle : CertBundle)
  : list Event :=
  if bundle_nonempty bundle
  then [EvWriteConsumerCertBundle repo bundle; EvAddProtectedRepo rel repo]
  else [EvDeleteProtectedRepo rel].

Definition no_event (ev : Event) : bool := false.

(** ** Concrete configurations *)

Module ValidationScenario.
Import MemHost Scenario.

(** A configuration with optional keys and a CA certificate. *)
Definition full_config : Config :=
  minimal_config "/pub/r"
  ++ [("protected", VBool true); ("skip", VList ["drpm"]); ("checksum_type", VStr "sha256");
      ("auth_ca", VStr "-----BEGIN CERTIFICATE-----MIIC")].

(** A world with a directory to publish under. *)
Definition override_world : World :=
  with_fs [("/srv/https", NDir)] empty_world.

End ValidationScenario.

(** ** Reading the reconciler's results *)

(** The calls [handle_symlinks] may make: link creations, and progress
    reports when it was given a callback. *)
Definition link_or_progress (callback : bool) (ev : Event) : bool :=
  (is_create_symlink ev || (callback && is_set_progress ev))%bool.

(** The error tuple of a unit whose source is missing from storage. *)
Definition missing_source_error {W} {host : Host W} (symlink_dir : path) (u : Unit)
  : ErrorTuple :=
  (storage_path u, os_path_join symlink_dir (util_get_relpath_from_unit u),
   MsgSourcePathMissing (storage_path u)).

(** ** Reading the distribution pass *)

(** The files of a unit, none when its metadata has no ['files'] entry. *)
Definition files_of (u : Unit) : list DistroFile :=
  match md_files (metadata u) with
  | Some files => files
  | None => []
  end.

(** The number of files of the last unit of [units], 0 without units. *)
Definition last_unit_file_count (units : list Unit) : Z :=
  match units with
  | [] => 0
  | u :: _ => Z.of_nat (length (files_of (last units u)))
  end.

(** The paths the manifest [d] lists under ids that are not in [ids]. *)
Fixpoint orphan_paths (ids : list string) (d : PyDict (list path)) : list path :=
  match d with
  | [] => []
  | Some (k, paths) :: rest =>
      if mem_string k ids then orphan_paths ids rest else paths ++ orphan_paths ids rest
  | None :: rest => orphan_paths ids rest
  end.

(** A removal, under [repo_working_dir], of one of [paths]. *)
Definition removes_one_of (repo_working_dir : path) (paths : list path) (ev : Event) : bool :=
  match ev with
  | EvRemoveRepoPublishDir d p => ((d =? repo_working_dir)%string && mem_string p paths)%bool
  | _ => false
  end.

(** The manifest of a scratchpad: the default of [scratchpad.get] is
    empty. *)
Definition manifest_of (sp : Scratchpad) : PyDict (list path) :=
  match published_distributions sp with
  | Some d => d
  | None => []
  end.

(** ** Cancellation *)

Section Cancellation.
Context {W : Type} {host : Host W}.
Local Open Scope py_scope.

(** [metadata.cancel_createrepo], given the working directory; what it
    returns is handed on as it comes. *)
Variable metadata_cancel_createrepo : path -> W -> Res PyVal * W.

(** [cancel_publish_repo].  [self.repo_working_dir] is an attribute that
    only [publish_repo] sets; reading it before that raises
    [AttributeError].  The call of [cancel_createrepo] is no part of a
    publish and is not entered in the publish call trace. *)
Definition cancel_publish_repo : Py PyVal :=
  modify (with_canceled true) ;;;
  createrepo <- gets use_createrepo ;;
  if truthy createrepo then
    wd <- gets repo_working_dir ;;
    match wd with
    | Some d => fetch (metadata_cancel_createrepo d)
    | None => raise (AttributeError "repo_working_dir")
    end
  else ret VNone.

End Cancellation.

(** ** What a computation leaves alone *)

(** [m] leaves the part [f] of the state as it was, whether it returns or
    raises. *)
Definition keeps {W X A} (f : PyState W -> X) (m : M (PyState W) A) : Prop :=
  forall s, f (snd (m s)) = f s.

(** ** Reading a publish report *)

(** The phase entry says FINISHED. *)
Definition is_finished (v : PhaseStatus) : bool :=
  match v with
  | StateOnly FINISHED => true
  | _ => false
  end.

(** The phase entry is one a protocol step ends with. *)
Definition is_final_protocol_state (v : PhaseStatus) : bool :=
  match v with
  | StateOnly FINISHED | StateOnly FAILED | StateOnly SKIPPED => true
  | _ => false
  end.

Module OrchestratorScenario.
Import MemHost Scenario.

(** U1 is associated with the repository; nothing is in storage. *)
Definition distribution_missing_world : World :=
  {| fs := []; denied := []; stored_scratchpad := None;
     stored_repo_scratchpad := {| old_relative_path := None; rs_other := [] |};
     stored_units := [U1]; reported_progress := None; protected_repos := [];
     cert_bundles := []; other_distributors := [];
     metadata_outcome := (true, []); now := 0 |}.

(** The repository was published under "r" over both protocols. *)
Definition published_world : World :=
  {| fs := [("/wd", NDir);
            ("/var/lib/pulp/published/https/repos/r", NLink "/wd");
            ("/var/lib/pulp/published/http/repos/r", NLink "/wd")];
     denied := []; stored_scratchpad := None;
     stored_repo_scratchpad :=
       {| old_relative_path := Some "r"; rs_other := [("importer", VStr "yum")] |};
     stored_units := [rpm_unit "p1"; rpm_unit "p2"]; reported_progress := None;
     protected_repos := [("r", "repo1")];
     cert_bundles := []; other_distributors := [];
     metadata_outcome := (true, []); now := 0 |}.

End OrchestratorScenario.

(** ** copy_importer_repodata

    The method reads no field of the distributor; it runs over the world
    and the error-level log lines it writes. *)

(** The two error-level lines of the [except] clause. *)
Inductive RepodataLog : Type :=
| LogUnableToCopyRepodata (src_working_dir tgt_working_dir : path)
| LogTraceback (e : Exn).

Record RepodataState (W : Type) : Type := {
  rd_world : W;
  rd_log : list RepodataLog
}.
Arguments rd_world {W} r.
Arguments rd_log {W} r.

(** A query of the world. *)
Definition rd_ask {W} (q : W -> bool) : M (RepodataState W) bool :=
  fun s => (Ok (q (rd_world s)), s).

(** A call that changes the world; the world it leaves is kept whether it
    returns or raises. *)
Definition rd_call {W A} (op : W -> Res A * W) : M (RepodataState W) A :=
  fun s => let '(r, w') := op (rd_world s) in (r, {| rd_world := w'; rd_log := rd_log s |}).

(** [_LOG.error(line)] *)
Definition rd_error {W} (line : RepodataLog) : M (RepodataState W) unit :=
  fun s => (Ok tt, {| rd_world := rd_world s; rd_log := rd_log s ++ [line] |}).

(** The exceptions the clause [except (IOError, OSError)] catches; both
    classes are [OSError] here. *)
Definition is_os_error (e : Exn) : bool :=
  match e with
  | OSError _ => true
  | _ => false
  end.

Section Repodata.
Context {W : Type} {host : Host W}.
Local Open Scope py_scope.

(** [shutil.rmtree] and [shutil.copytree]. *)
Variable shutil_rmtree : path -> W -> Res unit * W.
Variable shutil_copytree : path -> path -> W -> Res unit * W.

(** [copy_importer_repodata]: the body of the [try] returns [false] for
    its early [return False] and [true] when it falls through to the
    [return True] after the [try]. *)
Definition copy_importer_repodata (src_working_dir tgt_working_dir : path)
  : M (RepodataState W) bool :=
  try_except
    (let src_repodata_dir := os_path_join src_working_dir "repodata" in
     src_there <- rd_ask (os_path_exists src_repodata_dir) ;;
     if negb src_there then ret false
     else
       let tgt_repodata_dir := os_path_join tgt_working_dir "repodata" in
       tgt_there <- rd_ask (os_path_exists tgt_repodata_dir) ;;
       (if tgt_there then rd_call (shutil_rmtree tgt_repodata_dir) else ret tt) ;;;
       rd_call (shutil_copytree src_repodata_dir tgt_repodata_dir) ;;;
       ret true)
    (fun e =>
       if is_os_error e then
         rd_error (LogUnableToCopyRepodata src_working_dir tgt_working_dir) ;;;
         rd_error (LogTraceback e) ;;;
         ret false
       else raise e).

End Repodata.

Module RepodataScenario.
Import MemHost Scenario.

(** [shutil.rmtree] on the flat filesystem: the node is removed. *)
Definition rmtree (p : path) (w : World) : Res unit * World :=
  match node_at (fs w) p with
  | Some _ => (Ok tt, with_fs (remove_node (fs w) p) w)
  | None => (Raise (OSError "No such file or directory"), w)
  end.

(** [shutil.copytree] on the flat filesystem: the destination must not
    exist, and cannot be created at a path of [denied]. *)
Definition copytree (src dst : path) (w : World) : Res unit * World :=
  if mem_string dst (denied w) then (Raise (OSError "Permission denied"), w)
  else
    match node_at (fs w) dst with
    | Some _ => (Raise (OSError "File exists"), w)
    | None => (Ok tt, with_fs (put_node (fs w) dst NDir) w)
    end.

(** The importer has repodata, the target has an older copy, and the
    target's repodata directory cannot be created anew. *)
Definition stale_repodata_world : World :=
  {| fs := [("/importer/repodata", NDir); ("/wd/repodata", NDir)];
     denied := ["/wd/repodata"]; stored_scratchpad := None;
     stored_repo_scratchpad := {| old_relative_path := None; rs_other := [] |};
     stored_units := []; reported_progress := None; protected_repos := [];
     cert_bundles := []; other_distributors := [];
     metadata_outcome := (true, []); now := 0 |}.

End RepodataScenario.

(** ** create_consumer_payload *)

(** [RELATIVE_URL] *)
Definition RELATIVE_URL : string := "/pulp/repos".

(** The value under ['gpg_keys']: the empty list, or the one-entry dict
    [{'pulp.key': key}]. *)
Inductive GpgKeys : Type :=
| NoGpgKeys
| PulpKey (key : PyVal).

(** The three entries the global repo authentication adds together. *)
Record GlobalAuth : Type := {
  global_auth_cert : string;
  global_auth_key : string;
  global_auth_ca : string
}.

(** The payload dict; [payload_global_auth] is [None] when the three
    [global_auth_*] keys are absent. *)
Record Payload : Type := {
  payload_repo_name : string;
  payload_server_name : string;
  payload_ca_cert : PyVal;
  payload_relative_path : string;
  payload_protocols : list string;
  payload_gpg_keys : GpgKeys;
  payload_client_cert : PyVal;
  payload_global_auth : option GlobalAuth
}.

(** A read of the world that can raise. *)
Definition read {W A} (op : W -> Res A) : M W A := fun w => (op w, w).

Section ConsumerPayload.
Context {W : Type} {host : Host W}.
Local Open Scope py_scope.

(** [pulp_server_config.get(section, option)], [open(path).read()] and
    [load_config().get(section, option)]. *)
Variable pulp_server_config_get : string -> string -> W -> Res string.
Variable open_read : path -> W -> Res string.
Variable repo_auth_config_get : string -> string -> W -> Res string.

(** ['/'.join((RELATIVE_URL, relative_path))]: only strings can be
    joined. *)
Definition join_relative_url (relative_path : PyVal) : M W string :=
  match relative_path with
  | VStr p => ret (RELATIVE_URL ++ "/" ++ p)%string
  | _ => raise (TypeError "sequence item 1: expected string")
  end.

(** The [else] branch of the client certificate: load the global auth if
    enabled. *)
Definition load_global_auth : M W (option GlobalAuth) :=
  global_cert_dir <- read (repo_auth_config_get "repos" "global_cert_location") ;;
  let cert_path := os_path_join global_cert_dir "pulp-global-repo.cert" in
  let key_path := os_path_join global_cert_dir "pulp-global-repo.key" in
  let ca_path := os_path_join global_cert_dir "pulp-global-repo.ca" in
  ca_there <- gets (os_path_exists ca_path) ;;
  cert_there <- (if ca_there then gets (os_path_exists cert_path) else ret false) ;;
  if cert_there then
    cert <- read (open_read cert_path) ;;
    key <- read (open_read key_path) ;;
    ca <- read (open_read ca_path) ;;
    ret (Some {| global_auth_cert := cert; global_auth_key := key; global_auth_ca := ca |})
  else ret None.

Definition create_consumer_payload (repo : Repo) (config : Config) : M W Payload :=
  let repo_name := display_name repo in
  server_name <- read (pulp_server_config_get "server" "server_name") ;;
  ssl_ca_path <- read (pulp_server_config_get "security" "ssl_ca_certificate") ;;
  ca_there <- gets (os_path_exists ssl_ca_path) ;;
  ca_cert <- (if ca_there then
                p <- read (pulp_server_config_get "security" "ssl_ca_certificate") ;;
                text <- read (open_read p) ;;
                ret (VStr text)
              else ret (config_get config "https_ca")) ;;
  relative_path <- join_relative_url (get_repo_relative_path repo config) ;;
  let protocols :=
    (if truthy (config_get config "http") then ["http"] else [])
    ++ (if truthy (config_get config "https") then ["https"] else []) in
  let gpg_keys :=
    if negb (is_none (config_get config "gpgkey"))
    then PulpKey (config_get config "gpgkey") else NoGpgKeys in
  if (truthy (config_get config "auth_cert") && truthy (config_get config "auth_ca"))%bool
  then
    ret {| payload_repo_name := repo_name; payload_server_name := server_name;
           payload_ca_cert := ca_cert; payload_relative_path := relative_path;
           payload_protocols := protocols; payload_gpg_keys := gpg_keys;
           payload_client_cert := config_get config "auth_cert";
           payload_global_auth := None |}
  else
    global_auth <- load_global_auth ;;
    ret {| payload_repo_name := repo_name; payload_server_name := server_name;
           payload_ca_cert := ca_cert; payload_relative_path := relative_path;
           payload_protocols := protocols; payload_gpg_keys := gpg_keys;
           payload_client_cert := VNone;
           payload_global_auth := global_auth |}.

End ConsumerPayload.

Module PayloadScenario.
Import MemHost Scenario.

(** The server configuration, and a repo_auth configuration whose global
    certificates live under "/etc/pki/pulp/content". *)
Definition server_config (section option : string) (w : World) : Res string :=
  if ((section =? "server") && (option =? "server_name"))%string%bool then Ok "pulp.example.com"
  else if ((section =? "security") && (option =? "ssl_ca_certificate"))%string%bool
       then Ok "/etc/pki/pulp/ca.crt"
       else Raise (OtherError "NoOptionError").

Definition repo_auth_config (section option : string) (w : World) : Res string :=
  if ((section =? "repos") && (option =? "global_cert_location"))%string%bool
  then Ok "/etc/pki/pulp/content"
  else Raise (OtherError "NoOptionError").

(** [open(path).read()]: every file reads as its own path. *)
Definition read_file (p : path) (w : World) : Res string :=
  match node_at (fs w) p with
  | Some NFile => Ok p
  | _ => Raise (OSError "No such file or directory")
  end.

(** The global certificate and CA are installed, the key is not. *)
Definition global_key_missing_world : World :=
  with_fs [("/etc/pki/pulp/content/pulp-global-repo.cert", NFile);
           ("/etc/pki/pulp/content/pulp-global-repo.ca", NFile)] empty_world.

End PayloadScenario.

(** ** importers/yum/repomd/filelists.py

    The parser of one [package] element of filelists.xml.  It is pure: an
    element goes in, and a unit key with the sorted file list, or an
    exception, comes out. *)

Module Filelists.

(** [xml.etree.ElementTree.Element]: a tag, the attribute dict, the text
    ([None] for an element without text) and the child elements in
    document order. *)
#[warnings="-register-all"] Inductive Element : Type :=
| mkElement (tag : string) (attrib : list (string * string)) (text : option string)
            (children : list Element).

Definition tag (e : Element) : string :=
  match e with mkElement t _ _ _ => t end.

Definition attrib (e : Element) : list (string * string) :=
  match e with mkElement _ a _ _ => a end.

Definition text (e : Element) : option string :=
  match e with mkElement _ _ t _ => t end.

Definition children (e : Element) : list Element :=
  match e with mkElement _ _ _ c => c end.

(** [d.get(key)] *)
Fixpoint get (d : list (string * string)) (key : string) : option string :=
  match d with
  | [] => None
  | (k, v) :: rest => if (k =? key)%string then Some v else get rest key
  end.

(** [d[key]] *)
Definition subscript (d : list (string * string)) (key : string) : Res string :=
  match get d key with
  | Some v => Ok v
  | None => Raise (KeyError key)
  end.

(** [element.find(tag)]: the first child with the tag, or [None]. *)
Definition find (element : Element) (t : string) : option Element :=
  List.find (fun c => (tag c =? t)%string) (children element).

(** [element.findall(tag)]: the children with the tag, in document
    order. *)
Definition findall (element : Element) (t : string) : list Element :=
  filter (fun c => (tag c =? t)%string) (children element).

(** The dict [{'file': files, 'dir': dirs}]. *)
Record Files : Type := {
  file : list (option string);
  dir : list (option string)
}.

(** [element.attrib.get('type') == 'dir'] *)
Definition is_dir (element : Element) : bool :=
  match get (attrib element) "type" with
  | Some t => (t =? "dir")%string
  | None => false
  end.

(** One turn of the loop of [_sort_files_from_dirs]. *)
Definition sort_step (acc : Files) (element : Element) : Files :=
  if is_dir element
  then {| file := file acc; dir := dir acc ++ [text element] |}
  else {| file := file acc ++ [text element]; dir := dir acc |}.

Definition _sort_files_from_dirs (elements : list Element) : Files :=
  fold_left sort_step elements {| file := []; dir := [] |}.

Record UnitKey : Type := {
  name : string;
  epoch : string;
  version : string;
  release : string;
  arch : string
}.

(** [version_element.attrib[key]], where [version_element] may be
    [None]. *)
Definition version_attrib (version_element : option Element) (key : string) : Res string :=
  match version_element with
  | Some v => subscript (attrib v) key
  | None => Raise (AttributeError "attrib")
  end.

Definition and_then {A B} (r : Res A) (k : A -> Res B) : Res B :=
  match r with
  | Ok a => k a
  | Raise e => Raise e
  end.

(** The entries of the unit key are evaluated in the order they are
    written. *)
Definition process_package_element (element : Element) : Res (UnitKey * Files) :=
  let version_element := find element "version" in
  and_then (subscript (attrib element) "name") (fun n =>
  and_then (version_attrib version_element "epoch") (fun e =>
  and_then (version_attrib version_element "ver") (fun v =>
  and_then (version_attrib version_element "rel") (fun r =>
  and_then (subscript (attrib element) "arch") (fun a =>
  let unit_key := {| name := n; epoch := e; version := v; release := r; arch := a |} in
  let files := _sort_files_from_dirs (findall element "file") in
  Ok (unit_key, files)))))).

End Filelists.

(** ** A host whose link removal can fail *)

Module ProtocolScenario.
Import MemHost Scenario.

(** [util.remove_repo_publish_dir] raising an OS-level error: removing a
    link at a path of [denied] is refused. *)
Definition guarded_remove_repo_publish_dir (publish_dir link_path : path) (w : World)
  : Res unit * World :=
  if mem_string link_path (denied w) then (Raise (OSError "Permission denied"), w)
  else remove_repo_publish_dir publish_dir link_path w.

(** The in-memory host with that removal; everything else is as in
    [mem_host]. *)
Definition removal_failing_host : Host World := {|
  Clock := Z;
  time_time := tick;
  clock_sub := Z.sub;
  TREE_INFO_LIST := [".treeinfo"; "treeinfo"];
  TYPE_ID_RPM := "rpm";
  TYPE_ID_SRPM := "srpm";
  TYPE_ID_DRPM := "drpm";
  TYPE_ID_ERRATA := "erratum";
  TYPE_ID_DISTRO := "distribution";
  TYPE_ID_PKG_GROUP := "package_group";
  TYPE_ID_PKG_CATEGORY := "package_category";
  os_path_exists := exists_;
  os_path_lexists := lexists;
  os_path_islink := islink;
  os_path_isdir := isdir;
  os_access_R_OK := exists_;
  os_access_W_OK := exists_;
  os_unlink := unlink;
  os_makedirs := makedirs;
  util_create_symlink := create_symlink;
  util_remove_repo_publish_dir := guarded_remove_repo_publish_dir;
  util_generate_listing_files := generate_listing_files;
  util_get_relpath_from_unit := util_get_relpath_from_unit (Host:=mem_host);
  util_is_valid_checksum_type := util_is_valid_checksum_type (Host:=mem_host);
  util_validate_cert := util_validate_cert (Host:=mem_host);
  conduit_get_units := get_units;
  conduit_get_scratchpad := conduit_get_scratchpad (Host:=mem_host);
  conduit_set_scratchpad := set_scratchpad;
  conduit_get_repo_scratchpad := conduit_get_repo_scratchpad (Host:=mem_host);
  conduit_set_repo_scratchpad := set_repo_scratchpad;
  conduit_set_progress := set_progress_report;
  get_repo_distributors_by_relative_url := distributors_by_relative_url;
  updateinfo_updateinfo := updateinfo_updateinfo (Host:=mem_host);
  comps_util_write_comps_xml := comps_util_write_comps_xml (Host:=mem_host);
  metadata_generate_metadata := metadata_generate_metadata (Host:=mem_host);
  metadata_generate_yum_metadata := metadata_generate_yum_metadata (Host:=mem_host);
  write_consumer_cert_bundle := write_consumer_cert_bundle (Host:=mem_host);
  delete_for_repo := delete_for_repo (Host:=mem_host);
  add_protected_repo := add_protected_repo (Host:=mem_host);
  delete_protected_repo := delete_protected_repo (Host:=mem_host)
|}.

Definition http_only_config : Config :=
  [("relative_url", VStr "r"); ("http", VBool true); ("https", VBool false)].

(** An earlier publish left the HTTPS link of "r" behind, and it cannot
    be removed. *)
Definition https_link_stuck_world : World :=
  {| fs := [("/var/lib/pulp/published/https/repos/r", NLink "/wd")];
     denied := ["/var/lib/pulp/published/https/repos/r"];
     stored_scratchpad := None;
     stored_repo_scratchpad := {| old_relative_path := None; rs_other := [] |};
     stored_units := []; reported_progress := None; protected_repos := [];
     cert_bundles := []; other_distributors := [];
     metadata_outcome := (true, []); now := 0 |}.

(** An earlier publish left the HTTPS link of "r" behind. *)
Definition https_link_left_world : World :=
  with_fs [("/var/lib/pulp/published/https/repos/r", NLink "/wd")] empty_world.

End ProtocolScenario.

(** * Properties *)

(** ** The monad *)

Lemma bind_Ok {St A B} (m : M St A) (k : A -> M St B) s b s' :
  bind m k s = (Ok b, s') ->
  exists a s1, m s = (Ok a, s1) /\ k a s1 = (Ok b, s').
Proof.
  unfold bind. destruct (m s) as [[a|e] s1]; intros H.
  - exists a, s1. split; [reflexivity | exact H].
  - discriminate H.
Qed.

Lemma bind_Raise {St A B} (m : M St A) (k : A -> M St B) s e s' :
  bind m k s = (Raise e, s') ->
  m s = (Raise e, s') \/ exists a s1, m s = (Ok a, s1) /\ k a s1 = (Raise e, s').
Proof.
  unfold bind. destruct (m s) as [[a|e0] s1]; intros H.
  - right. exists a, s1. split; [reflexivity | exact H].
  - left. inversion H; subst. reflexivity.
Qed.

Lemma for_each_app {St A B} (l1 l2 : list A) (body : A -> B -> M St B) acc s :
  for_each (l1 ++ l2) body acc s =
  bind (for_each l1 body acc) (for_each l2 body) s.
Proof.
  revert acc s. induction l1 as [|x l1 IH]; intros acc s; simpl.
  - reflexivity.
  - unfold bind. destruct (body x acc s) as [[acc'|e] s1].
    + rewrite IH. reflexivity.
    + reflexivity.
Qed.

Lemma skipn_calls {A} (l l' : list A) : skipn (length l) (l ++ l') = l'.
Proof. induction l as [|x l IH]; simpl; auto. Qed.

(** Reduces the projections of updated states. *)
Ltac state_simpl :=
  cbn [world record_call with_world with_progress_status record_log package_dir
       fst snd calls negb].

(** ** Call traces *)

Section Traces.
Context {W : Type} {host : Host W}.
Variable P : Event -> bool.

Lemma emits_ret {A} (a : A) : emits (W:=W) P (ret a).
Proof. intros s. exists []. simpl. rewrite app_nil_r. auto. Qed.

Lemma emits_raise {A} e : emits (W:=W) (A:=A) P (raise e).
Proof. intros s. exists []. simpl. rewrite app_nil_r. auto. Qed.

Lemma emits_bind {A B} (m : M (PyState W) A) (k : A -> M (PyState W) B) :
  emits P m -> (forall a, emits P (k a)) -> emits P (bind m k).
Proof.
  intros Hm Hk s. unfold bind. destruct (Hm s) as [evs [E F]].
  destruct (m s) as [[a|e] s1]; simpl in E.
  - destruct (Hk a s1) as [evs' [E' F']].
    exists (evs ++ evs'). rewrite E', E, app_assoc, forallb_app, F, F'. auto.
  - exists evs. auto.
Qed.

Lemma emits_call {A} ev (op : W -> Res A * W) :
  P ev = true -> emits P (call ev op).
Proof.
  intros Hev s. unfold call. exists [ev].
  destruct (op (world (record_call ev s))) as [r w']. simpl. rewrite Hev. auto.
Qed.

Lemma emits_fetch {A} (op : W -> Res A * W) : emits P (fetch op).
Proof.
  intros s. unfold fetch. exists []. destruct (op (world s)) as [r w']. simpl.
  rewrite app_nil_r. auto.
Qed.

Lemma emits_ask (q : W -> bool) : emits P (ask q).
Proof. intros s. exists []. simpl. rewrite app_nil_r. auto. Qed.

Lemma emits_gets {A} (f : PyState W -> A) : emits P (gets f).
Proof. intros s. exists []. simpl. rewrite app_nil_r. auto. Qed.

Lemma emits_modify (f : PyState W -> PyState W) :
  (forall s, calls (f s) = calls s) -> emits P (modify f).
Proof. intros Hf s. exists []. simpl. rewrite app_nil_r, Hf. auto. Qed.

Lemma emits_LOG_error m : emits (W:=W) P (LOG_error m).
Proof. intros s. exists []. simpl. rewrite app_nil_r. auto. Qed.

Lemma emits_attempt {A} (m : M (PyState W) A) : emits P m -> emits P (attempt m).
Proof.
  intros Hm s. unfold attempt. destruct (Hm s) as [evs [E F]].
  destruct (m s) as [r s1]. exists evs. auto.
Qed.

Lemma emits_try_except {A} (body : M (PyState W) A) handler :
  emits P body -> (forall e, emits P (handler e)) -> emits P (try_except body handler).
Proof.
  intros Hb Hh s. unfold try_except. destruct (Hb s) as [evs [E F]].
  destruct (body s) as [[a|e] s1]; simpl in E.
  - exists evs. auto.
  - destruct (Hh e s1) as [evs' [E' F']].
    exists (evs ++ evs'). rewrite E', E, app_assoc, forallb_app, F, F'. auto.
Qed.

Lemma emits_for_each {A B} (l : list A) (body : A -> B -> M (PyState W) B) acc :
  (forall x b, emits P (body x b)) -> emits P (for_each l body acc).
Proof.
  intros Hb. revert acc. induction l as [|x l IH]; intros acc; simpl.
  - apply emits_ret.
  - apply emits_bind; [apply Hb | exact IH].
Qed.

Lemma emits_set_progress phase status cb :
  (forall ps, P (EvSetProgress ps) = true) -> emits (W:=W) P (set_progress phase status cb).
Proof.
  intros HP. destruct cb; simpl; [|apply emits_ret].
  intros s. unfold progress_callback. eexists [_]. simpl. rewrite HP. auto.
Qed.

Lemma emits_shared_update phase t cb : emits (W:=W) P (shared_update phase t cb).
Proof.
  destruct cb; simpl; [|apply emits_ret]. apply emits_modify. reflexivity.
Qed.

End Traces.

(** Breaks a computation down to its collaborator calls. *)
Ltac emits_step :=
  match goal with
  | |- emits _ (bind _ _) => apply emits_bind; [|intros]
  | |- emits _ (ret _) => apply emits_ret
  | |- emits _ (raise _) => apply emits_raise
  | |- emits _ (call _ _) => apply emits_call; reflexivity
  | |- emits _ (fetch _) => apply emits_fetch
  | |- emits _ (ask _) => apply emits_ask
  | |- emits _ (gets _) => apply emits_gets
  | |- emits _ (LOG_error _) => apply emits_LOG_error
  | |- emits _ (attempt _) => apply emits_attempt
  | |- emits _ (try_except _ _) => apply emits_try_except; [|intros]
  | |- emits _ (for_each _ _ _) => apply emits_for_each; intros
  | |- emits _ (set_progress _ _ _) => apply emits_set_progress; reflexivity
  | |- emits _ (shared_update _ _ _) => apply emits_shared_update
  | |- emits _ (modify _) => apply emits_modify; reflexivity
  | |- emits _ (match ?x with _ => _ end) => destruct x
  end.

Ltac emits_auto := repeat emits_step.

Section DistributionTraces.
Context {W : Type} {host : Host W}.

Lemma link_distro_file_emits src dir cb f acc :
  emits (W:=W) not_set_scratchpad (link_distro_file src dir cb f acc).
Proof. unfold link_distro_file. emits_auto. Qed.

Lemma orphaned_loop_emits fuel : forall it ids dir d,
  emits (W:=W) not_set_scratchpad (orphaned_loop fuel it ids dir d).
Proof.
  induction fuel as [|fuel IH]; intros; simpl.
  - emits_auto.
  - emits_auto; try apply IH. unfold remove_orphaned_path. emits_auto.
Qed.

Lemma handle_orphaned_distributions_emits units dir sp :
  emits (W:=W) not_set_scratchpad (_handle_orphaned_distributions units dir sp).
Proof.
  unfold _handle_orphaned_distributions. emits_auto. apply orphaned_loop_emits.
Qed.

Lemma symlink_distribution_unit_emits dir cb u acc :
  emits (W:=W) not_set_scratchpad (symlink_distribution_unit dir cb u acc).
Proof.
  unfold symlink_distribution_unit. emits_auto; apply link_distro_file_emits.
Qed.

End DistributionTraces.

(** ** Python dicts *)

Lemma dict_used_remove {V} (d : PyDict V) k v :
  dict_get d k = Some v -> S (dict_used (dict_remove d k)) = dict_used d.
Proof.
  induction d as [|[[k' v']|] d IH]; simpl; intros H.
  - discriminate H.
  - destruct (k' =? k)%string; simpl.
    + reflexivity.
    + f_equal. apply IH. exact H.
  - apply IH. exact H.
Qed.

Lemma dict_delitem_shrinks {V} (d d' : PyDict V) k :
  dict_delitem d k = Ok d' -> dict_used d' <> dict_used d.
Proof.
  unfold dict_delitem. destruct (dict_get d k) as [v|] eqn:G; intros H; [|discriminate H].
  injection H as <-. pose proof (dict_used_remove d k v G). lia.
Qed.

Lemma scan_slots_keys {V} (l : PyDict V) pos :
  match scan_slots l pos with
  | None => dict_keys l = []
  | Some (k, pos') =>
      exists n, pos' = (n + pos)%nat /\ dict_keys l = k :: dict_keys (skipn n l)
  end.
Proof.
  revert pos. induction l as [|[[k v]|] l IH]; intros pos; simpl.
  - reflexivity.
  - exists 1%nat. split; reflexivity.
  - specialize (IH (S pos)). destruct (scan_slots l (S pos)) as [[k pos']|].
    + destruct IH as [n [-> E]]. exists (S n). split; [lia | exact E].
    + exact IH.
Qed.

(** ** Orphan reclamation *)

Section Orphans.
Context {W : Type} {host : Host W}.

(** An iterator whose dict has changed size never yields again. *)
Lemma orphaned_loop_stale fuel it ids dir (d : PyDict (list path)) (s : PyState W) :
  di_used it <> dict_used d ->
  exists e s', orphaned_loop fuel it ids dir d s = (Raise e, s').
Proof.
  intros Hne. destruct fuel as [|fuel]; simpl.
  - unfold raise. eauto.
  - unfold dictiter_iternextkey.
    destruct (Nat.eqb (di_used it) (dict_used d)) eqn:E.
    + apply Nat.eqb_eq in E. contradiction.
    + unfold raise. eauto.
Qed.

(** Once the loop meets a manifest key that is not a current unit id, it
    does not return: whatever happens to the paths, the [del] makes the
    next step of the iteration raise. *)
Lemma orphaned_loop_raises fuel : forall it ids dir (d : PyDict (list path)) (s : PyState W),
  (exists k, In k (dict_keys (skipn (di_pos it) d)) /\ mem_string k ids = false) ->
  exists e s', orphaned_loop fuel it ids dir d s = (Raise e, s').
Proof.
  induction fuel as [|fuel IH]; intros it ids dir d s [k [Hin Hk]]; simpl.
  - unfold raise. eauto.
  - unfold dictiter_iternextkey.
    destruct (Nat.eqb (di_used it) (dict_used d)) eqn:E; [|unfold raise; eauto].
    pose proof (scan_slots_keys (skipn (di_pos it) d) (di_pos it)) as Hscan.
    destruct (scan_slots (skipn (di_pos it) d) (di_pos it)) as [[k0 pos']|].
    + destruct Hscan as [n [-> Hkeys]].
      destruct (mem_string k0 ids) eqn:Hk0; simpl.
      * apply IH. exists k. split; [|exact Hk]. simpl.
        rewrite Hkeys in Hin. destruct Hin as [<-|Hin]; [congruence|].
        rewrite skipn_skipn in Hin. exact Hin.
      * destruct (dict_getitem d k0) as [paths|e]; [|unfold raise; eauto].
        unfold bind.
        destruct (for_each paths (remove_orphaned_path dir) tt s) as [[[]|e] s1]; [|eauto].
        destruct (dict_delitem d k0) as [d'|e] eqn:D; [|unfold raise; eauto].
        apply orphaned_loop_stale. simpl.
        apply Nat.eqb_eq in E. rewrite E. intro Heq.
        apply (dict_delitem_shrinks _ _ _ D). symmetry. exact Heq.
    + rewrite Hscan in Hin. destruct Hin.
Qed.

Lemma handle_orphaned_distributions_raises units dir sp manifest (s : PyState W) k :
  published_distributions sp = Some manifest ->
  In k (dict_keys manifest) ->
  mem_string k (map unit_id units) = false ->
  exists e s', _handle_orphaned_distributions units dir sp s = (Raise e, s').
Proof.
  intros Hm Hin Hk. unfold _handle_orphaned_distributions. rewrite Hm.
  unfold bind.
  destruct (orphaned_loop_raises (S (length manifest)) (dict_iter manifest)
              (map unit_id units) dir manifest s) as [e [s' R]].
  - exists k. split; [exact Hin | exact Hk].
  - rewrite R. eauto.
Qed.

End Orphans.

Section OrphanLoop.
Context {W : Type} {host : Host W}.

Lemma scan_slots_bounds {V} (l : PyDict V) pos k pos' :
  scan_slots l pos = Some (k, pos') ->
  exists n, pos' = (n + pos)%nat /\ (1 <= n <= length l)%nat /\
            dict_keys l = k :: dict_keys (skipn n l).
Proof.
  revert pos. induction l as [|[[k0 v]|] l IH]; intros pos; simpl; intros H.
  - discriminate H.
  - injection H as <- <-. exists 1%nat. repeat split; lia.
  - destruct (IH _ H) as [n [-> [Hn E]]]. exists (S n). repeat split; try lia. exact E.
Qed.

(** With every manifest key among the current unit ids the loop runs to
    the end of the table, within its fuel, and touches nothing. *)
Lemma orphaned_loop_no_orphans fuel : forall it ids dir (d : PyDict (list path)) (s : PyState W),
  di_used it = dict_used d ->
  forallb (fun k => mem_string k ids) (dict_keys (skipn (di_pos it) d)) = true ->
  (length (skipn (di_pos it) d) < fuel)%nat ->
  orphaned_loop fuel it ids dir d s = (Ok d, s).
Proof.
  induction fuel as [|fuel IH]; intros it ids dir d s Hused Hall Hfuel; [lia|].
  simpl. unfold dictiter_iternextkey. rewrite Hused, Nat.eqb_refl.
  destruct (scan_slots (skipn (di_pos it) d) (di_pos it)) as [[k0 pos']|] eqn:Hscan.
  - destruct (scan_slots_bounds _ _ _ _ Hscan) as [n [-> [Hn Hkeys]]].
    rewrite Hkeys in Hall. simpl in Hall. apply andb_true_iff in Hall as [Hk0 Hrest].
    rewrite Hk0. simpl. apply IH; simpl.
    + reflexivity.
    + rewrite <- skipn_skipn. exact Hrest.
    + rewrite <- skipn_skipn. rewrite (length_skipn n). lia.
  - reflexivity.
Qed.

Lemma dict_remove_length {V} (d : PyDict V) k : length (dict_remove d k) = length d.
Proof.
  induction d as [|[[k' v]|] d IH]; simpl; auto.
  destruct (k' =? k)%string; simpl; auto.
Qed.

(** The fuel of the loop is enough: with more than the slots still ahead
    of the iterator, one more unit of fuel changes nothing. *)
Lemma orphaned_loop_fuel fuel : forall it ids dir (d : PyDict (list path)) (s : PyState W),
  (length d - di_pos it < fuel)%nat ->
  orphaned_loop (S fuel) it ids dir d s = orphaned_loop fuel it ids dir d s.
Proof.
  induction fuel as [|fuel IH]; intros it ids dir d s Hfuel; [lia|].
  cbn [orphaned_loop].
  destruct (dictiter_iternextkey d it) as [[[k it']|]|e] eqn:Hnext; try reflexivity.
  assert (Hpos : (di_pos it < di_pos it' <= length d)%nat).
  { unfold dictiter_iternextkey in Hnext.
    destruct (Nat.eqb (di_used it) (dict_used d)); [|discriminate Hnext].
    destruct (scan_slots (skipn (di_pos it) d) (di_pos it)) as [[k0 pos']|] eqn:Hscan;
      [|discriminate Hnext].
    injection Hnext as _ <-. simpl.
    destruct (scan_slots_bounds _ _ _ _ Hscan) as (n & -> & Hn & _).
    rewrite length_skipn in Hn. lia. }
  destruct (negb (mem_string k ids)).
  - destruct (dict_getitem d k) as [paths|e]; [|reflexivity].
    unfold bind.
    destruct (for_each paths (remove_orphaned_path dir) tt s) as [[[]|e] s1]; [|reflexivity].
    unfold dict_delitem. destruct (dict_get d k); [|reflexivity].
    apply IH. rewrite dict_remove_length. lia.
  - apply IH. lia.
Qed.

Lemma handle_orphaned_distributions_no_orphans units dir sp (s : PyState W) :
  (forall manifest, published_distributions sp = Some manifest ->
     forallb (fun k => mem_string k (map unit_id units)) (dict_keys manifest) = true) ->
  _handle_orphaned_distributions units dir sp s = (Ok sp, s).
Proof.
  intros H. unfold _handle_orphaned_distributions.
  destruct sp as [[manifest|] other]; cbn [published_distributions sp_other] in *;
    [|reflexivity].
  unfold bind. rewrite orphaned_loop_no_orphans.
  - reflexivity.
  - reflexivity.
  - apply H. reflexivity.
  - cbn [dict_iter di_pos skipn]. lia.
Qed.

End OrphanLoop.

Import MemHost Scenario.

(** C1 (the code departs from it).  Orphan reclamation: U1 was published
    with the files a and b, U2 with c, and U1 has left the unit set.  The
    orphan pass removes the links a and b and deletes U1 from the manifest
    it holds in memory, but it deletes from the very dict it is iterating:
    the next step of the [for] loop raises [RuntimeError].  The publish
    stops there, [set_scratchpad] is never called, and the persisted
    manifest still lists U1.  The second part reaches the same state by a
    publish of U2 and U1 followed by a publish of U2 alone. *)
Theorem C1_orphan_pass_raises_after_first_delete :
  (let run := symlink_distribution_unit_files [U2] "/wd" true
                (new_distributor both_published) in
   fst run = Raise (RuntimeError "dictionary changed size during iteration")
   /\ filter (fun ev => negb (is_set_progress ev)) (calls (snd run))
      = [EvRemoveRepoPublishDir "/wd" "/wd/a"; EvRemoveRepoPublishDir "/wd" "/wd/b"]
   /\ node_at (fs (world (snd run))) "/wd/a" = None
   /\ node_at (fs (world (snd run))) "/wd/b" = None
   /\ node_at (fs (world (snd run))) "/wd/c" = Some (NLink "/content/U2/c")
   /\ stored_scratchpad (world (snd run)) = stored_scratchpad both_published
   /\ dict_get (persisted_manifest (world (snd run))) "U1" = Some ["/wd/a"; "/wd/b"])
  /\ (let first := symlink_distribution_unit_files [U2; U1] "/wd" true
                     (new_distributor content_world) in
      let second := symlink_distribution_unit_files [U2] "/wd" true
                      (new_distributor (world (snd first))) in
      (exists t, fst first = Ok (true, [], t))
      /\ dict_get (persisted_manifest (world (snd first))) "U1" = Some ["/wd/a"; "/wd/b"]
      /\ fst second = Raise (RuntimeError "dictionary changed size during iteration")
      /\ filter is_set_scratchpad (calls (snd second)) = []
      /\ dict_get (persisted_manifest (world (snd second))) "U1" = Some ["/wd/a"; "/wd/b"]).
Proof.
  split.
  - vm_compute. repeat split; reflexivity.
  - split; [eexists; vm_compute; reflexivity|]. vm_compute. repeat split; reflexivity.
Qed.

(** The other order of the first publish: with U1 processed before U2 the
    manifest keeps U2's entry only, so when U1 leaves the repository the
    orphan pass finds nothing to reclaim and the links a and b stay. *)
Lemma unrecorded_unit_is_not_reclaimed :
  let first := symlink_distribution_unit_files [U1; U2] "/wd" true
                 (new_distributor content_world) in
  let second := symlink_distribution_unit_files [U2] "/wd" true
                  (new_distributor (world (snd first))) in
  dict_keys (persisted_manifest (world (snd first))) = ["U2"]
  /\ (exists t, fst second = Ok (true, [], t))
  /\ node_at (fs (world (snd second))) "/wd/a" = Some (NLink "/content/U1/a")
  /\ node_at (fs (world (snd second))) "/wd/b" = Some (NLink "/content/U1/b").
Proof.
  split; [vm_compute; reflexivity|]. split; [eexists; vm_compute; reflexivity|].
  vm_compute. split; reflexivity.
Qed.

(** ** Units without files *)

Section MissingFiles.
Context {W : Type} {host : Host W}.

(** A unit without a 'files' entry never gets through its iteration. *)
Lemma symlink_distribution_unit_without_files dir cb u acc (s : PyState W) r s' :
  md_files (metadata u) = None ->
  symlink_distribution_unit dir cb u acc s = (r, s') ->
  exists e, r = Raise e.
Proof.
  intros Hnone. destruct acc as [[sp t] errs]. unfold symlink_distribution_unit.
  rewrite Hnone. intros H.
  destruct r as [a|e]; [|eauto].
  apply bind_Ok in H as (x1 & s1 & _ & H).
  apply bind_Ok in H as (x2 & s2 & _ & H).
  apply bind_Ok in H as (x3 & s3 & H3 & _).
  discriminate H3.
Qed.

(** Without a package subdirectory it raises [KeyError] right after the
    log entry. *)
Lemma symlink_distribution_unit_KeyError dir cb u acc (s : PyState W) :
  md_files (metadata u) = None ->
  md_packagedir (metadata u) = None ->
  symlink_distribution_unit dir cb u acc s
  = (Raise (KeyError "files"), record_log (MsgNoDistributionFiles (unit_id u)) s).
Proof.
  intros Hnone Hpd. destruct acc as [[sp t] errs]. unfold symlink_distribution_unit.
  rewrite Hnone, Hpd. reflexivity.
Qed.

End MissingFiles.

(** C3 (the code departs from it).  A distribution unit whose metadata has
    no 'files' key: the publisher logs the condition and then reads
    [u.metadata['files']] all the same, which raises [KeyError].  The
    publish stops: the next unit U2 is not processed and the manifest is
    not written. *)
Theorem C3_unit_without_files_raises_KeyError :
  let run := symlink_distribution_unit_files [U_nofiles; U2] "/wd" true
               (new_distributor content_world) in
  fst run = Raise (KeyError "files")
  /\ log (snd run) = [MsgNoDistributionFiles "U0"]
  /\ node_at (fs (world (snd run))) "/wd/c" = None
  /\ filter is_set_scratchpad (calls (snd run)) = []
  /\ stored_scratchpad (world (snd run)) = None.
Proof.
  vm_compute. repeat split; reflexivity.
Qed.

(** ** The manifest *)

(** The calls a run appended, read off an [emits] fact. *)
Lemma emits_run {W A} (P : Event -> bool) (m : M (PyState W) A) s r s' :
  emits P m -> m s = (r, s') ->
  exists evs, calls s' = calls s ++ evs /\ forallb P evs = true.
Proof.
  intros Hm E. destruct (Hm s) as [evs H]. rewrite E in H. exists evs. exact H.
Qed.

Lemma call_run {W A} ev (op : W -> Res A * W) (s : PyState W) r s' :
  call ev op s = (r, s') -> calls s' = calls s ++ [ev].
Proof.
  unfold call. destruct (op (world (record_call ev s))) as [r0 w'].
  intros H. injection H as _ <-. reflexivity.
Qed.

Lemma dict_get_single {V} k (v : V) : dict_get (dict_single k v) k = Some v.
Proof. simpl. rewrite String.eqb_refl. reflexivity. Qed.

Section Manifest.
Context {W : Type} {host : Host W}.

(** What one unit leaves in the scratchpad: its own entry, holding the
    paths its file loop produced. *)
Lemma symlink_distribution_unit_entry dir cb u sp0 t0 e0 (s : PyState W) sp t e s' :
  symlink_distribution_unit dir cb u (sp0, t0, e0) s = (Ok (sp, t, e), s') ->
  exists files published t1 e1 s1,
    md_files (metadata u) = Some files
    /\ for_each files (link_distro_file (storage_path u) dir cb) (t1, e1, []) s1
       = (Ok (t, e, published), s')
    /\ sp = scratchpad_update (unit_id u) published sp0.
Proof.
  unfold symlink_distribution_unit. intros H.
  apply bind_Ok in H as (x1 & s1 & _ & H).
  apply bind_Ok in H as (x2 & s2 & _ & H).
  apply bind_Ok in H as (files & s3 & Hf & H).
  destruct (md_files (metadata u)) as [files0|]; [|discriminate Hf].
  injection Hf as -> ->.
  apply bind_Ok in H as (found & s4 & _ & H).
  apply bind_Ok in H as (x3 & s5 & _ & H).
  apply bind_Ok in H as ([[t' e'] published] & s6 & Hloop & H).
  injection H as <- <- <- <-.
  exists files, published, (set_items (Z.of_nat (length files)) t0), e0, s5.
  repeat split; auto.
Qed.

(** C2 (as amended).  Manifest write-through: in a pass over the units
    [units ++ [u]] that completes, the manifest is handed to the conduit
    once, after every unit has been processed and the Packages alias has
    been handled, and only the final progress report follows; what is
    persisted maps the id of the last unit [u] to the full list of paths
    the file loop produced for [u] in this pass. *)
Theorem C2_manifest_persisted_once_after_the_pass
    (units : list Unit) (u : Unit) dir cb (s s' : PyState W) r :
  symlink_distribution_unit_files (units ++ [u]) dir cb s = (Ok r, s') ->
  exists before sp after files published,
    calls s' = calls s ++ before ++ EvSetScratchpad sp :: after
    /\ forallb not_set_scratchpad before = true
    /\ forallb is_set_progress after = true
    /\ (exists manifest, published_distributions sp = Some manifest
                         /\ dict_get manifest (unit_id u) = Some published)
    /\ md_files (metadata u) = Some files
    /\ (exists t e t' e' s1 s2,
          for_each files (link_distro_file (storage_path u) dir cb) (t, e, []) s1
          = (Ok (t', e', published), s2)).
Proof.
  unfold symlink_distribution_unit_files. intros H.
  apply bind_Ok in H as (x1 & s1 & H1 & H).
  apply bind_Ok in H as (stored & s2 & H2 & H).
  apply bind_Ok in H as (sp0 & s3 & H3 & H).
  apply bind_Ok in H as ([[sp t] errs] & s4 & H4 & H).
  apply bind_Ok in H as (there & s5 & H5 & H).
  apply bind_Ok in H as (errs' & s6 & H6 & H).
  apply bind_Ok in H as (x7 & s7 & H7 & H).
  (* the calls of each stage *)
  eapply (emits_run not_set_scratchpad) in H1 as (ev1 & E1 & F1);
    [|apply emits_set_progress; reflexivity].
  eapply (emits_run not_set_scratchpad) in H2 as (ev2 & E2 & F2); [|apply emits_fetch].
  eapply (emits_run not_set_scratchpad) in H3 as (ev3 & E3 & F3);
    [|apply handle_orphaned_distributions_emits].
  pose proof H4 as H4'.
  eapply (emits_run not_set_scratchpad) in H4' as (ev4 & E4 & F4);
    [|apply emits_for_each; intros; apply symlink_distribution_unit_emits].
  eapply (emits_run not_set_scratchpad) in H5 as (ev5 & E5 & F5); [|apply emits_ask].
  eapply (emits_run not_set_scratchpad) in H6 as (ev6 & E6 & F6);
    [|destruct (negb there); emits_auto].
  apply call_run in H7.
  assert (exists ev8, calls s' = calls s7 ++ ev8 /\ forallb is_set_progress ev8 = true)
    as (ev8 & E8 & F8).
  { destruct errs'; eapply (emits_run is_set_progress) in H; try exact H; emits_auto. }
  (* the entry of the last unit *)
  rewrite for_each_app in H4. apply bind_Ok in H4 as ([[spm tm] em] & sm & _ & Hlast).
  simpl in Hlast. apply bind_Ok in Hlast as ([[spl tl] el] & sl & Hu & Hret).
  injection Hret as -> -> -> ->.
  apply symlink_distribution_unit_entry in Hu
    as (files & published & t1 & e1 & sa & Hfiles & Hloop & ->).
  exists (ev1 ++ ev2 ++ ev3 ++ ev4 ++ ev5 ++ ev6), (scratchpad_update (unit_id u) published spm),
    ev8, files, published.
  split; [|split; [|split; [|split; [|split]]]].
  - rewrite E8, H7, E6, E5, E4, E3, E2, E1. repeat rewrite <- app_assoc. reflexivity.
  - repeat rewrite forallb_app. rewrite F1, F2, F3, F4, F5, F6. reflexivity.
  - exact F8.
  - eexists. split; [reflexivity | apply dict_get_single].
  - exact Hfiles.
  - eauto 8.
Qed.

End Manifest.

(** ** Passes that do not complete *)

Section AbortedPasses.
Context {W : Type} {host : Host W}.

Lemma for_each_Ok_In {St A B} (l : list A) (body : A -> B -> M St B) x :
  forall acc s b s',
  for_each l body acc s = (Ok b, s') -> In x l ->
  exists acc0 s0 acc1 s1, body x acc0 s0 = (Ok acc1, s1).
Proof.
  induction l as [|y l IH]; intros acc s b s' H Hin; [destruct Hin|].
  simpl in H. apply bind_Ok in H as (acc' & s1 & Hy & Hrest).
  destruct Hin as [-> | Hin].
  - eauto.
  - eapply IH; eauto.
Qed.

(** A manifest that holds an id absent from the unit sequence stops the
    whole pass: it raises, and the manifest is not handed to the conduit. *)
Lemma orphan_aborts_the_pass units dir cb (s s1 : PyState W) sp manifest k w' :
  set_progress distribution (Progress init_progress) cb s = (Ok tt, s1) ->
  conduit_get_scratchpad (world s1) = (Ok (Some sp), w') ->
  published_distributions sp = Some manifest ->
  In k (dict_keys manifest) ->
  mem_string k (map unit_id units) = false ->
  exists e s' evs,
    symlink_distribution_unit_files units dir cb s = (Raise e, s')
    /\ calls s' = calls s ++ evs /\ forallb not_set_scratchpad evs = true.
Proof.
  intros Hsp Hget Hm Hin Hk.
  destruct (handle_orphaned_distributions_raises units dir sp manifest (with_world w' s1) k
              Hm Hin Hk) as (e & s' & Hraise).
  assert (Hrun : symlink_distribution_unit_files units dir cb s = (Raise e, s')).
  { unfold symlink_distribution_unit_files, bind at 1. rewrite Hsp.
    unfold bind at 1, fetch. rewrite Hget.
    unfold bind at 1. rewrite Hraise. reflexivity. }
  exists e, s'.
  eapply (emits_run not_set_scratchpad) in Hsp as (ev1 & E1 & F1);
    [|apply emits_set_progress; reflexivity].
  eapply (emits_run not_set_scratchpad) in Hraise as (ev3 & E3 & F3);
    [|apply handle_orphaned_distributions_emits].
  exists (ev1 ++ ev3). split; [exact Hrun|]. split.
  - rewrite E3. cbn [calls with_world]. rewrite E1, app_assoc. reflexivity.
  - rewrite forallb_app, F1, F3. reflexivity.
Qed.

(** A pass over units one of which has no 'files' entry never returns. *)
Lemma unit_without_files_aborts_the_pass units dir cb u (s : PyState W) r s' :
  In u units -> md_files (metadata u) = None ->
  symlink_distribution_unit_files units dir cb s = (r, s') ->
  exists e, r = Raise e.
Proof.
  intros Hin Hnone H. destruct r as [a|e]; [exfalso|eauto].
  unfold symlink_distribution_unit_files in H.
  apply bind_Ok in H as (x1 & s1 & _ & H).
  apply bind_Ok in H as (stored & s2 & _ & H).
  apply bind_Ok in H as (sp0 & s3 & _ & H).
  apply bind_Ok in H as (acc & s4 & Hloop & _).
  destruct (for_each_Ok_In _ _ u _ _ _ _ Hloop Hin) as (acc0 & sa & acc1 & sb & Hu).
  destruct (symlink_distribution_unit_without_files dir cb u acc0 sa _ _ Hnone Hu) as [e He].
  discriminate He.
Qed.

End AbortedPasses.

(** C2 (witness): a pass over U1 and U2 in a repository whose content is
    in storage. *)
Lemma C2_manifest_persisted_once_witness :
  let s := new_distributor content_world in
  exists r s',
    symlink_distribution_unit_files ([U1] ++ [U2]) "/wd" true s = (Ok r, s')
    /\ exists before sp after files published,
         calls s' = calls s ++ before ++ EvSetScratchpad sp :: after
         /\ forallb not_set_scratchpad before = true
         /\ forallb is_set_progress after = true
         /\ (exists manifest, published_distributions sp = Some manifest
                              /\ dict_get manifest (unit_id U2) = Some published)
         /\ md_files (metadata U2) = Some files
         /\ (exists t e t' e' s1 s2,
               for_each files (link_distro_file (storage_path U2) "/wd" true) (t, e, []) s1
               = (Ok (t', e', published), s2)).
Proof.
  intros s. eexists. eexists. split.
  - vm_compute. reflexivity.
  - eapply (C2_manifest_persisted_once_after_the_pass [U1] U2 "/wd" true s).
    vm_compute. reflexivity.
Defined.

(** C2 (the claim as stated fails).  A pass over the current units U1 and
    U2 completes without error and creates the links of both, but the
    manifest is written to the conduit a single time, after the links of
    U2 were created (not after U1's files and before U2), and what is
    persisted has no entry for the current unit U1. *)
Lemma C2_counterexample :
  let run := symlink_distribution_unit_files [U1; U2] "/wd" true
               (new_distributor content_world) in
  (exists t, fst run = Ok (true, [], t))
  /\ node_at (fs (world (snd run))) "/wd/a" = Some (NLink "/content/U1/a")
  /\ node_at (fs (world (snd run))) "/wd/b" = Some (NLink "/content/U1/b")
  /\ filter (fun ev => (is_create_symlink ev || is_set_scratchpad ev)%bool) (calls (snd run))
     = [EvCreateSymlink "/content/U1/treeinfo" "/wd/treeinfo";
        EvCreateSymlink "/content/U1/a" "/wd/a";
        EvCreateSymlink "/content/U1/b" "/wd/b";
        EvCreateSymlink "/content/U2/treeinfo" "/wd/treeinfo";
        EvCreateSymlink "/content/U2/c" "/wd/c";
        EvCreateSymlink "/wd" "/wd/Packages";
        EvSetScratchpad {| published_distributions := Some (dict_single "U2" ["/wd/c"]);
                           sp_other := [] |}]
  /\ ~ (forall u, In u [U1; U2] ->
          exists paths, dict_get (persisted_manifest (world (snd run))) (unit_id u) = Some paths).
Proof.
  vm_compute. repeat split; try reflexivity.
  - eexists. reflexivity.
  - intros H. destruct (H U1) as [paths Hp]; [left; reflexivity|]. vm_compute in Hp.
    discriminate Hp.
Qed.

(** ** Republication *)

Section Republication.
Context {W : Type} {host : Host W}.

(** Progress reports do not touch the filesystem. *)
Hypothesis progress_keeps_files :
  forall ps w p, os_path_exists p (conduit_set_progress ps w) = os_path_exists p w.

Lemma set_progress_keeps_files phase status cb (s : PyState W) :
  exists s', set_progress phase status cb s = (Ok tt, s')
    /\ (forall p, os_path_exists p (world s') = os_path_exists p (world s))
    /\ (exists evs, calls s' = calls s ++ evs /\ forallb is_set_progress evs = true).
Proof.
  destruct cb; simpl.
  - unfold progress_callback. eexists. split; [reflexivity|]. split.
    + intros p. simpl. apply progress_keeps_files.
    + eexists [_]. simpl. split; reflexivity.
  - exists s. split; [reflexivity|]. split; [reflexivity|].
    exists []. rewrite app_nil_r. split; reflexivity.
Qed.

(** C4 (as amended).  Idempotent republication: when every file of a unit
    already exists at its destination, the file loop creates nothing and
    calls no collaborator but the progress report, so the published tree
    stays as it is; each destination path is appended to the
    produced-paths list and [items_left] is decremented once per file.
    [num_success] and [num_error] are left as they were: a file that is
    already there is counted neither as a success nor as an error. *)
Theorem C4_existing_files_are_skipped
    (source_path_dir symlink_dir : path) (cb : bool) (files : list DistroFile) :
  forall (t : Tracker) (errors : list ErrorTuple) (published : list path) (s : PyState W),
  (forall f, In f files ->
     os_path_exists (os_path_join symlink_dir (relativepath f)) (world s) = true) ->
  exists t' s',
    for_each files (link_distro_file source_path_dir symlink_dir cb) (t, errors, published) s
    = (Ok (t', errors,
           published ++ map (fun f => os_path_join symlink_dir (relativepath f)) files), s')
    /\ num_success t' = num_success t
    /\ num_error t' = num_error t
    /\ items_left t' = items_left t - Z.of_nat (length files)
    /\ items_total t' = items_total t
    /\ (exists evs, calls s' = calls s ++ evs /\ forallb is_set_progress evs = true)
    /\ (forall p, os_path_exists p (world s') = os_path_exists p (world s)).
Proof.
  induction files as [|f files IH]; intros t errors published s Hall.
  - exists t, s. simpl. rewrite app_nil_r. repeat split; try lia.
    exists []. rewrite app_nil_r. split; reflexivity.
  - destruct (set_progress_keeps_files distribution (Progress t) cb s)
      as (s1 & Hsp & Hfs & evs1 & Ecalls & Fprog).
    assert (Hstep : link_distro_file source_path_dir symlink_dir cb f (t, errors, published) s
                    = (Ok (decr_items_left t, errors,
                           published ++ [os_path_join symlink_dir (relativepath f)]), s1)).
    { unfold link_distro_file, bind. rewrite Hsp. unfold ask.
      rewrite Hfs, (Hall f (or_introl eq_refl)). reflexivity. }
    destruct (IH (decr_items_left t) errors
                 (published ++ [os_path_join symlink_dir (relativepath f)]) s1)
      as (t' & s' & Hrun & Hs & He & Hl & Ht & (evs & Ecalls' & Fprog') & Hfs').
    { intros g Hg. rewrite Hfs. apply Hall. right. exact Hg. }
    exists t', s'. cbn [for_each]. unfold bind at 1. rewrite Hstep, Hrun.
    rewrite <- app_assoc. simpl. repeat split; auto.
    + rewrite Hl. simpl. lia.
    + exists (evs1 ++ evs). rewrite Ecalls', Ecalls, app_assoc, forallb_app, Fprog, Fprog'.
      split; reflexivity.
    + intros p. rewrite Hfs'. apply Hfs.
Qed.

End Republication.

Import MemHost Scenario.

(** C4 (witness): the files a and b of U1 are already published. *)
Lemma C4_existing_files_are_skipped_witness :
  let s := new_distributor both_published in
  let files := [{| relativepath := "a" |}; {| relativepath := "b" |}] in
  exists t' s',
    for_each files (link_distro_file "/content/U1" "/wd" true) (init_progress, [], []) s
    = (Ok (t', [], [] ++ map (fun f => os_path_join "/wd" (relativepath f)) files), s')
    /\ num_success t' = num_success init_progress
    /\ num_error t' = num_error init_progress
    /\ items_left t' = items_left init_progress - Z.of_nat (length files)
    /\ items_total t' = items_total init_progress
    /\ (exists evs, calls s' = calls s ++ evs /\ forallb is_set_progress evs = true)
    /\ (forall p, os_path_exists p (world s') = os_path_exists p (world s)).
Proof.
  intros s files.
  apply (C4_existing_files_are_skipped (host:=mem_host)).
  - intros ps w p. reflexivity.
  - intros f [<-|[<-|[]]]; reflexivity.
Defined.

(** C4 (the claim as stated fails).  U1 is published, then published again
    unchanged.  The second pass leaves the links as they are and reports
    no error, but its [num_success] is 0 while [items_total] is 2: the two
    files that are already there are not counted as successes. *)
Lemma C4_counterexample :
  let first := symlink_distribution_unit_files [U1] "/wd" true
                 (new_distributor content_world) in
  let second := symlink_distribution_unit_files [U1] "/wd" true
                  (new_distributor (world (snd first))) in
  (exists t, fst first = Ok (true, [], t) /\ num_success t = 2 /\ items_total t = 2)
  /\ (forall p, node_at (fs (world (snd second))) p = node_at (fs (world (snd first))) p)
  /\ (exists t, fst second = Ok (true, [], t)
                /\ num_success t = 0 /\ items_total t = 2 /\ items_left t = 0
                /\ num_success t <> items_total t).
Proof.
  split; [|split].
  - eexists. vm_compute. repeat split; reflexivity.
  - intros p. vm_compute fs.
    cbv [node_at].
    repeat match goal with
           | |- context [(?a =? p)%string] => destruct (a =? p)%string eqn:?
           end; try reflexivity;
    repeat match goal with
           | H : (_ =? p)%string = true |- _ => apply String.eqb_eq in H; subst p
           end; try discriminate.
  - eexists. vm_compute. repeat split; try reflexivity. discriminate.
Qed.

(** ** The symlink reconciler *)

Section Reconciler.
Context {W : Type} {host : Host W}.

Lemma handle_symlinks_unit_outcome dir cb u t errs (s : PyState W) :
  exists t' extra s',
    handle_symlinks_unit dir cb u (t, errs) s = (Ok (t', errs ++ extra), s')
    /\ package_dir s' = package_dir s
    /\ items_total t' = items_total t
    /\ unit_outcome dir u (package_dir s) t t' extra.
Proof.
  unfold handle_symlinks_unit, handle_symlinks_except, bind, set_progress,
    progress_callback, ask, attempt, call, gets, LOG_error, ret.
  destruct cb; cbn [world record_call with_world with_progress_status package_dir].
  all: match goal with
       | |- context [os_path_exists ?p ?w] => destruct (os_path_exists p w)
       end; cbn [negb].
  all: try (do 3 eexists; split; [reflexivity|]; split; [reflexivity|];
            split; [reflexivity|]; eapply outcome_error; reflexivity).
  all: match goal with
       | |- context [util_create_symlink ?a ?b ?w] =>
           destruct (util_create_symlink a b w) as [[[|]|e1] w1]
       end; cbn [world record_call with_world with_progress_status record_log package_dir].
  all: try (do 3 eexists; split; [reflexivity|]; split; [reflexivity|];
            split; [reflexivity|]; eapply outcome_error; reflexivity).
  all: destruct (package_dir s) as [pd|] eqn:Hpd;
       cbn [world record_call with_world with_progress_status record_log package_dir].
  all: try (eexists; exists []; eexists; rewrite app_nil_r;
            split; [reflexivity|]; split; [exact Hpd|];
            split; [reflexivity|]; eapply outcome_success; reflexivity).
  all: match goal with
       | |- context [util_create_symlink ?a ?b ?w] =>
           destruct (util_create_symlink a b w) as [[[|]|e2] w2]
       end; cbn [world record_call with_world with_progress_status record_log package_dir].
  all: try (eexists; exists []; eexists; rewrite app_nil_r;
            split; [reflexivity|]; split; [exact Hpd|];
            split; [reflexivity|]; eapply outcome_success; reflexivity).
  all: try (do 3 eexists; split; [reflexivity|]; split; [exact Hpd|];
            split; [reflexivity|]; eapply outcome_error; reflexivity).
  all: do 3 eexists; split; [reflexivity|]; split; [exact Hpd|];
       split; [reflexivity|]; eapply outcome_second_link_refused;
       [reflexivity | simpl; lia | simpl; lia | simpl; lia | reflexivity].
Qed.

Lemma second_link_refusal_of_unit dir pd all u :
  In u all ->
  second_link_refusal dir pd all
    (storage_path u, os_path_join3 dir pd (util_get_relpath_from_unit u),
     MsgUnableToCreateSymlink (os_path_join3 dir pd (util_get_relpath_from_unit u))
                              (storage_path u)) = true.
Proof.
  intros Hin. simpl. apply existsb_exists. exists u. split; [exact Hin|].
  apply String.eqb_refl.
Qed.

(** The loop over the units: [n2] counts the units whose second link was
    refused; each of them left a refusal in the error list. *)
Lemma handle_symlinks_loop dir cb all : forall units t errs (s : PyState W),
  incl units all ->
  exists t' extra s' (n2 : nat),
    for_each units (handle_symlinks_unit dir cb) (t, errs) s = (Ok (t', errs ++ extra), s')
    /\ package_dir s' = package_dir s
    /\ items_total t' = items_total t
    /\ num_success t' + num_error t'
       = num_success t + num_error t + Z.of_nat (length units) + Z.of_nat n2
    /\ items_left t' = items_left t - Z.of_nat (length units) - Z.of_nat n2
    /\ num_error t' = num_error t + Z.of_nat (length extra)
    /\ match package_dir s with
       | None => n2 = O
       | Some pd => (n2 <= length (filter (second_link_refusal dir pd all) extra))%nat
       end.
Proof.
  induction units as [|u units IH]; intros t errs s Hincl.
  - exists t, [], s, O. rewrite app_nil_r. simpl. repeat split; try lia.
    destruct (package_dir s); lia.
  - destruct (handle_symlinks_unit_outcome dir cb u t errs s)
      as (t1 & extra1 & s1 & Hstep & Hpd1 & Htot1 & Hout).
    destruct (IH t1 (errs ++ extra1) s1) as (t' & extra & s' & n2 & Hrun & Hpd & Htot & Hsum & Hleft & Herr & Hn2).
    { intros x Hx. apply Hincl. right. exact Hx. }
    cbn [for_each]. unfold bind at 1. rewrite Hstep, Hrun. rewrite Hpd1 in Hn2.
    rewrite <- app_assoc.
    destruct Hout as [Hs He Hl Hx | e Hs He Hl Hx | pd Hp Hs He Hl Hx]; subst extra1.
    + exists t', extra, s', n2. simpl app. cbn [length].
      repeat split; try congruence; try lia.
    + exists t', (e :: extra), s', n2. simpl app. cbn [length].
      repeat split; try congruence; try lia.
      destruct (package_dir s) as [pd|]; [|exact Hn2].
      simpl. destruct (second_link_refusal dir pd all e); simpl; lia.
    + eexists t', (_ :: extra), s', (S n2). simpl app. cbn [length].
      repeat split; try congruence; try lia.
      rewrite Hp in *. cbn [filter].
      rewrite second_link_refusal_of_unit by (apply Hincl; left; reflexivity).
      simpl. lia.
Qed.

Lemma filter_none_length {A} (f : A -> bool) (l : list A) :
  forallb (fun x => negb (f x)) l = true -> length (filter f l) = O.
Proof.
  induction l as [|x l IH]; simpl; intros H; [reflexivity|].
  apply andb_true_iff in H as [Hx Hl]. destruct (f x); [discriminate Hx|]. auto.
Qed.

Lemma set_progress_keeps_self phase status cb (s : PyState W) :
  exists s', set_progress phase status cb s = (Ok tt, s')
             /\ package_dir s' = package_dir s /\ canceled s' = canceled s.
Proof.
  destruct cb; simpl; unfold progress_callback; eexists; repeat split; reflexivity.
Qed.

(** The accounting of [handle_symlinks]: it always returns; the tracker
    counts every unit, [num_error] is the number of errors, and when no
    second link was refused each unit was counted exactly once. *)
Lemma handle_symlinks_accounting units dir cb (s : PyState W) :
  exists status errors t s',
    handle_symlinks units dir cb s = (Ok (status, errors, t), s')
    /\ items_total t = Z.of_nat (length units)
    /\ num_error t = Z.of_nat (length errors)
    /\ (status = true <-> errors = [])
    /\ (no_second_link_refusal (package_dir s) dir units errors = true ->
        num_success t + num_error t = items_total t /\ items_left t = 0).
Proof.
  unfold handle_symlinks.
  destruct (set_progress_keeps_self packages (Progress init_progress) cb s)
    as (s0 & E0 & Hpd0 & _).
  unfold bind at 1. rewrite E0.
  destruct (handle_symlinks_loop dir cb units units
              (set_items (Z.of_nat (length units)) init_progress) [] s0 (incl_refl _))
    as (t' & extra & s' & n2 & Hrun & Hpd & Htot & Hsum & Hleft & Herr & Hn2).
  unfold bind at 1. rewrite Hrun. cbn [app].
  rewrite Hpd0 in Hn2. simpl in Htot, Hsum, Hleft, Herr.
  assert (Hzero : no_second_link_refusal (package_dir s) dir units extra = true -> n2 = O).
  { unfold no_second_link_refusal. destruct (package_dir s) as [pd|]; intros H.
    - rewrite (filter_none_length _ _ H) in Hn2. lia.
    - exact Hn2. }
  destruct extra as [|e extra].
  - destruct (set_progress_keeps_self packages (Progress (set_state FINISHED t')) cb s')
      as (s2 & E2 & _).
    unfold bind. rewrite E2.
    exists true, [], (set_state FINISHED t'), s2. simpl.
    repeat split; auto; try lia.
    all: match goal with
         | Hno : no_second_link_refusal _ _ _ _ = true |- _ => rewrite (Hzero Hno) in *
         end; lia.
  - unfold bind, shared_update, modify, ret.
    exists false, (e :: extra), (set_error_details (e :: extra) t').
    destruct cb; eexists; (split; [reflexivity|]); cbn [set_error_details items_total
      num_error num_success items_left]; repeat split; try discriminate; try lia;
      match goal with
      | Hno : no_second_link_refusal _ _ _ _ = true |- _ => rewrite (Hzero Hno) in *
      end; lia.
Qed.

(** The links one unit asks for: the first link when its source exists,
    and the link under the package subdirectory only after the first one
    was created. *)
Lemma handle_symlinks_unit_link_calls dir cb u acc (s : PyState W) pd :
  package_dir s = Some pd ->
  let source_path := storage_path u in
  let first := os_path_join dir (util_get_relpath_from_unit u) in
  let second := os_path_join3 dir pd (util_get_relpath_from_unit u) in
  let s1 := snd (set_progress packages (Progress (fst acc)) cb s) in
  link_calls s (snd (handle_symlinks_unit dir cb u acc s))
  = if os_path_exists source_path (world s1) then
      EvCreateSymlink source_path first ::
      match fst (util_create_symlink source_path first (world s1)) with
      | Ok true => [EvCreateSymlink source_path second]
      | _ => []
      end
    else [].
Proof.
  intros Hpd. destruct acc as [t errs]. unfold link_calls.
  unfold handle_symlinks_unit, handle_symlinks_except, bind, set_progress,
    progress_callback, ask, attempt, call, gets, LOG_error, ret.
  destruct cb; state_simpl.
  all: match goal with
       | |- context [os_path_exists ?p ?w] => destruct (os_path_exists p w)
       end; state_simpl.
  all: try (rewrite skipn_calls; reflexivity).
  all: try (rewrite <- (app_nil_r (calls s)) at 2; rewrite skipn_calls; reflexivity).
  all: match goal with
       | |- context [util_create_symlink ?a ?b ?w] =>
           destruct (util_create_symlink a b w) as [[[|]|e1] w1]
       end; state_simpl.
  all: try (repeat rewrite <- app_assoc; rewrite skipn_calls; reflexivity).
  all: rewrite Hpd; state_simpl.
  all: match goal with
       | |- context [util_create_symlink ?a ?b ?w] =>
           destruct (util_create_symlink a b w) as [[[|]|e2] w2]
       end; state_simpl;
       repeat rewrite <- app_assoc; rewrite skipn_calls; reflexivity.
Qed.

(** One unit, when its second link is not refused, is counted once. *)
Lemma handle_symlinks_unit_counts_once dir cb u t errs (s : PyState W) :
  exists t' extra s',
    handle_symlinks_unit dir cb u (t, errs) s = (Ok (t', errs ++ extra), s')
    /\ (no_second_link_refusal (package_dir s) dir [u] extra = true ->
        items_left t' = items_left t - 1
        /\ ((num_success t' = num_success t + 1 /\ num_error t' = num_error t)
            \/ (num_success t' = num_success t /\ num_error t' = num_error t + 1))).
Proof.
  destruct (handle_symlinks_unit_outcome dir cb u t errs s)
    as (t' & extra & s' & Hrun & _ & _ & Hout).
  exists t', extra, s'. split; [exact Hrun|].
  destruct Hout as [Hs He Hl Hx | e Hs He Hl Hx | pd Hp Hs He Hl Hx]; intros Hno.
  - auto.
  - auto.
  - exfalso. rewrite Hp, Hx in Hno. unfold no_second_link_refusal in Hno.
    cbn [forallb] in Hno.
    rewrite (second_link_refusal_of_unit dir pd [u] u (or_introl eq_refl)) in Hno.
    discriminate Hno.
Qed.

(** C5 (as amended).  Symlink reconciler accounting: [handle_symlinks]
    always returns, with [items_total] the number of units and [num_error]
    the number of recorded errors.  A unit whose second link is not
    refused increments exactly one of [num_success] and [num_error] and
    decrements [items_left] by one; when no second link is refused, after
    the loop [num_success + num_error = items_total] and [items_left = 0].
    The link under the package subdirectory is asked for only when the
    unit's source exists and its first link was created. *)
Theorem C5_symlink_reconciler_accounting
    (units : list Unit) (symlink_dir : path) (cb : bool) (s : PyState W) :
  (exists status errors t s',
     handle_symlinks units symlink_dir cb s = (Ok (status, errors, t), s')
     /\ items_total t = Z.of_nat (length units)
     /\ num_error t = Z.of_nat (length errors)
     /\ (status = true <-> errors = [])
     /\ (no_second_link_refusal (package_dir s) symlink_dir units errors = true ->
         num_success t + num_error t = items_total t /\ items_left t = 0))
  /\ (forall u t errs,
        exists t' extra s',
          handle_symlinks_unit symlink_dir cb u (t, errs) s = (Ok (t', errs ++ extra), s')
          /\ (no_second_link_refusal (package_dir s) symlink_dir [u] extra = true ->
              items_left t' = items_left t - 1
              /\ ((num_success t' = num_success t + 1 /\ num_error t' = num_error t)
                  \/ (num_success t' = num_success t /\ num_error t' = num_error t + 1))))
  /\ (forall u acc pd,
        package_dir s = Some pd ->
        let s1 := snd (set_progress packages (Progress (fst acc)) cb s) in
        link_calls s (snd (handle_symlinks_unit symlink_dir cb u acc s))
        = if os_path_exists (storage_path u) (world s1) then
            EvCreateSymlink (storage_path u)
              (os_path_join symlink_dir (util_get_relpath_from_unit u)) ::
            match fst (util_create_symlink (storage_path u)
                         (os_path_join symlink_dir (util_get_relpath_from_unit u))
                         (world s1)) with
            | Ok true =>
                [EvCreateSymlink (storage_path u)
                   (os_path_join3 symlink_dir pd (util_get_relpath_from_unit u))]
            | _ => []
            end
          else []).
Proof.
  split; [|split].
  - apply handle_symlinks_accounting.
  - intros u t errs. apply handle_symlinks_unit_counts_once.
  - intros u acc pd Hpd. apply handle_symlinks_unit_link_calls. exact Hpd.
Qed.

End Reconciler.

(** C5 (witness): two packages in storage, published with the package
    subdirectory "Packages". *)
Lemma C5_symlink_reconciler_accounting_witness :
  let s := with_package_dir (Some "Packages") (new_distributor packages_world) in
  let units := [rpm_unit "p1"; rpm_unit "p2"] in
  exists status errors t s',
    handle_symlinks units "/wd" true s = (Ok (status, errors, t), s')
    /\ no_second_link_refusal (package_dir s) "/wd" units errors = true
    /\ num_success t + num_error t = items_total t /\ items_left t = 0
    /\ link_calls s (snd (handle_symlinks_unit "/wd" true (rpm_unit "p1")
                                                (init_progress, []) s))
       = [EvCreateSymlink "/content/p1.rpm" "/wd/p1.rpm";
          EvCreateSymlink "/content/p1.rpm" "/wd/Packages/p1.rpm"].
Proof.
  intros s units.
  destruct (C5_symlink_reconciler_accounting units "/wd" true s)
    as [(status & errors & t & s' & Hrun & _ & _ & _ & Hacc) [_ Hatt]].
  exists status, errors, t, s'.
  assert (Hno : no_second_link_refusal (package_dir s) "/wd" units errors = true).
  { vm_compute in Hrun. injection Hrun as _ <- _ _. reflexivity. }
  split; [exact Hrun|]. split; [exact Hno|].
  split; [exact (proj1 (Hacc Hno))|]. split; [exact (proj2 (Hacc Hno))|].
  rewrite (Hatt (rpm_unit "p1") (init_progress, []) "Packages" eq_refl). reflexivity.
Defined.

(** C5 (the claim as stated fails).  With the package subdirectory
    "Packages" in effect: when the first link of p1 is refused, the link
    under the subdirectory is not asked for at all; and when the second
    link is refused, the unit is counted both as an error and as a
    success and [items_left] is decremented twice. *)
Lemma C5_counterexample :
  let blocked1 := handle_symlinks [rpm_unit "p1"] "/wd" true
                    (with_package_dir (Some "Packages") (new_distributor first_link_blocked)) in
  let blocked2 := handle_symlinks [rpm_unit "p1"] "/wd" true
                    (with_package_dir (Some "Packages") (new_distributor second_link_blocked)) in
  filter is_create_symlink (calls (snd blocked1))
  = [EvCreateSymlink "/content/p1.rpm" "/wd/p1.rpm"]
  /\ node_at (fs (world (snd blocked1))) "/wd/Packages/p1.rpm" = None
  /\ (exists errors t, fst blocked2 = Ok (false, errors, t)
         /\ items_total t = 1 /\ num_success t = 1 /\ num_error t = 1 /\ items_left t = -1
         /\ num_success t + num_error t <> items_total t /\ items_left t <> 0).
Proof.
  split; [vm_compute; reflexivity|]. split; [vm_compute; reflexivity|].
  eexists. eexists. vm_compute. repeat split; try reflexivity; discriminate.
Qed.

(** ** Configuration validation *)

Section Validation.
Context {W : Type} {host : Host W}.

(** The character check of [relative_url] stops at the first character. *)
Lemma relative_url_check_reads_first_character config c rest :
  config_get config "relative_url" = VStr (String c rest) ->
  check_required_key config "relative_url"
  = if allowed_url_char c then None else Some MsgRelativeUrlCharacters.
Proof.
  intros E. unfold check_required_key. rewrite E. simpl.
  destruct (allowed_url_char c); reflexivity.
Qed.

Lemma check_required_key_early config key m :
  check_required_key config key = Some m -> late_rejection m = false.
Proof.
  unfold check_required_key, or_else.
  destruct (is_none (config_get config key)); [intros H; injection H as <-; reflexivity|].
  destruct (key =? "relative_url")%string.
  - destruct (config_get config "relative_url") as [| | |u|];
      try (intros H; injection H as <-; reflexivity).
    + destruct (key =? "http")%string, (key =? "https")%string;
        repeat match goal with
               | |- context [if ?c then _ else _] => destruct c
               end; intros H; try discriminate H; injection H as <-; reflexivity.
    + destruct (re_match_disallowed u); [intros H; injection H as <-; reflexivity|].
      destruct (key =? "http")%string, (key =? "https")%string;
        repeat match goal with
               | |- context [if ?c then _ else _] => destruct c
               end; intros H; try discriminate H; injection H as <-; reflexivity.
  - destruct (key =? "http")%string, (key =? "https")%string;
      repeat match goal with
             | |- context [if ?c then _ else _] => destruct c
             end; intros H; try discriminate H; injection H as <-; reflexivity.
Qed.

Lemma check_required_keys_early config keys m :
  check_required_keys config keys = Some m -> late_rejection m = false.
Proof.
  induction keys as [|key keys IH]; simpl; [discriminate|].
  unfold or_else. destruct (check_required_key config key) as [m'|] eqn:E.
  - intros H. injection H as <-. eapply check_required_key_early. exact E.
  - exact IH.
Qed.

Lemma check_config_key_early config key bundle m :
  check_config_key config key bundle = Ok (Reject m) -> late_rejection m = false.
Proof.
  unfold check_config_key.
  repeat match goal with
         | |- context [if ?c then _ else _] => destruct c
         | |- context [match encode_utf8 ?v with _ => _ end] => destruct (encode_utf8 v)
         end; intros H; try discriminate H; injection H as <-; reflexivity.
Qed.

Lemma check_config_keys_early config keys : forall bundle m,
  check_config_keys config keys bundle = Ok (Reject m) -> late_rejection m = false.
Proof.
  induction keys as [|key keys IH]; intros bundle m; simpl; [discriminate|].
  destruct (check_config_key config key bundle) as [[m'|b']|e] eqn:E.
  - intros H. injection H as <-. eapply check_config_key_early. exact E.
  - apply IH.
  - discriminate.
Qed.

Lemma check_publish_dir_emits config key f g :
  emits (W:=W) any_event (check_publish_dir config key f g).
Proof.
  unfold check_publish_dir, as_path.
  destruct (truthy (config_get config key)); [|emits_auto].
  emits_auto; repeat match goal with
                     | |- context [if ?c then _ else _] => destruct c
                     end; emits_auto.
Qed.

Lemma check_publish_dir_late config key f g (s : PyState W) m s' :
  (forall d, late_rejection (f d) = true) -> (forall d, late_rejection (g d) = true) ->
  check_publish_dir config key f g s = (Ok (Some m), s') -> late_rejection m = true.
Proof.
  intros Hf Hg. unfold check_publish_dir, as_path, bind, ask, ret, raise.
  destruct (truthy (config_get config key)); [|discriminate].
  destruct (config_get config key); try discriminate.
  repeat match goal with
         | |- context [if ?c then _ else _] => destruct c
         end; intros H; try discriminate H; injection H as <- _; auto.
Qed.

(** The first call of [process_repo_auth_certificate_bundle] is made
    whatever follows. *)
Lemma process_repo_auth_certificate_bundle_calls repo rel bundle (s : PyState W) r s' :
  process_repo_auth_certificate_bundle repo rel bundle s = (r, s') ->
  exists ev evs, calls s' = calls s ++ ev :: evs /\ is_auth_bookkeeping ev = true.
Proof.
  unfold process_repo_auth_certificate_bundle, bind, call.
  destruct (bundle_nonempty bundle).
  - destruct (write_consumer_cert_bundle repo bundle (world (record_call _ s)))
      as [[[]|e] w1]; cbn [world with_world record_call].
    + destruct (add_protected_repo rel repo w1) as [r2 w2].
      intros H. injection H as _ <-. eexists. eexists. simpl.
      rewrite <- app_assoc. split; reflexivity.
    + intros H. injection H as _ <-. eexists. exists []. split; reflexivity.
  - destruct (delete_protected_repo rel (world (record_call _ s))) as [r1 w1].
    intros H. injection H as _ <-. eexists. exists []. split; reflexivity.
Qed.

(** C8 (as amended).  Validation and mutation: a rejection that comes from
    the checks of the keys and their values (a missing or unsupported key,
    a wrong type, disallowed leading characters, an invalid checksum type
    or certificate) is returned before any collaborator has been called,
    with the world as it was.  A rejection that comes from the publish
    directory checks or from the relative-url conflict check is returned
    after the auth certificate bundle has been processed: the first call
    made is one that writes the certificate bundle or deletes the
    protected-repo entry. *)
Theorem C8_rejection_and_mutation (repo : Repo) (config : Config) (s s' : PyState W) msg :
  validate_config repo config s = (Ok (false, Some msg), s') ->
  if late_rejection msg
  then exists ev evs, calls s' = calls s ++ ev :: evs /\ is_auth_bookkeeping ev = true
  else world s' = world s /\ calls s' = calls s.
Proof.
  unfold validate_config.
  destruct (check_required_keys config REQUIRED_CONFIG_KEYS) as [m|] eqn:Ereq.
  { intros H. unfold bind, LOG_error, ret in H. injection H as <- <-.
    rewrite (check_required_keys_early _ _ _ Ereq). split; reflexivity. }
  destruct (check_config_keys config (config_keys config) empty_bundle)
    as [[m|bundle]|e] eqn:Ekeys.
  { intros H. unfold bind, LOG_error, ret in H. injection H as <- <-.
    rewrite (check_config_keys_early _ _ _ _ Ekeys). split; reflexivity. }
  2: { discriminate. }
  intros H.
  apply bind_Ok in H as (rel & s1 & Hrel & H).
  assert (s1 = s) as ->.
  { unfold normalized_relative_path in Hrel.
    destruct (get_repo_relative_path repo config); try discriminate Hrel.
    injection Hrel as _ <-. reflexivity. }
  apply bind_Ok in H as (x & s2 & Hproc & H).
  apply process_repo_auth_certificate_bundle_calls in Hproc as (ev & evs & Ecalls & Hev).
  assert (Hlate : late_rejection msg = true /\ exists evs', calls s' = calls s2 ++ evs').
  { apply bind_Ok in H as (https_dir & s3 & H3 & H).
    pose proof (emits_run any_event _ _ _ _ (check_publish_dir_emits _ _ _ _) H3)
      as (ev3 & E3 & _).
    destruct https_dir as [m|].
    { injection H as <- <-. split; [|eauto].
      eapply check_publish_dir_late; [| |exact H3]; reflexivity. }
    apply bind_Ok in H as (http_dir & s4 & H4 & H).
    pose proof (emits_run any_event _ _ _ _ (check_publish_dir_emits _ _ _ _) H4)
      as (ev4 & E4 & _).
    destruct http_dir as [m|].
    { injection H as <- <-. split.
      - eapply check_publish_dir_late; [| |exact H4]; reflexivity.
      - exists (ev3 ++ ev4). rewrite E4, E3, app_assoc. reflexivity. }
    apply bind_Ok in H as (items & s5 & H5 & H).
    pose proof (emits_run any_event _ _ _ _ (emits_fetch any_event _) H5) as (ev5 & E5 & _).
    destruct items as [|item items]; [discriminate H|].
    injection H as <- <-. split; [reflexivity|].
    exists (ev3 ++ ev4 ++ ev5). rewrite E5, E4, E3. repeat rewrite <- app_assoc. reflexivity. }
  destruct Hlate as [-> (evs' & E')].
  exists ev, (evs ++ evs'). split; [|exact Hev].
  rewrite E', Ecalls, <- app_assoc. reflexivity.
Qed.

End Validation.

(** C7 (the code departs from it).  Relative-path sanitization:
    "etc/.." contains dots, which are outside alphanumerics, '/', '_' and
    '-', yet [validate_config] accepts it: [re.match] only looks at the
    start of the string, where "etc/.." has allowed characters.  The value
    "../etc" of the specification, which starts with a dot, is rejected. *)
Theorem C7_validate_config_accepts_later_disallowed_characters :
  all_allowed "etc/.." = false
  /\ fst (validate_config repo1 (minimal_config "etc/..") (new_distributor empty_world))
     = Ok (true, None)
  /\ fst (validate_config repo1 (minimal_config "../etc") (new_distributor empty_world))
     = Ok (false, Some MsgRelativeUrlCharacters).
Proof.
  vm_compute. repeat split; reflexivity.
Qed.

(** C8 (witness): a rejection by the key checks, and one by the conflict
    check. *)
Lemma C8_rejection_and_mutation_witness :
  (let s := new_distributor claimed_world in
   exists msg s',
     validate_config repo1 [("relative_url", VStr "shared"); ("http", VInt 1)] s
     = (Ok (false, Some msg), s')
     /\ late_rejection msg = false /\ world s' = world s /\ calls s' = calls s)
  /\ (let s := new_distributor claimed_world in
      exists msg s',
        validate_config repo1 (minimal_config "shared") s = (Ok (false, Some msg), s')
        /\ late_rejection msg = true
        /\ exists ev evs, calls s' = calls s ++ ev :: evs /\ is_auth_bookkeeping ev = true).
Proof.
  split; intros s.
  - eexists. eexists. split; [vm_compute; reflexivity|]. split; [reflexivity|].
    apply (C8_rejection_and_mutation repo1
             [("relative_url", VStr "shared"); ("http", VInt 1)] s _ (MsgHttpNotBoolean (VInt 1))).
    vm_compute. reflexivity.
  - eexists. eexists. split; [vm_compute; reflexivity|]. split; [reflexivity|].
    apply (C8_rejection_and_mutation repo1 (minimal_config "shared") s _
             (MsgRelativeUrlConflict "shared" "shared" "repo2")).
    vm_compute. reflexivity.
Defined.

(** C8 (the claim as stated fails).  repo1 asks for the relative url
    "shared", under which repo2 already publishes.  [validate_config]
    returns (False, conflict message), but before that it has called
    [delete_protected_repo], and the protected-repo listing has lost the
    entry of "shared".  With an authorization certificate in the
    configuration, the certificate bundle of repo1 has been written and
    repo1 added to the listing before the same rejection. *)
Lemma C8_counterexample :
  let s := new_distributor claimed_world in
  let run := validate_config repo1 (minimal_config "shared") s in
  let with_cert := minimal_config "shared"
                   ++ [("auth_cert", VStr "-----BEGIN CERTIFICATE-----MIIB")] in
  let run' := validate_config repo1 with_cert s in
  (fst run = Ok (false, Some (MsgRelativeUrlConflict "shared" "shared" "repo2"))
   /\ calls (snd run) = [EvDeleteProtectedRepo "shared"]
   /\ protected_repos (world s) = [("shared", "repo2")]
   /\ protected_repos (world (snd run)) = []
   /\ world (snd run) <> world s)
  /\ (fst run' = Ok (false, Some (MsgRelativeUrlConflict "shared" "shared" "repo2"))
      /\ calls (snd run')
         = [EvWriteConsumerCertBundle "repo1"
              {| bundle_cert := Some "-----BEGIN CERTIFICATE-----MIIB"; bundle_ca := None |};
            EvAddProtectedRepo "shared" "repo1"]
      /\ cert_bundles (world (snd run'))
         = [("repo1", {| bundle_cert := Some "-----BEGIN CERTIFICATE-----MIIB";
                         bundle_ca := None |})]
      /\ world (snd run') <> world s).
Proof.
  vm_compute. repeat split; try reflexivity; discriminate.
Qed.

(** ** The orchestrator *)

Section Orchestrator.
Context {W : Type} {host : Host W}.

(** A publish that runs to completion went through every stage: the two
    symlink phases, the path migration and the protocol steps; its report
    is built from their results. *)
Lemma publish_repo_stages (repo : Repo) (config : Config) (s s' : PyState W) r :
  publish_repo repo config s = (Ok r, s') ->
  completed r = true ->
  exists s0 s1 s2 s3 s4 s5 distro_units distro_errors pkg_units pkg_errors
         relpath https_publish_dir https_repo_publish_dir
         http_publish_dir http_repo_publish_dir summary groups cats skipmd duration,
    publish_distribution_units repo (config_get config "skip") s0
      = (Ok (distro_units, distro_errors), s1)
    /\ publish_package_units repo (config_get config "skip") s1
       = (Ok (pkg_units, pkg_errors), s2)
    /\ normalized_relative_path (get_repo_relative_path repo config) s3 = (Ok relpath, s3)
    /\ repo_publish_dir (get_https_publish_dir config) relpath s3
       = (Ok (https_publish_dir, https_repo_publish_dir), s3)
    /\ repo_publish_dir (get_http_publish_dir config) relpath s3
       = (Ok (http_publish_dir, http_repo_publish_dir), s3)
    /\ migrate_publish_path relpath https_publish_dir http_publish_dir s3 = (Ok tt, s4)
    /\ handle_publish_links repo config https_publish_dir https_repo_publish_dir
         http_publish_dir http_repo_publish_dir [] s4 = (Ok summary, s5)
    /\ s' = s5
    /\ report_summary r
       = summary ++ final_counts pkg_units distro_units pkg_errors distro_errors
                                 groups cats relpath skipmd
    /\ r = (let details := {| errors := pkg_errors ++ distro_errors;
                              time_metadata_sec := duration |} in
            match pkg_errors ++ distro_errors with
            | _ :: _ => FailureReport (report_summary r) details
            | [] => SuccessReport (report_summary r) details
            end).
Proof.
  unfold publish_repo. intros H Hdone.
  apply bind_Ok in H as (x0 & sa & _ & H).
  apply bind_Ok in H as (x1 & s0 & _ & H).
  apply bind_Ok in H as (c0 & sb & Hc0 & H).
  unfold gets in Hc0. injection Hc0 as <- <-.
  destruct (canceled s0).
  { injection H as <- _. discriminate Hdone. }
  apply bind_Ok in H as ([distro_units distro_errors] & s1 & Hdistro & H).
  apply bind_Ok in H as ([pkg_units pkg_errors] & s2 & Hpkg & H).
  apply bind_Ok in H as (eskip & sc & _ & H).
  apply bind_Ok in H as (updateinfo_xml_path & sd & _ & H).
  apply bind_Ok in H as (c1 & se & Hc1 & H).
  unfold gets in Hc1. injection Hc1 as <- <-.
  destruct (canceled sd).
  { injection H as <- _. discriminate Hdone. }
  apply bind_Ok in H as (gskip & sf & _ & H).
  apply bind_Ok in H as ([[groups_xml_path existing_groups] existing_cats] & sg & _ & H).
  apply bind_Ok in H as (t_start & sh & _ & H).
  apply bind_Ok in H as (x2 & si & _ & H).
  apply bind_Ok in H as ([metadata_status metadata_errors] & sj & _ & H).
  apply bind_Ok in H as (t_end & s3' & _ & H).
  apply bind_Ok in H as (relpath & s3 & Hrel & H).
  assert (s3 = s3') as <-.
  { unfold normalized_relative_path in Hrel.
    destruct (get_repo_relative_path repo config); try discriminate Hrel.
    injection Hrel as _ <-. reflexivity. }
  apply bind_Ok in H as ([hd hrd] & s3a & Hhttps & H).
  assert (s3a = s3) as ->.
  { unfold repo_publish_dir in Hhttps.
    destruct (get_https_publish_dir config); try discriminate Hhttps.
    injection Hhttps as _ _ <-. reflexivity. }
  apply bind_Ok in H as ([pd prd] & s3b & Hhttp & H).
  assert (s3b = s3) as ->.
  { unfold repo_publish_dir in Hhttp.
    destruct (get_http_publish_dir config); try discriminate Hhttp.
    injection Hhttp as _ _ <-. reflexivity. }
  apply bind_Ok in H as ([] & s4 & Hmig & H).
  apply bind_Ok in H as (summary & s5 & Hlinks & H).
  exists s0, s1, s2, s3, s4, s5, distro_units, distro_errors, pkg_units, pkg_errors,
    relpath, hd, hrd, pd, prd, summary, (length existing_groups), (length existing_cats).
  cbn [errors] in H.
  destruct (pkg_errors ++ distro_errors) as [|e es] eqn:Eerr;
    injection H as <- <-; do 2 eexists; repeat split; eauto.
Qed.

(** A distributor that was canceled before the publish returns the
    cancel report at once: nothing is called. *)
Lemma publish_repo_canceled (repo : Repo) (config : Config) (s : PyState W) :
  canceled s = true ->
  exists s', publish_repo repo config s = (Ok (CancelReport []), s')
             /\ calls s' = calls s /\ world s' = world s.
Proof.
  intros Hc. unfold publish_repo, bind, modify, gets.
  cbn [canceled with_repo_working_dir with_progress_status]. rewrite Hc.
  eexists. split; [reflexivity|]. split; reflexivity.
Qed.

Lemma publish_repo_after_cancel (repo : Repo) (config : Config) (w : W) :
  fst (publish_repo repo config (with_canceled true (new_distributor w)))
  = Ok (CancelReport []).
Proof.
  destruct (publish_repo_canceled repo config (with_canceled true (new_distributor w)) eq_refl)
    as (s' & -> & _). reflexivity.
Qed.

End Orchestrator.

(** ** Protocol steps *)

Section Protocols.
Context {W : Type} {host : Host W}.

Lemma get_set_phase phase v ps : get_phase phase (set_phase phase v ps) = v.
Proof. destruct phase; reflexivity. Qed.

(** What one protocol step does, case by case on what the collaborators
    answer. *)
Lemma handle_publish_link_cases phase key enabled wd pdir rdir summary (s : PyState W) :
  let run := handle_publish_link phase key enabled wd pdir rdir summary s in
  if truthy enabled then
    let s1 := snd (progress_callback phase (StateOnly IN_PROGRESS) s) in
    match util_create_symlink wd rdir (world s1) with
    | (Raise _, _) =>
        fst run = Ok summary
        /\ get_phase phase (progress_status (snd run)) = StateOnly FAILED
        /\ link_calls s (snd run) = [EvCreateSymlink wd rdir]
    | (Ok _, w2) =>
        match util_generate_listing_files pdir rdir w2 with
        | (Raise _, _) =>
            fst run = Ok summary
            /\ get_phase phase (progress_status (snd run)) = StateOnly FAILED
            /\ link_calls s (snd run)
               = [EvCreateSymlink wd rdir; EvGenerateListingFiles pdir rdir]
        | (Ok _, _) =>
            fst run = Ok (summary ++ [(key, VStr rdir)])
            /\ get_phase phase (progress_status (snd run)) = StateOnly FINISHED
            /\ link_calls s (snd run)
               = [EvCreateSymlink wd rdir; EvGenerateListingFiles pdir rdir]
        end
    end
  else
    let s1 := snd (progress_callback phase (StateOnly SKIPPED) s) in
    get_phase phase (progress_status (snd run)) = StateOnly SKIPPED
    /\ if os_path_lexists rdir (world s1) then
         link_calls s (snd run) = [EvRemoveRepoPublishDir pdir rdir]
         /\ match util_remove_repo_publish_dir pdir rdir (world s1) with
            | (Ok _, _) => fst run = Ok summary
            | (Raise e, _) => fst run = Raise e
            end
       else link_calls s (snd run) = [] /\ fst run = Ok summary.
Proof.
  unfold handle_publish_link, link_calls.
  destruct (truthy enabled).
  - unfold bind, try_except, set_progress, progress_callback, call, ret.
    cbn [world record_call with_world with_progress_status progress_status calls fst snd].
    destruct (util_create_symlink wd rdir _) as [[b|e] w2];
      cbn [world record_call with_world with_progress_status progress_status calls fst snd].
    + destruct (util_generate_listing_files pdir rdir w2) as [[[]|e] w3];
        cbn [world record_call with_world with_progress_status progress_status calls fst snd];
        rewrite get_set_phase; repeat rewrite <- app_assoc; rewrite skipn_calls;
        repeat split; reflexivity.
    + rewrite get_set_phase; repeat rewrite <- app_assoc; rewrite skipn_calls;
        repeat split; reflexivity.
  - unfold bind, set_progress, progress_callback, call, ask, ret.
    cbn [world record_call with_world with_progress_status progress_status calls fst snd].
    destruct (os_path_lexists rdir _);
      cbn [world record_call with_world with_progress_status progress_status calls fst snd].
    + destruct (util_remove_repo_publish_dir pdir rdir _) as [[[]|e] w2];
        cbn [world record_call with_world with_progress_status progress_status calls fst snd];
        rewrite get_set_phase; repeat rewrite <- app_assoc; rewrite skipn_calls;
        repeat split; reflexivity.
    + rewrite get_set_phase, skipn_calls. repeat split; reflexivity.
Qed.

End Protocols.

(** ** The relative publish path *)

Section RelativePath.
Context {W : Type} {host : Host W}.

Lemma handle_publish_link_summary phase key enabled wd pdir rdir summary (s s' : PyState W)
    summary' :
  handle_publish_link phase key enabled wd pdir rdir summary s = (Ok summary', s') ->
  summary' = summary \/ summary' = summary ++ [(key, VStr rdir)].
Proof.
  intros H.
  pose proof (handle_publish_link_cases phase key enabled wd pdir rdir summary s) as Hc.
  cbv zeta in Hc. rewrite H in Hc. cbn [fst snd] in Hc.
  destruct (truthy enabled).
  - destruct (util_create_symlink _ _ _) as [[b|e] w2].
    + destruct (util_generate_listing_files _ _ _) as [[[]|e] w3];
        destruct Hc as [Hr _]; injection Hr as ->; auto.
    + destruct Hc as [Hr _]; injection Hr as ->; auto.
  - destruct Hc as [_ Hc]. destruct (os_path_lexists _ _).
    + destruct Hc as [_ Hc]. destruct (util_remove_repo_publish_dir _ _ _) as [[[]|e] w2].
      * injection Hc as ->. auto.
      * discriminate Hc.
    + destruct Hc as [_ Hr]. injection Hr as ->. auto.
Qed.




End RelativePath.


(** ** More on configuration validation *)

Section ValidationMore.
Context {W : Type} {host : Host W}.

Lemma check_required_keys_None config keys key :
  check_required_keys config keys = None -> In key keys ->
  check_required_key config key = None.
Proof.
  induction keys as [|k keys IH]; simpl; intros H Hin; [destruct Hin|].
  unfold or_else in H. destruct (check_required_key config k) eqn:E; [discriminate H|].
  destruct Hin as [<-|Hin]; auto.
Qed.

Lemma check_config_keys_Accept config keys : forall bundle bundle' key,
  check_config_keys config keys bundle = Ok (Accept bundle') -> In key keys ->
  exists b0 b1, check_config_key config key b0 = Ok (Accept b1).
Proof.
  induction keys as [|k keys IH]; simpl; intros bundle bundle' key H Hin; [destruct Hin|].
  destruct (check_config_key config k bundle) as [[m|b1]|e] eqn:E; try discriminate H.
  destruct Hin as [<-|Hin]; eauto.
Qed.

(** Only the [encode] of a certificate value raises in the key checks. *)
Lemma check_config_key_Raise config key bundle e :
  check_config_key config key bundle = Raise e -> e = AttributeError "encode".
Proof.
  unfold check_config_key, encode_utf8.
  repeat match goal with
         | |- context [if ?c then _ else _] => destruct c
         | |- context [match config_get ?c ?k with _ => _ end] => destruct (config_get c k)
         end; intros H; try discriminate H; injection H as <-; reflexivity.
Qed.

Lemma check_config_keys_Raise config keys : forall bundle e,
  check_config_keys config keys bundle = Raise e -> e = AttributeError "encode".
Proof.
  induction keys as [|k keys IH]; simpl; intros bundle e; [discriminate|].
  destruct (check_config_key config k bundle) as [[m|b1]|e1] eqn:E.
  - discriminate.
  - apply IH.
  - intros H. injection H as <-. eapply check_config_key_Raise. exact E.
Qed.

Lemma mem_string_In x l : mem_string x l = true <-> In x l.
Proof.
  induction l as [|y l IH]; simpl; [split; [discriminate|tauto]|].
  rewrite orb_true_iff, IH. split; intros [H|H]; auto.
  - left. symmetry. apply String.eqb_eq. exact H.
  - left. apply String.eqb_eq. symmetry. exact H.
Qed.

(** The bundle the key loop builds: the certificate entries present in
    the configuration override those of the initial bundle. *)
Lemma check_config_keys_bundle config keys : forall bundle bundle',
  check_config_keys config keys bundle = Ok (Accept bundle') ->
  bundle_cert bundle'
  = (if mem_string "auth_cert" keys
     then match config_get config "auth_cert" with VStr pem => Some pem | _ => None end
     else bundle_cert bundle)
  /\ bundle_ca bundle'
     = (if mem_string "auth_ca" keys
        then match config_get config "auth_ca" with VStr pem => Some pem | _ => None end
        else bundle_ca bundle).
Proof.
  induction keys as [|k keys IH]; cbn [check_config_keys mem_string]; intros bundle bundle' H.
  - injection H as <-. split; reflexivity.
  - destruct (check_config_key config k bundle) as [[m|b1]|e] eqn:E; try discriminate H.
    destruct (IH _ _ H) as [Hc Ha]. rewrite Hc, Ha. clear IH H Hc Ha.
    unfold check_config_key, encode_utf8 in E.
    destruct (negb (mem_string k REQUIRED_CONFIG_KEYS) && negb (mem_string k OPTIONAL_CONFIG_KEYS))%bool;
      [discriminate E|].
    destruct (String.eqb_spec k "protected") as [->|N1].
    { destruct (negb _); [discriminate E|]. injection E as <-. split; reflexivity. }
    destruct (String.eqb_spec k "use_createrepo") as [->|N2].
    { destruct (negb _); [discriminate E|]. injection E as <-. split; reflexivity. }
    destruct (String.eqb_spec k "checksum_type") as [->|N3].
    { destruct (_ && _)%bool; [discriminate E|]. injection E as <-. split; reflexivity. }
    destruct (String.eqb_spec k "skip") as [->|N4].
    { destruct (negb _); [discriminate E|]. injection E as <-. split; reflexivity. }
    destruct (String.eqb_spec k "auth_cert") as [->|N5].
    { destruct (config_get config "auth_cert"); try discriminate E.
      destruct (negb _); [discriminate E|]. injection E as <-. simpl.
      split; [|reflexivity]. destruct (mem_string "auth_cert" keys); reflexivity. }
    destruct (String.eqb_spec k "auth_ca") as [->|N6].
    { destruct (config_get config "auth_ca"); try discriminate E.
      destruct (negb _); [discriminate E|]. injection E as <-. simpl.
      split; [reflexivity|]. destruct (mem_string "auth_ca" keys); reflexivity. }
    injection E as <-.
    assert (H1 : ("auth_cert" =? k)%string = false) by (apply String.eqb_neq; congruence).
    assert (H2 : ("auth_ca" =? k)%string = false) by (apply String.eqb_neq; congruence).
    rewrite H1, H2. split; reflexivity.
Qed.

Lemma emits_no_event {A} (m : M (PyState W) A) s :
  emits no_event m -> calls (snd (m s)) = calls s.
Proof.
  intros H. destruct (H s) as ([|ev evs] & E & F); [|discriminate F].
  rewrite E. apply app_nil_r.
Qed.

Lemma check_publish_dir_emits_any P config key f g :
  emits (W:=W) P (check_publish_dir config key f g).
Proof.
  unfold check_publish_dir, as_path.
  destruct (truthy (config_get config key)); [|emits_auto].
  emits_auto; repeat match goal with
                     | |- context [if ?c then _ else _] => destruct c
                     end; emits_auto.
Qed.

(** The publish directory check only reads. *)
Lemma check_publish_dir_reads config key f g (s : PyState W) r s' :
  check_publish_dir config key f g s = (r, s') -> s' = s.
Proof.
  unfold check_publish_dir, as_path, bind, ask, ret, raise.
  destruct (truthy (config_get config key)); [|intros H; injection H as _ <-; reflexivity].
  destruct (config_get config key); try (intros H; injection H as _ <-; reflexivity).
  repeat match goal with
         | |- context [if ?c then _ else _] => destruct c
         end; intros H; injection H as _ <-; reflexivity.
Qed.

Lemma check_publish_dir_None config key f g (s s' : PyState W) :
  check_publish_dir config key f g s = (Ok None, s') ->
  truthy (config_get config key) = true ->
  exists d, config_get config key = VStr d
            /\ os_path_exists d (world s) = true /\ os_path_isdir d (world s) = true
            /\ os_access_R_OK d (world s) = true /\ os_access_W_OK d (world s) = true.
Proof.
  unfold check_publish_dir, as_path, bind, ask, ret, raise. intros H Ht. rewrite Ht in H.
  destruct (config_get config key) as [| | |d|]; try discriminate H.
  exists d. split; [reflexivity|].
  destruct (os_path_exists d (world s)), (os_path_isdir d (world s));
    cbn [negb orb] in H; try discriminate H.
  destruct (os_access_R_OK d (world s)), (os_access_W_OK d (world s));
    cbn [negb orb] in H; try discriminate H.
  repeat split; reflexivity.
Qed.

(** X1.  What an accepted configuration looks like: [relative_url] is a
    string that does not begin with a disallowed character, [http] and
    [https] are booleans, every key is a required or an optional one,
    [protected] and [use_createrepo] are booleans and [skip] a list where
    present, [checksum_type] is None or a valid type, and [auth_cert] and
    [auth_ca], where present, are strings that [util.validate_cert]
    accepts. *)
Theorem validate_config_accepts_only_wellformed
    (repo : Repo) (config : Config) (s s' : PyState W) :
  validate_config repo config s = (Ok (true, None), s') ->
  (exists url, config_get config "relative_url" = VStr url
               /\ re_match_disallowed url = false)
  /\ isinstance_bool (config_get config "http") = true
  /\ isinstance_bool (config_get config "https") = true
  /\ (forall key, In key (config_keys config) ->
        mem_string key REQUIRED_CONFIG_KEYS = true
        \/ mem_string key OPTIONAL_CONFIG_KEYS = true)
  /\ (In "protected" (config_keys config) ->
      isinstance_bool (config_get config "protected") = true)
  /\ (In "use_createrepo" (config_keys config) ->
      isinstance_bool (config_get config "use_createrepo") = true)
  /\ (In "skip" (config_keys config) ->
      isinstance_list (config_get config "skip") = true)
  /\ (In "checksum_type" (config_keys config) ->
      config_get config "checksum_type" = VNone
      \/ util_is_valid_checksum_type (config_get config "checksum_type") = true)
  /\ (forall key, key = "auth_cert" \/ key = "auth_ca" ->
      In key (config_keys config) ->
      exists pem, config_get config key = VStr pem /\ util_validate_cert pem = true).
Proof.
  unfold validate_config.
  destruct (check_required_keys config REQUIRED_CONFIG_KEYS) as [m|] eqn:Ereq.
  { unfold bind, LOG_error, ret. discriminate. }
  destruct (check_config_keys config (config_keys config) empty_bundle)
    as [[m|bundle]|e] eqn:Ekeys.
  { unfold bind, LOG_error, ret. discriminate. }
  2: { discriminate. }
  intros _.
  pose proof (check_required_keys_None _ _ "relative_url" Ereq (or_introl eq_refl)) as Hu.
  pose proof (check_required_keys_None _ _ "http" Ereq (or_intror (or_introl eq_refl))) as Hh.
  pose proof (check_required_keys_None _ _ "https" Ereq
                (or_intror (or_intror (or_introl eq_refl)))) as Hs.
  assert (Hkey : forall key, In key (config_keys config) ->
                 exists b0 b1, check_config_key config key b0 = Ok (Accept b1)).
  { intros key Hin. eapply check_config_keys_Accept; eauto. }
  split; [|split; [|split; [|split; [|split; [|split; [|split; [|split]]]]]]].
  - unfold check_required_key in Hu. simpl in Hu.
    destruct (config_get config "relative_url") as [| | |u|]; simpl in Hu; try discriminate Hu.
    exists u. split; [reflexivity|]. destruct (re_match_disallowed u); [discriminate Hu|auto].
  - unfold check_required_key in Hh. simpl in Hh.
    destruct (config_get config "http"); simpl in Hh; try discriminate Hh; reflexivity.
  - unfold check_required_key in Hs. simpl in Hs.
    destruct (config_get config "https"); simpl in Hs; try discriminate Hs; reflexivity.
  - intros key Hin. destruct (Hkey key Hin) as (b0 & b1 & Hc).
    unfold check_config_key in Hc.
    destruct (mem_string key REQUIRED_CONFIG_KEYS); [auto|].
    destruct (mem_string key OPTIONAL_CONFIG_KEYS); [auto|]. discriminate Hc.
  - intros Hin. destruct (Hkey _ Hin) as (b0 & b1 & Hc).
    unfold check_config_key in Hc. cbn in Hc.
    destruct (config_get config "protected"); try discriminate Hc; reflexivity.
  - intros Hin. destruct (Hkey _ Hin) as (b0 & b1 & Hc).
    unfold check_config_key in Hc. cbn in Hc.
    destruct (config_get config "use_createrepo"); try discriminate Hc; reflexivity.
  - intros Hin. destruct (Hkey _ Hin) as (b0 & b1 & Hc).
    unfold check_config_key in Hc. cbn in Hc.
    destruct (config_get config "skip"); try discriminate Hc; reflexivity.
  - intros Hin. destruct (Hkey _ Hin) as (b0 & b1 & Hc).
    unfold check_config_key in Hc. cbn in Hc.
    destruct (config_get config "checksum_type") eqn:E; auto; right;
      destruct (util_is_valid_checksum_type _); try discriminate Hc; reflexivity.
  - intros key [-> | ->] Hin; destruct (Hkey _ Hin) as (b0 & b1 & Hc);
      unfold check_config_key in Hc; cbn in Hc.
    + destruct (config_get config "auth_cert"); try discriminate Hc.
      cbn in Hc. destruct (util_validate_cert s0) eqn:V; [eauto|discriminate Hc].
    + destruct (config_get config "auth_ca"); try discriminate Hc.
      cbn in Hc. destruct (util_validate_cert s0) eqn:V; [eauto|discriminate Hc].
Qed.

(** X2.  [validate_config] calls no mutating collaborator but those of the
    certificate and protected-repo bookkeeping: it creates, removes and
    links nothing, and writes no scratchpad and no progress report. *)
Theorem validate_config_only_does_auth_bookkeeping (repo : Repo) (config : Config) :
  emits (W:=W) is_auth_bookkeeping (validate_config repo config).
Proof.
  unfold validate_config, normalized_relative_path, process_repo_auth_certificate_bundle.
  destruct (check_required_keys config REQUIRED_CONFIG_KEYS) as [m|]; [emits_auto|].
  destruct (check_config_keys config (config_keys config) empty_bundle) as [[m|bundle]|e];
    [emits_auto| |emits_auto].
  emits_auto; apply check_publish_dir_emits_any.
Qed.

(** X3.  A certificate entry that is not a string never gets past the key
    checks: when [auth_cert] or [auth_ca] is one of the keys and its value
    is None or another non-string, [validate_config] either rejects the
    configuration for an earlier key or raises [AttributeError] from
    [.encode]; the guard [is not None] that follows cannot be reached with
    None.  In both cases nothing has been called. *)
Theorem validate_config_certificate_must_be_a_string
    (repo : Repo) (config : Config) (key : string) (s s' : PyState W) r :
  key = "auth_cert" \/ key = "auth_ca" ->
  In key (config_keys config) ->
  isinstance_basestring (config_get config key) = false ->
  validate_config repo config s = (r, s') ->
  (r = Raise (AttributeError "encode")
   \/ exists m, r = Ok (false, Some m) /\ late_rejection m = false)
  /\ world s' = world s /\ calls s' = calls s.
Proof.
  intros Hkey Hin Hstr. unfold validate_config.
  destruct (check_required_keys config REQUIRED_CONFIG_KEYS) as [m|] eqn:Ereq.
  { unfold bind, LOG_error, ret. intros H. injection H as <- <-.
    split; [|split; reflexivity]. right. exists m. split; [reflexivity|].
    eapply check_required_keys_early. exact Ereq. }
  destruct (check_config_keys config (config_keys config) empty_bundle)
    as [[m|bundle]|e] eqn:Ekeys.
  - unfold bind, LOG_error, ret. intros H. injection H as <- <-.
    split; [|split; reflexivity]. right. exists m. split; [reflexivity|].
    eapply check_config_keys_early. exact Ekeys.
  - exfalso. destruct (check_config_keys_Accept _ _ _ _ key Ekeys Hin) as (b0 & b1 & Hc).
    unfold check_config_key, encode_utf8 in Hc.
    destruct Hkey as [-> | ->]; cbn in Hc;
      match type of Hstr with
      | isinstance_basestring ?v = false => destruct v; discriminate
      end.
  - unfold raise. intros H. injection H as <- <-.
    split; [|split; reflexivity]. left. f_equal.
    eapply check_config_keys_Raise. exact Ekeys.
Qed.

(** X4.  The calls of an accepting [validate_config] are those of the
    certificate bookkeeping under the normalized relative path, and no
    others: with neither [auth_cert] nor [auth_ca] among the keys, the
    protected-repo entry of the path is deleted; otherwise the bundle of
    the certificates present is written for the repository and the
    repository is added to the protected listing under the path. *)
Theorem validate_config_accepting_calls (repo : Repo) (config : Config) (s s' : PyState W) :
  validate_config repo config s = (Ok (true, None), s') ->
  exists url,
    get_repo_relative_path repo config = VStr url
    /\ calls s'
       = calls s
         ++ auth_bookkeeping_calls (repo_id repo) (strip_leading_slash url)
              {| bundle_cert := config_pem config "auth_cert";
                 bundle_ca := config_pem config "auth_ca" |}.
Proof.
  unfold validate_config.
  destruct (check_required_keys config REQUIRED_CONFIG_KEYS) as [m|] eqn:Ereq.
  { unfold bind, LOG_error, ret. discriminate. }
  destruct (check_config_keys config (config_keys config) empty_bundle)
    as [[m|bundle]|e] eqn:Ekeys.
  { unfold bind, LOG_error, ret. discriminate. }
  2: { discriminate. }
  intros H.
  apply bind_Ok in H as (rel & s1 & Hrel & H).
  unfold normalized_relative_path in Hrel.
  destruct (get_repo_relative_path repo config) as [| | |url|]; try discriminate Hrel.
  injection Hrel as <- <-. exists url. split; [reflexivity|].
  apply bind_Ok in H as ([] & s2 & Hproc & H).
  assert (Hrest : calls s' = calls s2).
  { match type of H with
    | ?m s2 = _ => pose proof (emits_no_event m s2) as Hn; rewrite H in Hn; apply Hn
    end.
    emits_auto; apply check_publish_dir_emits_any. }
  rewrite Hrest. clear H Hrest.
  destruct (check_config_keys_bundle _ _ _ _ Ekeys) as [Hc Ha]. simpl in Hc, Ha.
  assert (Hb : bundle = {| bundle_cert := config_pem config "auth_cert";
                           bundle_ca := config_pem config "auth_ca" |}).
  { destruct bundle as [c a]. simpl in Hc, Ha. unfold config_pem. rewrite Hc, Ha.
    reflexivity. }
  rewrite <- Hb. unfold auth_bookkeeping_calls.
  unfold process_repo_auth_certificate_bundle, bind, call in Hproc.
  destruct (bundle_nonempty bundle).
  - destruct (write_consumer_cert_bundle (repo_id repo) bundle (world (record_call _ s)))
      as [[[]|e] w1]; cbn [world with_world record_call] in Hproc; [|discriminate Hproc].
    destruct (add_protected_repo _ _ w1) as [r2 w2].
    injection Hproc as _ <-. simpl. rewrite <- app_assoc. reflexivity.
  - destruct (delete_protected_repo _ (world (record_call _ s))) as [r1 w1].
    injection Hproc as _ <-. reflexivity.
Qed.

(** X5.  What an accepting [validate_config] has seen of its environment,
    in the world the certificate bookkeeping left: an overriding publish
    directory is a string naming an existing directory that can be read
    and written, and no other repository's distributor is configured with
    the normalized relative path. *)
Theorem validate_config_accepting_environment
    (repo : Repo) (config : Config) (s s' : PyState W) :
  validate_config repo config s = (Ok (true, None), s') ->
  exists url bundle s2,
    get_repo_relative_path repo config = VStr url
    /\ process_repo_auth_certificate_bundle (repo_id repo) (strip_leading_slash url) bundle s
       = (Ok tt, s2)
    /\ (forall key, key = "https_publish_dir" \/ key = "http_publish_dir" ->
        truthy (config_get config key) = true ->
        exists d, config_get config key = VStr d
                  /\ os_path_exists d (world s2) = true /\ os_path_isdir d (world s2) = true
                  /\ os_access_R_OK d (world s2) = true /\ os_access_W_OK d (world s2) = true)
    /\ get_repo_distributors_by_relative_url (strip_leading_slash url) (repo_id repo) (world s2)
       = (Ok [], world s').
Proof.
  unfold validate_config.
  destruct (check_required_keys config REQUIRED_CONFIG_KEYS) as [m|] eqn:Ereq.
  { unfold bind, LOG_error, ret. discriminate. }
  destruct (check_config_keys config (config_keys config) empty_bundle)
    as [[m|bundle]|e] eqn:Ekeys.
  { unfold bind, LOG_error, ret. discriminate. }
  2: { discriminate. }
  intros H.
  apply bind_Ok in H as (rel & s1 & Hrel & H).
  unfold normalized_relative_path in Hrel.
  destruct (get_repo_relative_path repo config) as [| | |url|]; try discriminate Hrel.
  injection Hrel as <- <-. exists url, bundle.
  apply bind_Ok in H as ([] & s2 & Hproc & H). exists s2.
  split; [reflexivity|]. split; [exact Hproc|].
  apply bind_Ok in H as (https_dir & s3 & H3 & H).
  pose proof (check_publish_dir_reads _ _ _ _ _ _ _ H3) as ->.
  destruct https_dir as [m|]; [discriminate H|].
  apply bind_Ok in H as (http_dir & s4 & H4 & H).
  pose proof (check_publish_dir_reads _ _ _ _ _ _ _ H4) as ->.
  destruct http_dir as [m|]; [discriminate H|].
  apply bind_Ok in H as (items & s5 & H5 & H).
  destruct items as [|item items]; [|discriminate H].
  injection H as <-. split.
  - intros key [-> | ->] Ht; eapply check_publish_dir_None; eauto.
  - unfold fetch in H5.
    destruct (get_repo_distributors_by_relative_url _ _ (world s2)) as [r w'].
    injection H5 as -> <-. reflexivity.
Qed.

(** X6.  A [relative_url] that begins with two slashes passes the
    character check, loses one slash, and is then an absolute path:
    joined to a publish root it yields the path itself, whatever the
    root is. *)
Theorem relative_url_with_two_slashes_leaves_the_publish_root
    (repo : Repo) (config : Config) (rest : string) (root : path) (s : PyState W) :
  config_get config "relative_url" = VStr (String "/" (String "/" rest)) ->
  check_required_key config "relative_url" = None
  /\ bind (normalized_relative_path (get_repo_relative_path repo config))
          (repo_publish_dir (VStr root)) s
     = (Ok (root, rstrip_slash (String "/" rest)), s).
Proof.
  intros E. split.
  - unfold check_required_key. rewrite E. reflexivity.
  - unfold get_repo_relative_path. rewrite E. reflexivity.
Qed.

End ValidationMore.

Import MemHost Scenario ValidationScenario.

(** Witness: a configuration with optional keys and a CA certificate is
    accepted. *)
Lemma validate_config_accepts_only_wellformed_witness :
  exists s',
    validate_config repo1 full_config (new_distributor empty_world) = (Ok (true, None), s')
    /\ (exists url, config_get full_config "relative_url" = VStr url
                    /\ re_match_disallowed url = false)
    /\ (forall key, key = "auth_cert" \/ key = "auth_ca" ->
        In key (config_keys full_config) ->
        exists pem, config_get full_config key = VStr pem /\ util_validate_cert pem = true).
Proof.
  eexists. split; [vm_compute; reflexivity|].
  destruct (validate_config_accepts_only_wellformed (host:=mem_host) repo1 full_config
              (new_distributor empty_world) _ ltac:(vm_compute; reflexivity))
    as (Hurl & _ & _ & _ & _ & _ & _ & _ & Hpem).
  split; [exact Hurl | exact Hpem].
Defined.

(** Witness: [auth_cert] set to None raises. *)
Lemma validate_config_certificate_must_be_a_string_witness :
  let config := minimal_config "r" ++ [("auth_cert", VNone)] in
  let run := validate_config repo1 config (new_distributor empty_world) in
  In "auth_cert" (config_keys config)
  /\ fst run = Raise (AttributeError "encode")
  /\ world (snd run) = empty_world /\ calls (snd run) = [].
Proof.
  intros config run.
  destruct (validate_config_certificate_must_be_a_string (host:=mem_host) repo1 config
              "auth_cert" (new_distributor empty_world) (snd run) (fst run)
              (or_introl eq_refl)) as (_ & Hw & Hc).
  - vm_compute. auto.
  - reflexivity.
  - vm_compute. reflexivity.
  - split; [vm_compute; auto|]. split; [vm_compute; reflexivity|]. split; [exact Hw | exact Hc].
Defined.

(** Witness: with a CA certificate alone the bundle is written and the
    repository protected under "pub/r". *)
Lemma validate_config_accepting_calls_witness :
  exists s',
    validate_config repo1 full_config (new_distributor empty_world) = (Ok (true, None), s')
    /\ calls s'
       = [EvWriteConsumerCertBundle "repo1"
            {| bundle_cert := None; bundle_ca := Some "-----BEGIN CERTIFICATE-----MIIC" |};
          EvAddProtectedRepo "pub/r" "repo1"].
Proof.
  eexists. split; [vm_compute; reflexivity|].
  destruct (validate_config_accepting_calls (host:=mem_host) repo1 full_config
              (new_distributor empty_world) _ ltac:(vm_compute; reflexivity))
    as (url & Hurl & Hcalls).
  vm_compute in Hurl. injection Hurl as <-. exact Hcalls.
Defined.

(** Witness: an overriding HTTPS publish directory that exists. *)
Lemma validate_config_accepting_environment_witness :
  let config := minimal_config "r" ++ [("https_publish_dir", VStr "/srv/https")] in
  exists s',
    validate_config repo1 config (new_distributor override_world) = (Ok (true, None), s')
    /\ exists d, config_get config "https_publish_dir" = VStr d
                 /\ isdir d override_world = true.
Proof.
  intros config. eexists. split; [vm_compute; reflexivity|].
  destruct (validate_config_accepting_environment (host:=mem_host) repo1 config
              (new_distributor override_world) _ ltac:(vm_compute; reflexivity))
    as (url & bundle & s2 & _ & Hproc & Hdir & _).
  destruct (Hdir "https_publish_dir" (or_introl eq_refl) eq_refl) as (d & Hd & _ & Hisdir & _).
  exists d. split; [exact Hd|].
  vm_compute in Hd. injection Hd as <-. reflexivity.
Defined.

(** Witness: "//etc/yum.repos.d" is accepted and publishes at
    "/etc/yum.repos.d". *)
Lemma relative_url_with_two_slashes_leaves_the_publish_root_witness :
  let config := minimal_config "//etc/yum.repos.d" in
  fst (validate_config repo1 config (new_distributor empty_world)) = Ok (true, None)
  /\ bind (normalized_relative_path (get_repo_relative_path repo1 config))
          (repo_publish_dir (VStr HTTP_PUBLISH_DIR)) (new_distributor empty_world)
     = (Ok (HTTP_PUBLISH_DIR, "/etc/yum.repos.d"), new_distributor empty_world).
Proof.
  intros config. split; [vm_compute; reflexivity|].
  exact (proj2 (relative_url_with_two_slashes_leaves_the_publish_root (W:=World)
                  repo1 config "etc/yum.repos.d" HTTP_PUBLISH_DIR
                  (new_distributor empty_world) eq_refl)).
Defined.

(** ** More on the symlink reconciler *)

Section ReconcilerMore.
Context {W : Type} {host : Host W}.

(** One unit leaves the state and the error details of the tracker alone,
    adds at most one error tuple and at most one success. *)
Lemma handle_symlinks_unit_tracker dir cb u t errs (s : PyState W) :
  exists t' extra s',
    handle_symlinks_unit dir cb u (t, errs) s = (Ok (t', errs ++ extra), s')
    /\ state t' = state t /\ error_details t' = error_details t
    /\ num_success t <= num_success t' <= num_success t + 1
    /\ (length extra <= 1)%nat
    /\ progress_status s'
       = (if cb then set_phase packages (Progress t) (progress_status s)
          else progress_status s).
Proof.
  unfold handle_symlinks_unit, handle_symlinks_except, bind, set_progress,
    progress_callback, ask, attempt, call, gets, LOG_error, ret.
  destruct cb; cbn [world record_call with_world with_progress_status package_dir].
  all: match goal with
       | |- context [os_path_exists ?p ?w] => destruct (os_path_exists p w)
       end; cbn [negb].
  all: try (do 3 eexists; split; [reflexivity|]; simpl; repeat split; lia).
  all: match goal with
       | |- context [util_create_symlink ?a ?b ?w] =>
           destruct (util_create_symlink a b w) as [[[|]|e1] w1]
       end; cbn [world record_call with_world with_progress_status record_log package_dir].
  all: try (do 3 eexists; split; [reflexivity|]; simpl; repeat split; lia).
  all: destruct (package_dir s) as [pd|];
       cbn [world record_call with_world with_progress_status record_log package_dir].
  all: try (eexists; exists []; eexists; rewrite app_nil_r;
            split; [reflexivity|]; simpl; repeat split; lia).
  all: match goal with
       | |- context [util_create_symlink ?a ?b ?w] =>
           destruct (util_create_symlink a b w) as [[[|]|e2] w2]
       end; cbn [world record_call with_world with_progress_status record_log package_dir].
  all: try (eexists; exists []; eexists; rewrite app_nil_r;
            split; [reflexivity|]; simpl; repeat split; lia).
  all: do 3 eexists; split; [reflexivity|]; simpl; repeat split; lia.
Qed.

Lemma handle_symlinks_loop_tracker dir cb : forall units t errs (s : PyState W),
  exists t' extra s',
    for_each units (handle_symlinks_unit dir cb) (t, errs) s = (Ok (t', errs ++ extra), s')
    /\ state t' = state t /\ error_details t' = error_details t
    /\ num_success t <= num_success t' <= num_success t + Z.of_nat (length units)
    /\ (length extra <= length units)%nat.
Proof.
  induction units as [|u units IH]; intros t errs s.
  - exists t, [], s. rewrite app_nil_r. simpl. repeat split; lia.
  - destruct (handle_symlinks_unit_tracker dir cb u t errs s)
      as (t1 & extra1 & s1 & Hstep & Hst1 & Hed1 & Hs1 & Hl1 & _).
    destruct (IH t1 (errs ++ extra1) s1)
      as (t' & extra & s' & Hrun & Hst & Hed & Hs & Hl).
    exists t', (extra1 ++ extra), s'.
    cbn [for_each]. unfold bind at 1. rewrite Hstep, Hrun, app_assoc.
    split; [reflexivity|]. rewrite Hst, Hed, length_app. cbn [length].
    repeat split; auto; lia.
Qed.

(** The outcome of the pass and its tracker. *)
Lemma handle_symlinks_tracker (units : list Unit) (dir : path) (cb : bool)
    (s : PyState W) :
  exists status errors t s',
    handle_symlinks units dir cb s = (Ok (status, errors, t), s')
    /\ state t = (if status then FINISHED else IN_PROGRESS)
    /\ error_details t = errors
    /\ (length errors <= length units)%nat
    /\ 0 <= num_success t <= Z.of_nat (length units)
    /\ (cb = true -> get_phase packages (progress_status s') = Progress t).
Proof.
  unfold handle_symlinks.
  destruct (set_progress_keeps_self packages (Progress init_progress) cb s)
    as (s0 & E0 & _).
  unfold bind at 1. rewrite E0.
  destruct (handle_symlinks_loop_tracker dir cb units
              (set_items (Z.of_nat (length units)) init_progress) [] s0)
    as (t' & extra & s' & Hrun & Hst & Hed & Hs & Hl).
  unfold bind at 1. rewrite Hrun. cbn [app].
  simpl in Hst, Hed, Hs.
  destruct extra as [|e extra].
  - exists true, [], (set_state FINISHED t').
    unfold bind, set_progress, progress_callback, ret.
    destruct cb; eexists; (split; [reflexivity|]); simpl; repeat split; auto; try lia.
  - exists false, (e :: extra), (set_error_details (e :: extra) t').
    unfold bind, shared_update, modify, ret.
    destruct cb; eexists; (split; [reflexivity|]); simpl; repeat split; auto; try lia;
      discriminate.
Qed.

(** X7.  The tracker [handle_symlinks] ends with.  The pass always
    returns; there is at most one error per unit and at most one success
    per unit.  Without errors the tracker is FINISHED and its error details
    are empty.  With errors the error details are the errors returned and
    the tracker is still IN_PROGRESS: the pass never marks it FAILED. *)
Theorem handle_symlinks_final_tracker (units : list Unit) (dir : path) (cb : bool)
    (s : PyState W) :
  exists status errors t s',
    handle_symlinks units dir cb s = (Ok (status, errors, t), s')
    /\ state t = (if status then FINISHED else IN_PROGRESS)
    /\ error_details t = errors
    /\ (length errors <= length units)%nat
    /\ 0 <= num_success t <= Z.of_nat (length units)
    /\ (cb = true -> get_phase packages (progress_status s') = Progress t).
Proof. apply handle_symlinks_tracker. Qed.

(** X8.  [handle_symlinks] calls [util.create_symlink] and, when it was
    given a callback, the progress report; it calls nothing else.  It
    removes nothing and writes no scratchpad. *)
Theorem handle_symlinks_only_links (units : list Unit) (dir : path) (cb : bool) :
  emits (W:=W) (link_or_progress cb) (handle_symlinks units dir cb).
Proof.
  unfold handle_symlinks, handle_symlinks_unit, handle_symlinks_except.
  destruct cb.
  - emits_auto.
  - unfold set_progress, shared_update. emits_auto.
Qed.

Section MissingSources.

(** Progress reports do not touch the filesystem. *)
Hypothesis progress_keeps_files :
  forall ps w p, os_path_exists p (conduit_set_progress ps w) = os_path_exists p w.

Lemma handle_symlinks_loop_missing dir cb : forall units t errs (s : PyState W),
  (forall u, In u units -> os_path_exists (storage_path u) (world s) = false) ->
  exists t' s',
    for_each units (handle_symlinks_unit dir cb) (t, errs) s
    = (Ok (t', errs ++ map (missing_source_error dir) units), s')
    /\ num_success t' = num_success t
    /\ num_error t' = num_error t + Z.of_nat (length units)
    /\ items_left t' = items_left t - Z.of_nat (length units)
    /\ link_calls s s' = []
    /\ log s' = log s.
Proof.
  induction units as [|u units IH]; intros t errs s Hall.
  - exists t, s. simpl. rewrite app_nil_r. repeat split; try lia.
    unfold link_calls. rewrite <- (app_nil_r (calls s)) at 2. rewrite skipn_calls. reflexivity.
  - destruct (set_progress_keeps_files progress_keeps_files packages (Progress t) cb s)
      as (s1 & Hsp & Hfs & evs1 & Ecalls & Fprog).
    assert (Hlog1 : log s1 = log s).
    { destruct cb; simpl in Hsp; unfold progress_callback, ret in Hsp;
        injection Hsp as <-; reflexivity. }
    assert (Hstep : handle_symlinks_unit dir cb u (t, errs) s
                    = (Ok (decr_items_left (incr_num_error t),
                           errs ++ [missing_source_error dir u]), s1)).
    { unfold handle_symlinks_unit, bind. rewrite Hsp. unfold ask.
      rewrite Hfs, (Hall u (or_introl eq_refl)). reflexivity. }
    destruct (IH (decr_items_left (incr_num_error t)) (errs ++ [missing_source_error dir u]) s1)
      as (t' & s' & Hrun & Hs & He & Hl & Hcalls & Hlog).
    { intros v Hv. rewrite Hfs. apply Hall. right. exact Hv. }
    exists t', s'. cbn [for_each]. unfold bind at 1. rewrite Hstep, Hrun.
    rewrite <- app_assoc. simpl app. cbn [map length].
    split; [reflexivity|]. rewrite Hs, He, Hl, Hlog, Hlog1. simpl.
    repeat split; try lia.
    unfold link_calls in *.
    assert (Hs' : exists evs', calls s' = calls s1 ++ evs').
    { pose proof (emits_run any_event _ _ _ _
                    (emits_for_each any_event units (handle_symlinks_unit dir cb) _
                       (fun x b => ltac:(unfold handle_symlinks_unit, handle_symlinks_except;
                                          destruct b; emits_auto))) Hrun) as (evs' & E' & _).
      eauto. }
    destruct Hs' as (evs' & E'). rewrite E', skipn_calls in Hcalls.
    rewrite E', Ecalls, <- app_assoc, skipn_calls, filter_app, Hcalls, app_nil_r.
    clear - Fprog. induction evs1 as [|ev evs1 IH]; simpl in *; [reflexivity|].
    apply andb_true_iff in Fprog as [-> F]. simpl. auto.
Qed.

(** X9.  When no unit has its source in storage, [handle_symlinks]
    attempts no link and logs nothing: it returns one missing-source error
    per unit, in the order of the units, counts every unit as an error
    and none as a success, and reports success only for an empty unit
    list. *)
Theorem handle_symlinks_all_sources_missing (units : list Unit) (dir : path) (cb : bool)
    (s : PyState W) :
  (forall u, In u units -> os_path_exists (storage_path u) (world s) = false) ->
  exists t s',
    handle_symlinks units dir cb s
    = (Ok (match units with [] => true | _ => false end,
           map (missing_source_error dir) units, t), s')
    /\ num_success t = 0
    /\ num_error t = Z.of_nat (length units)
    /\ items_left t = 0
    /\ link_calls s s' = []
    /\ log s' = log s.
Proof.
  intros Hall. unfold handle_symlinks.
  destruct (set_progress_keeps_files progress_keeps_files packages (Progress init_progress) cb s)
    as (s0 & E0 & Hfs0 & evs0 & Ecalls0 & Fprog0).
  assert (Hlog0 : log s0 = log s).
  { destruct cb; simpl in E0; unfold progress_callback, ret in E0;
      injection E0 as <-; reflexivity. }
  unfold bind at 1. rewrite E0.
  destruct (handle_symlinks_loop_missing dir cb units
              (set_items (Z.of_nat (length units)) init_progress) [] s0)
    as (t' & s1 & Hrun & Hs & He & Hl & Hcalls & Hlog).
  { intros u Hu. rewrite Hfs0. apply Hall. exact Hu. }
  unfold bind at 1. rewrite Hrun. cbn [app].
  simpl in Hs, He, Hl.
  assert (Hpre : forall s2 evs2, calls s2 = calls s1 ++ evs2 ->
                 forallb is_set_progress evs2 = true -> link_calls s s2 = []).
  { intros s2 evs2 E2 F2. unfold link_calls in *.
    assert (Hs1 : exists evs1, calls s1 = calls s0 ++ evs1).
    { pose proof (emits_run any_event _ _ _ _
                    (emits_for_each any_event units (handle_symlinks_unit dir cb) _
                       (fun x b => ltac:(unfold handle_symlinks_unit, handle_symlinks_except;
                                          destruct b; emits_auto))) Hrun) as (evs' & E' & _).
      eauto. }
    destruct Hs1 as (evs1 & E1). rewrite E1, skipn_calls in Hcalls.
    rewrite E2, E1, Ecalls0. repeat rewrite <- app_assoc. rewrite skipn_calls.
    repeat rewrite filter_app. rewrite Hcalls. simpl.
    assert (Hf : forall l, forallb is_set_progress l = true ->
                 filter (fun ev => negb (is_set_progress ev)) l = []).
    { clear. induction l as [|ev l IH]; simpl; [reflexivity|]. intros F.
      apply andb_true_iff in F as [-> F]. simpl. auto. }
    rewrite (Hf _ Fprog0), (Hf _ F2). reflexivity. }
  destruct units as [|u units]; cbn [map].
  - destruct (set_progress_keeps_files progress_keeps_files packages
                (Progress (set_state FINISHED t')) cb s1)
      as (s2 & E2 & _ & evs2 & Ecalls2 & Fprog2).
    assert (Hlog2 : log s2 = log s1).
    { destruct cb; simpl in E2; unfold progress_callback, ret in E2;
        injection E2 as <-; reflexivity. }
    unfold bind. rewrite E2. exists (set_state FINISHED t'), s2.
    split; [reflexivity|]. simpl in *. rewrite Hlog2, Hlog, Hlog0.
    repeat split; try lia. eapply Hpre; eauto.
  - unfold bind, shared_update, modify, ret.
    destruct cb; eexists; eexists; (split; [reflexivity|]);
      cbn [set_error_details num_success num_error items_left log with_progress_status];
      rewrite ?Hlog, ?Hlog0;
      (split; [exact Hs|]); (split; [exact He|]); (split; [lia|]); (split; [|reflexivity]);
      apply (Hpre _ []); simpl; rewrite ?app_nil_r; reflexivity.
Qed.

End MissingSources.

End ReconcilerMore.

Import MemHost Scenario.

(** Witness: two packages, none of them in storage. *)
Lemma handle_symlinks_all_sources_missing_witness :
  let units := [rpm_unit "p1"; rpm_unit "p2"] in
  let s := new_distributor empty_world in
  exists t s',
    handle_symlinks units "/wd" true s
    = (Ok (false,
           [("/content/p1.rpm", "/wd/p1.rpm", MsgSourcePathMissing "/content/p1.rpm");
            ("/content/p2.rpm", "/wd/p2.rpm", MsgSourcePathMissing "/content/p2.rpm")], t), s')
    /\ num_success t = 0 /\ num_error t = 2 /\ items_left t = 0
    /\ link_calls s s' = [] /\ log s' = log s.
Proof.
  intros units s.
  exact (handle_symlinks_all_sources_missing (host:=mem_host)
           (fun ps w p => eq_refl) units "/wd" true s (fun u Hu => ltac:(
             destruct Hu as [<-|[<-|[]]]; reflexivity))).
Defined.

(** ** More on the distribution pass *)

(** Splits a conjunction into its parts, and nothing else. *)
Ltac split_and := repeat match goal with |- _ /\ _ => split end.

Section DistributionMore.
Context {W : Type} {host : Host W}.

(** One file: it is either published or adds one error. *)
Lemma link_distro_file_step src dir cb f t errs pub (s : PyState W) :
  exists t' extra newpub s',
    link_distro_file src dir cb f (t, errs, pub) s
    = (Ok (t', errs ++ extra, pub ++ newpub), s')
    /\ state t' = state t /\ error_details t' = error_details t
    /\ items_total t' = items_total t
    /\ items_left t' = items_left t - 1
    /\ num_error t' = num_error t + Z.of_nat (length extra)
    /\ (length extra + length newpub = 1)%nat
    /\ num_success t <= num_success t' <= num_success t + Z.of_nat (length newpub)
    /\ (forall p, In p newpub -> p = os_path_join dir (relativepath f)).
Proof.
  unfold link_distro_file, bind, set_progress, progress_callback, ask, attempt, call,
    LOG_error, ret.
  destruct cb; cbn [world record_call with_world with_progress_status].
  all: repeat match goal with
              | |- context [os_path_exists ?p ?w] => destruct (os_path_exists p w)
              end; cbn [negb].
  all: try match goal with
           | |- context [util_create_symlink ?a ?b ?w] =>
               destruct (util_create_symlink a b w) as [[[|]|e1] w1]
           end; cbn [world record_call with_world with_progress_status record_log].
  all: first
         [ eexists; exists []; eexists; eexists; rewrite (app_nil_r errs);
           split; [reflexivity|]; simpl; repeat split; try lia;
           intros p [<-|[]]; reflexivity
         | eexists; eexists; exists []; eexists; rewrite (app_nil_r pub);
           split; [reflexivity|]; simpl; repeat split; try lia; intros p [] ].
Qed.

(** X10.  The accounting of the file loop of a distribution unit.  The
    loop always returns.  Every file either has its destination path
    appended to the published paths or adds one error tuple;
    [items_left] drops by one per file, [num_error] grows by the number
    of new errors, and [num_success] by no more than the number of paths
    published (a file found in place is published without being counted).
    The state, the total and the error details of the tracker are left
    alone, and every published path is the destination of one of the
    files. *)
Theorem link_distro_files_accounting (src dir : path) (cb : bool) :
  forall (files : list DistroFile) (t : Tracker) (errs : list ErrorTuple) (pub : list path)
         (s : PyState W),
  exists t' extra newpub s',
    for_each files (link_distro_file src dir cb) (t, errs, pub) s
    = (Ok (t', errs ++ extra, pub ++ newpub), s')
    /\ state t' = state t /\ error_details t' = error_details t
    /\ items_total t' = items_total t
    /\ items_left t' = items_left t - Z.of_nat (length files)
    /\ num_error t' = num_error t + Z.of_nat (length extra)
    /\ (length extra + length newpub = length files)%nat
    /\ num_success t <= num_success t' <= num_success t + Z.of_nat (length newpub)
    /\ (forall p, In p newpub ->
        exists f, In f files /\ p = os_path_join dir (relativepath f)).
Proof.
  induction files as [|f files IH]; intros t errs pub s.
  - exists t, [], [], s. rewrite !app_nil_r. simpl. split_and; try lia; try reflexivity.
  - destruct (link_distro_file_step src dir cb f t errs pub s)
      as (t1 & extra1 & pub1 & s1 & Hstep & Hst1 & Hed1 & Htot1 & Hl1 & He1 & Hn1 & Hs1 & Hp1).
    destruct (IH t1 (errs ++ extra1) (pub ++ pub1) s1)
      as (t' & extra & newpub & s' & Hrun & Hst & Hed & Htot & Hl & He & Hn & Hs & Hp).
    exists t', (extra1 ++ extra), (pub1 ++ newpub), s'.
    cbn [for_each]. unfold bind at 1. rewrite Hstep, Hrun, !app_assoc.
    split; [reflexivity|]. rewrite Hst, Hed, Htot, !length_app. cbn [length].
    split_and; auto; try lia.
    intros p Hin. apply in_app_or in Hin as [Hin|Hin].
    + exists f. split; [left; reflexivity | apply Hp1; exact Hin].
    + destruct (Hp p Hin) as (g & Hg & ->). exists g. split; [right; exact Hg | reflexivity].
Qed.

(** What one unit does to the tracker and the error list. *)
Lemma symlink_distribution_unit_tracker dir cb u sp0 t0 e0 (s : PyState W) sp t e s' :
  symlink_distribution_unit dir cb u (sp0, t0, e0) s = (Ok (sp, t, e), s') ->
  exists extra,
    e = e0 ++ extra
    /\ state t = state t0 /\ error_details t = error_details t0
    /\ items_total t = Z.of_nat (length (files_of u)) /\ items_left t = 0
    /\ num_error t = num_error t0 + Z.of_nat (length extra).
Proof.
  unfold symlink_distribution_unit, files_of. intros H.
  apply bind_Ok in H as (x1 & s1 & _ & H).
  apply bind_Ok in H as (x2 & s2 & _ & H).
  apply bind_Ok in H as (files & s3 & Hf & H).
  destruct (md_files (metadata u)) as [files0|]; [|discriminate Hf].
  injection Hf as -> ->.
  apply bind_Ok in H as (found & s4 & _ & H).
  apply bind_Ok in H as (x3 & s5 & _ & H).
  apply bind_Ok in H as ([[t' e'] published] & s6 & Hloop & H).
  injection H as <- <- <- <-.
  destruct (link_distro_files_accounting (storage_path u) dir cb files
              (set_items (Z.of_nat (length files)) t0) e0 [] s5)
    as (t1 & extra & newpub & s7 & Hrun & Hst & Hed & Htot & Hl & He & _).
  rewrite Hrun in Hloop. injection Hloop as <- <- _ _.
  exists extra. simpl in *. repeat split; auto; lia.
Qed.

Lemma symlink_distribution_units_tracker dir cb : forall units sp0 t0 e0 (s : PyState W) sp t e s',
  for_each units (symlink_distribution_unit dir cb) (sp0, t0, e0) s = (Ok (sp, t, e), s') ->
  exists extra,
    e = e0 ++ extra
    /\ state t = state t0 /\ error_details t = error_details t0
    /\ num_error t = num_error t0 + Z.of_nat (length extra)
    /\ match units with
       | [] => items_left t = items_left t0 /\ items_total t = items_total t0
       | u :: _ => items_left t = 0
                   /\ items_total t = Z.of_nat (length (files_of (last units u)))
       end.
Proof.
  induction units as [|u units IH]; intros sp0 t0 e0 s sp t e s' H.
  - simpl in H. injection H as <- <- <- <-. exists []. rewrite app_nil_r. simpl.
    repeat split; lia.
  - cbn [for_each] in H. apply bind_Ok in H as ([[sp1 t1] e1] & s1 & Hu & Hrest).
    apply symlink_distribution_unit_tracker in Hu
      as (extra1 & -> & Hst1 & Hed1 & Htot1 & Hl1 & He1).
    apply IH in Hrest as (extra & -> & Hst & Hed & He & Hlast).
    exists (extra1 ++ extra). rewrite app_assoc, length_app.
    split; [reflexivity|]. rewrite Hst, Hed.
    repeat split; auto; try lia.
    + destruct units as [|v units]; [destruct Hlast; lia | destruct Hlast; assumption].
    + destruct units as [|v units]; [destruct Hlast; simpl; lia|].
      destruct Hlast as [_ Hlast]. rewrite Hlast. f_equal. f_equal. f_equal.
      clear. revert v. induction units as [|w units IH]; intros v; [reflexivity|].
      cbn [last] in *. destruct units; [reflexivity|]. apply IH.
Qed.

(** X11.  The result of a distribution pass that returns.  The status is
    True exactly when no error is returned; the tracker is then FINISHED,
    and FAILED otherwise, with the returned errors as its error details.
    The counters are those of the last unit alone: [items_left] is 0 and
    [items_total] the file count of the last unit, not of the pass.
    [num_error] counts the file errors of all units; the error of the
    Packages symlink is returned without being counted.  With a
    callback, the last call of the pass is the progress report of this
    tracker. *)
Theorem symlink_distribution_unit_files_result
    (units : list Unit) (dir : path) (cb : bool) (s s' : PyState W)
    (status : bool) (errors : list ErrorTuple) (t : Tracker) :
  symlink_distribution_unit_files units dir cb s = (Ok (status, errors, t), s') ->
  (status = true <-> errors = [])
  /\ state t = (if status then FINISHED else FAILED)
  /\ (status = false -> error_details t = errors)
  /\ items_left t = 0
  /\ items_total t = last_unit_file_count units
  /\ num_error t <= Z.of_nat (length errors) <= num_error t + 1
  /\ (cb = true ->
      get_phase distribution (progress_status s') = Progress t
      /\ exists evs, calls s' = calls s ++ evs ++ [EvSetProgress (progress_status s')]).
Proof.
  unfold symlink_distribution_unit_files. intros H.
  apply bind_Ok in H as (x1 & s1 & H1 & H).
  apply bind_Ok in H as (stored & s2 & H2 & H).
  apply bind_Ok in H as (sp0 & s3 & H3 & H).
  apply bind_Ok in H as ([[sp t1] errs] & s4 & H4 & H).
  apply bind_Ok in H as (there & s5 & H5 & H).
  apply bind_Ok in H as (errs' & s6 & H6 & H).
  apply bind_Ok in H as (x7 & s7 & H7 & H).
  assert (Hpre : exists evs, calls s7 = calls s ++ evs).
  { eapply (emits_run any_event) in H1 as (ev1 & E1 & _);
      [|apply emits_set_progress; reflexivity].
    eapply (emits_run any_event) in H2 as (ev2 & E2 & _); [|apply emits_fetch].
    eapply (emits_run not_set_scratchpad) in H3 as (ev3 & E3 & _);
      [|apply handle_orphaned_distributions_emits].
    pose proof H4 as H4'.
    eapply (emits_run not_set_scratchpad) in H4' as (ev4 & E4 & _);
      [|apply emits_for_each; intros; apply symlink_distribution_unit_emits].
    eapply (emits_run any_event) in H5 as (ev5 & E5 & _); [|apply emits_ask].
    eapply (emits_run any_event) in H6 as (ev6 & E6 & _);
      [|destruct (negb there); emits_auto].
    apply call_run in H7.
    exists (ev1 ++ ev2 ++ ev3 ++ ev4 ++ ev5 ++ ev6 ++ [EvSetScratchpad sp]).
    rewrite H7, E6, E5, E4, E3, E2, E1. repeat rewrite <- app_assoc. reflexivity. }
  destruct Hpre as (evs & Epre).
  apply symlink_distribution_units_tracker in H4
    as (extra & -> & Hst & Hed & He & Hlast).
  simpl in Hst, Hed, He.
  assert (Hitems : items_left t1 = 0 /\ items_total t1 = last_unit_file_count units).
  { unfold last_unit_file_count. destruct units; simpl in Hlast; exact Hlast. }
  destruct Hitems as [Hleft Htotal]. cbn [app] in H6.
  assert (Hlen : Z.of_nat (length extra) <= Z.of_nat (length errs')
                 <= Z.of_nat (length extra) + 1).
  { unfold bind, call, LOG_error, ret in H6.
    destruct (negb there); [|injection H6 as <- _; lia].
    destruct (util_create_symlink _ _ _) as [[[|]|e] w]; try discriminate H6;
      injection H6 as <- _; [lia|]. rewrite length_app. simpl. lia. }
  clear H6.
  destruct errs' as [|e errs']; cbn [length] in Hlen.
  - unfold bind, set_progress, progress_callback, ret in H.
    destruct cb; injection H as <- <- <- <-;
      cbn [state set_state set_error_details error_details items_left items_total num_error
           progress_status with_progress_status record_call with_world calls length];
      split_and; try reflexivity; try discriminate; try lia;
      try (split; reflexivity); try (split; discriminate).
    + intros _. split; [first [apply get_set_phase | reflexivity]|].
      exists evs. rewrite Epre, <- app_assoc. reflexivity.
  - unfold bind, set_progress, progress_callback, ret in H.
    destruct cb; injection H as <- <- <- <-;
      cbn [state set_state set_error_details error_details items_left items_total num_error
           progress_status with_progress_status record_call with_world calls length];
      split_and; try reflexivity; try discriminate; try lia;
      try (split; reflexivity); try (split; discriminate).
    + intros _. split; [first [apply get_set_phase | reflexivity]|].
      exists evs. rewrite Epre, <- app_assoc. reflexivity.
Qed.

(** X12.  The search for the treeinfo file never comes back empty-handed:
    with at least one name in [TREE_INFO_LIST] it settles on a candidate
    whether or not any exists.  The candidate is the first one found in
    the unit's storage, else the last name tried; so the treeinfo link is
    asked for even when the unit has no treeinfo file. *)
Theorem lookup_treeinfo_settles_on_a_candidate
    (source_path_dir : path) (name : string) (names : list string) (w : W) :
  exists treeinfo before after,
    name :: names = before ++ treeinfo :: after
    /\ lookup_treeinfo source_path_dir (name :: names) None w
       = Some (os_path_join source_path_dir treeinfo, treeinfo)
    /\ (forall n, In n before -> os_path_exists (os_path_join source_path_dir n) w = false)
    /\ (os_path_exists (os_path_join source_path_dir treeinfo) w = false -> after = []).
Proof.
  assert (Hgen : forall names name current,
            exists treeinfo before after,
              name :: names = before ++ treeinfo :: after
              /\ lookup_treeinfo source_path_dir (name :: names) current w
                 = Some (os_path_join source_path_dir treeinfo, treeinfo)
              /\ (forall n, In n before ->
                  os_path_exists (os_path_join source_path_dir n) w = false)
              /\ (os_path_exists (os_path_join source_path_dir treeinfo) w = false ->
                  after = [])).
  { clear. induction names as [|n2 names IH]; intros name current.
    - exists name, [], []. simpl.
      destruct (os_path_exists (os_path_join source_path_dir name) w);
        repeat split; auto; intros n [].
    - cbn [lookup_treeinfo].
      destruct (os_path_exists (os_path_join source_path_dir name) w) eqn:E.
      + exists name, [], (n2 :: names). repeat split; auto; [intros n []|congruence].
      + destruct (IH n2 (Some (os_path_join source_path_dir name, name)))
          as (ti & before & after & Hsplit & Hrun & Hbefore & Hafter).
        exists ti, (name :: before), after. rewrite Hsplit.
        repeat split; auto.
        intros n [<-|Hn]; auto. }
  apply Hgen.
Qed.

Lemma emits_for_each_In {A B} P (l : list A) (body : A -> B -> M (PyState W) B) acc :
  (forall x b, In x l -> emits P (body x b)) -> emits P (for_each l body acc).
Proof.
  revert acc. induction l as [|x l IH]; intros acc Hb; simpl.
  - apply emits_ret.
  - apply emits_bind; [apply Hb; left; reflexivity|].
    intros b. apply IH. intros y c Hy. apply Hb. right. exact Hy.
Qed.

Lemma dict_get_orphan_paths ids (d : PyDict (list path)) k paths :
  dict_get d k = Some paths -> mem_string k ids = false ->
  incl paths (orphan_paths ids d).
Proof.
  induction d as [|[[k' v]|] d IH]; simpl; intros H Hk; [discriminate H| |auto].
  destruct (String.eqb_spec k' k) as [->|N].
  - injection H as ->. rewrite Hk. apply incl_appl, incl_refl.
  - destruct (mem_string k' ids); [auto|]. apply incl_appr. auto.
Qed.

Lemma orphan_paths_remove ids (d : PyDict (list path)) k :
  incl (orphan_paths ids (dict_remove d k)) (orphan_paths ids d).
Proof.
  induction d as [|[[k' v]|] d IH]; simpl; [apply incl_refl| |exact IH].
  destruct (k' =? k)%string; simpl.
  - destruct (mem_string k' ids); [apply incl_refl | apply incl_appr, incl_refl].
  - destruct (mem_string k' ids); [exact IH|].
    apply incl_app; [apply incl_appl, incl_refl | apply incl_appr, IH].
Qed.

Lemma orphaned_loop_removes_listed all fuel : forall it ids dir (d : PyDict (list path)),
  incl (orphan_paths ids d) all ->
  emits (W:=W) (removes_one_of dir all) (orphaned_loop fuel it ids dir d).
Proof.
  induction fuel as [|fuel IH]; intros it ids dir d Hincl; simpl; [apply emits_raise|].
  destruct (dictiter_iternextkey d it) as [[[k it']|]|e]; [|apply emits_ret|apply emits_raise].
  destruct (mem_string k ids) eqn:Hk; simpl; [apply IH; exact Hincl|].
  unfold dict_getitem, dict_delitem.
  destruct (dict_get d k) as [paths|] eqn:G; [|apply emits_raise].
  apply emits_bind.
  - apply emits_for_each_In. intros p [] Hp. unfold remove_orphaned_path.
    apply emits_bind; [apply emits_ask|]. intros [|]; [|apply emits_ret].
    apply emits_call. simpl. rewrite String.eqb_refl. simpl.
    apply mem_string_In. apply Hincl. eapply dict_get_orphan_paths; eauto.
  - intros _. apply IH. eapply incl_tran; [apply orphan_paths_remove | exact Hincl].
Qed.

(** X13.  The orphan pass removes nothing but what the manifest lists for
    ids that are not current units: every call it makes is a
    [util.remove_repo_publish_dir] under the working directory, of a path
    the stored manifest holds under an id absent from the unit list.  It
    makes no other call; whether it returns or raises. *)
Theorem handle_orphaned_distributions_removes_only_orphans
    (units : list Unit) (repo_working_dir : path) (sp : Scratchpad) :
  emits (W:=W)
    (removes_one_of repo_working_dir (orphan_paths (map unit_id units) (manifest_of sp)))
    (_handle_orphaned_distributions units repo_working_dir sp).
Proof.
  unfold _handle_orphaned_distributions, manifest_of.
  destruct (published_distributions sp) as [d|]; [|apply emits_ret].
  apply emits_bind; [|intros; apply emits_ret].
  apply orphaned_loop_removes_listed. apply incl_refl.
Qed.

End DistributionMore.

Import MemHost Scenario.

(** Witness: U1 and U2 published from an empty storage; every file is
    missing. *)
Lemma symlink_distribution_unit_files_result_witness :
  exists errors t s',
    symlink_distribution_unit_files [U1; U2] "/wd" true (new_distributor empty_world)
    = (Ok (false, errors, t), s')
    /\ state t = FAILED /\ error_details t = errors
    /\ items_left t = 0 /\ items_total t = 1
    /\ num_error t = 3 /\ length errors = 3%nat.
Proof.
  do 3 eexists. split; [vm_compute; reflexivity|].
  destruct (symlink_distribution_unit_files_result (host:=mem_host) [U1; U2] "/wd" true
              (new_distributor empty_world) _ false _ _ ltac:(vm_compute; reflexivity))
    as (_ & Hst & Hed & Hl & Ht & _).
  split; [exact Hst|]. split; [exact (Hed eq_refl)|]. split; [exact Hl|].
  split; [exact Ht|]. split; reflexivity.
Defined.

(** ** The fields of the distributor instance *)

Section Frame.
Context {W : Type} {host : Host W} {X : Type}.
Variable f : PyState W -> X.

Hypothesis f_world : forall w s, f (with_world w s) = f s.
Hypothesis f_call : forall ev s, f (record_call ev s) = f s.
Hypothesis f_log : forall m s, f (record_log m s) = f s.
Hypothesis f_progress : forall ps s, f (with_progress_status ps s) = f s.
Hypothesis f_package_dir : forall pd s, f (with_package_dir pd s) = f s.
Hypothesis f_use_createrepo : forall v s, f (with_use_createrepo v s) = f s.

Lemma keeps_ret {A} (a : A) : keeps f (ret a).
Proof. intros s. reflexivity. Qed.

Lemma keeps_raise {A} e : keeps (A:=A) f (raise e).
Proof. intros s. reflexivity. Qed.

Lemma keeps_bind {A B} (m : M (PyState W) A) (k : A -> M (PyState W) B) :
  keeps f m -> (forall a, keeps f (k a)) -> keeps f (bind m k).
Proof.
  intros Hm Hk s. unfold bind. specialize (Hm s).
  destruct (m s) as [[a|e] s1]; simpl in *.
  - rewrite Hk. exact Hm.
  - exact Hm.
Qed.

Lemma keeps_call {A} ev (op : W -> Res A * W) : keeps f (call ev op).
Proof.
  intros s. unfold call. destruct (op (world (record_call ev s))) as [r w']. simpl.
  rewrite f_world. apply f_call.
Qed.

Lemma keeps_fetch {A} (op : W -> Res A * W) : keeps f (fetch op).
Proof.
  intros s. unfold fetch. destruct (op (world s)) as [r w']. simpl. apply f_world.
Qed.

Lemma keeps_ask (q : W -> bool) : keeps f (ask q).
Proof. intros s. reflexivity. Qed.

Lemma keeps_gets {A} (g : PyState W -> A) : keeps f (gets g).
Proof. intros s. reflexivity. Qed.

Lemma keeps_modify (g : PyState W -> PyState W) :
  (forall s, f (g s) = f s) -> keeps f (modify g).
Proof. intros Hg s. simpl. apply Hg. Qed.

Lemma keeps_LOG_error m : keeps f (LOG_error m).
Proof. intros s. simpl. apply f_log. Qed.

Lemma keeps_attempt {A} (m : M (PyState W) A) : keeps f m -> keeps f (attempt m).
Proof.
  intros Hm s. unfold attempt. specialize (Hm s). destruct (m s) as [r s1]. exact Hm.
Qed.

Lemma keeps_try_except {A} (body : M (PyState W) A) handler :
  keeps f body -> (forall e, keeps f (handler e)) -> keeps f (try_except body handler).
Proof.
  intros Hb Hh s. unfold try_except. specialize (Hb s).
  destruct (body s) as [[a|e] s1]; simpl in *.
  - exact Hb.
  - rewrite Hh. exact Hb.
Qed.

Lemma keeps_for_each {A B} (l : list A) (body : A -> B -> M (PyState W) B) acc :
  (forall x b, keeps f (body x b)) -> keeps f (for_each l body acc).
Proof.
  intros Hb. revert acc. induction l as [|x l IH]; intros acc; simpl.
  - apply keeps_ret.
  - apply keeps_bind; [apply Hb | exact IH].
Qed.

Lemma keeps_set_progress phase status cb : keeps f (set_progress phase status cb).
Proof.
  destruct cb; simpl; [|apply keeps_ret].
  intros s. unfold progress_callback. simpl. rewrite f_world, f_call. apply f_progress.
Qed.

Lemma keeps_shared_update phase t cb : keeps f (shared_update phase t cb).
Proof.
  destruct cb; simpl; [|apply keeps_ret]. apply keeps_modify. intros s. apply f_progress.
Qed.

(** Breaks a computation down to its steps. *)
Ltac keeps_step :=
  match goal with
  | |- keeps _ (bind _ _) => apply keeps_bind; [|intros]
  | |- keeps _ (ret _) => apply keeps_ret
  | |- keeps _ (raise _) => apply keeps_raise
  | |- keeps _ (call _ _) => apply keeps_call
  | |- keeps _ (fetch _) => apply keeps_fetch
  | |- keeps _ (ask _) => apply keeps_ask
  | |- keeps _ (gets _) => apply keeps_gets
  | |- keeps _ (LOG_error _) => apply keeps_LOG_error
  | |- keeps _ (attempt _) => apply keeps_attempt
  | |- keeps _ (try_except _ _) => apply keeps_try_except; [|intros]
  | |- keeps _ (for_each _ _ _) => apply keeps_for_each; intros
  | |- keeps _ (set_progress _ _ _) => apply keeps_set_progress
  | |- keeps _ (shared_update _ _ _) => apply keeps_shared_update
  | |- keeps _ (modify _) =>
      apply keeps_modify; intros;
      first [apply f_progress | apply f_package_dir | apply f_use_createrepo]
  | |- keeps _ (match ?x with _ => _ end) => destruct x
  end.

Ltac keeps_auto := repeat keeps_step.

Lemma keeps_handle_symlinks units dir cb : keeps f (handle_symlinks units dir cb).
Proof.
  unfold handle_symlinks, handle_symlinks_unit, handle_symlinks_except. keeps_auto.
Qed.

Lemma keeps_orphaned_loop fuel : forall it ids dir d,
  keeps f (orphaned_loop fuel it ids dir d).
Proof.
  induction fuel as [|fuel IH]; intros; simpl.
  - keeps_auto.
  - keeps_auto; try apply IH. unfold remove_orphaned_path. keeps_auto.
Qed.

Lemma keeps_symlink_distribution_unit_files units dir cb :
  keeps f (symlink_distribution_unit_files units dir cb).
Proof.
  unfold symlink_distribution_unit_files, _handle_orphaned_distributions,
    symlink_distribution_unit.
  keeps_auto; try apply keeps_orphaned_loop.
  all: unfold link_distro_file; keeps_auto.
Qed.

Lemma keeps_in_skip_list x skip : keeps f (in_skip_list x skip).
Proof. unfold in_skip_list. keeps_auto. Qed.

Lemma keeps_publish_distribution_units repo skip :
  keeps f (publish_distribution_units repo skip).
Proof.
  unfold publish_distribution_units.
  keeps_auto; try apply keeps_in_skip_list; try apply keeps_symlink_distribution_unit_files.
Qed.

Lemma keeps_publish_package_units repo skip : keeps f (publish_package_units repo skip).
Proof.
  unfold publish_package_units.
  keeps_auto; try apply keeps_in_skip_list; try apply keeps_handle_symlinks.
Qed.

Lemma keeps_migrate_publish_path relpath hd pd :
  keeps f (migrate_publish_path relpath hd pd).
Proof. unfold migrate_publish_path. keeps_auto. Qed.

Lemma keeps_handle_publish_links repo config hd hrd pd prd summary :
  keeps f (handle_publish_links repo config hd hrd pd prd summary).
Proof. unfold handle_publish_links, handle_publish_link. keeps_auto. Qed.

(** [publish_repo] past its first two assignments, given what the
    distribution step keeps. *)
Lemma keeps_publish_repo (repo : Repo) (config : Config) (s : PyState W) :
  keeps f (publish_distribution_units repo (config_get config "skip")) ->
  f (snd (publish_repo repo config s))
  = f (with_repo_working_dir (working_dir repo)
         (with_progress_status initial_progress_status s)).
Proof.
  intros Hd. unfold publish_repo. unfold bind at 1 2. unfold modify.
  match goal with
  | |- f (snd (?m ?x)) = _ => generalize x; change (keeps f m)
  end.
  unfold normalized_relative_path, repo_publish_dir.
  keeps_auto; try apply keeps_in_skip_list; try apply keeps_publish_package_units;
    try apply keeps_migrate_publish_path; try apply keeps_handle_publish_links;
    try exact Hd.
  intros s0. apply f_use_createrepo.
Qed.

End Frame.

Section CancellationProperties.
Context {W : Type} {host : Host W}.
Variable metadata_cancel_createrepo : path -> W -> Res PyVal * W.

(** X14.  No step of [publish_repo] assigns the cancel flag: whatever the
    publish does, and whether it returns or raises, the flag is afterwards
    what it was before.  There is no reset: a distributor that was
    canceled stays canceled. *)
Theorem publish_repo_keeps_the_cancel_flag (repo : Repo) (config : Config) (s : PyState W) :
  canceled (snd (publish_repo repo config s)) = canceled s.
Proof.
  rewrite (keeps_publish_repo canceled); try reflexivity.
  apply keeps_publish_distribution_units; reflexivity.
Qed.

(** X15.  [cancel_publish_repo] sets the flag before anything else, so the
    distributor is canceled whether or not the call returns.  A publish
    that follows returns the cancel report with an empty summary at once:
    it calls no collaborator, leaves the world as it is, and leaves the
    distributor canceled. *)
Theorem cancel_publish_repo_stops_the_next_publish
    (repo : Repo) (config : Config) (s : PyState W) :
  let s1 := snd (cancel_publish_repo metadata_cancel_createrepo s) in
  canceled s1 = true
  /\ exists s2,
       publish_repo repo config s1 = (Ok (CancelReport []), s2)
       /\ canceled s2 = true /\ calls s2 = calls s1 /\ world s2 = world s1.
Proof.
  intros s1.
  assert (Hc : canceled s1 = true).
  { subst s1. unfold cancel_publish_repo, bind, modify, gets, fetch, raise, ret.
    destruct s as [w c l cn uc pd wd ps]. unfold with_canceled. simpl.
    destruct (truthy uc); [|reflexivity].
    destruct wd as [d|]; simpl; [|reflexivity].
    destruct (metadata_cancel_createrepo d w) as [r w']. reflexivity. }
  split; [exact Hc|].
  unfold publish_repo, bind, modify, gets.
  cbn [canceled with_repo_working_dir with_progress_status]. rewrite Hc.
  eexists. split; [reflexivity|]. split; [exact Hc|]. split; reflexivity.
Qed.

(** X16.  [publish_repo] records the working directory of the repository
    before anything can fail, and nothing in it takes the record back.
    So a cancel that comes after a publish has started never fails on the
    missing attribute: it calls [metadata.cancel_createrepo] with that
    working directory when [use_createrepo] is set, and does nothing
    else but set the flag when it is not.  On a distributor that has
    published nothing, [use_createrepo] is False and the cancel only sets
    the flag. *)
Theorem cancel_publish_repo_after_publish (repo : Repo) (config : Config) (s : PyState W) :
  let s1 := snd (publish_repo repo config s) in
  repo_working_dir s1 = Some (working_dir repo)
  /\ cancel_publish_repo metadata_cancel_createrepo s1
     = (if truthy (use_createrepo s1)
        then fetch (metadata_cancel_createrepo (working_dir repo)) (with_canceled true s1)
        else (Ok VNone, with_canceled true s1))
  /\ forall w, cancel_publish_repo metadata_cancel_createrepo (new_distributor w)
               = (Ok VNone, with_canceled true (new_distributor w)).
Proof.
  intros s1.
  assert (Hwd : repo_working_dir s1 = Some (working_dir repo)).
  { subst s1. rewrite (keeps_publish_repo repo_working_dir); try reflexivity.
    apply keeps_publish_distribution_units; reflexivity. }
  split; [exact Hwd|]. split; [|reflexivity].
  clearbody s1. unfold cancel_publish_repo, bind, modify, gets.
  destruct s1 as [w c l cn uc pd wd ps]. simpl in Hwd. subst wd. unfold with_canceled. simpl.
  destruct (truthy uc); reflexivity.
Qed.

End CancellationProperties.

Section PackageDirectory.
Context {W : Type} {host : Host W}.

(** X17.  The package subdirectory is a field of the distributor that only
    the distribution pass assigns.  A publish that skips distributions
    leaves it as the last publish set it: whatever subdirectory an
    earlier publish took from a distribution unit is still in force. *)
Theorem publish_repo_skipping_distributions_keeps_package_dir
    (repo : Repo) (config : Config) (skip : list string) (s : PyState W) :
  config_get config "skip" = VList skip ->
  mem_string "distribution" skip = true ->
  package_dir (snd (publish_repo repo config s)) = package_dir s.
Proof.
  intros Hskip Hd.
  rewrite (keeps_publish_repo package_dir); try reflexivity.
  rewrite Hskip. unfold publish_distribution_units, in_skip_list.
  destruct skip as [|x skip]; [discriminate Hd|].
  cbn [truthy]. unfold bind, ret. rewrite Hd. intros s0. reflexivity.
Qed.

End PackageDirectory.

Import MemHost Scenario.

(** Witness: a distributor that took "Packages" from an earlier publish
    publishes two packages with distributions skipped, and links them
    under "Packages" too. *)
Lemma publish_repo_skipping_distributions_keeps_package_dir_witness :
  let config := minimal_config "r" ++ [("skip", VList ["distribution"])] in
  let s := with_package_dir (Some "Packages")
             (new_distributor (snd (set_scratchpad empty_scratchpad packages_world))) in
  package_dir (snd (publish_repo repo1 config s)) = Some "Packages".
Proof.
  intros config s.
  exact (publish_repo_skipping_distributions_keeps_package_dir (host:=mem_host)
           repo1 config ["distribution"] s eq_refl eq_refl).
Defined.

(** ** More on the orchestrator *)

(** Normalizes the worlds of updated states. *)
Ltac state_norm := repeat progress cbn [world with_world record_call snd].

(** Closes a case of a call trace: the run equation gives the final
    state, the equations of the case give the list of removals. *)
Ltac trace_done rs w1 :=
  let H := fresh "H" in
  state_norm; intros H; injection H as _ <-; exists rs, w1; eexists;
  split; [reflexivity|]; split;
  [| repeat (match goal with
             | E : _ = _ |- _ => rewrite E
             end; cbn [snd]); reflexivity ];
  cbn [calls with_world record_call]; repeat rewrite <- app_assoc; reflexivity.

Section OrchestratorMore.
Context {W : Type} {host : Host W}.

Lemma handle_symlinks_errors_bounded units dir cb (s s' : PyState W) status errors t :
  handle_symlinks units dir cb s = (Ok (status, errors, t), s') ->
  (length errors <= length units)%nat.
Proof.
  intros H.
  destruct (handle_symlinks_tracker units dir cb s)
    as (status0 & errors0 & t0 & s0 & Hrun & _ & _ & Hlen & _).
  rewrite Hrun in H. injection H as _ <- _ _. exact Hlen.
Qed.

Lemma publish_package_units_errors_bounded repo skip (s s' : PyState W) units errs :
  publish_package_units repo skip s = (Ok (units, errs), s') ->
  (length errs <= length units)%nat.
Proof.
  unfold publish_package_units. intros H.
  apply bind_Ok in H as (skipped & s1 & _ & H).
  destruct (negb skipped); [|injection H as <- <- _; simpl; lia].
  apply bind_Ok in H as (rpm_units & s2 & _ & H).
  apply bind_Ok in H as (srpm_units & s3 & _ & H).
  apply bind_Ok in H as (drpm_skipped & s4 & _ & H).
  apply bind_Ok in H as (drpm_units & s5 & _ & H).
  apply bind_Ok in H as ([[st es] t] & s6 & Hsym & H).
  apply bind_Ok in H as (x & s7 & _ & H).
  injection H as <- <- _.
  eapply handle_symlinks_errors_bounded. exact Hsym.
Qed.

Lemma handle_publish_links_summary_shape repo config hd hrd pd prd (s s' : PyState W) sm :
  handle_publish_links repo config hd hrd pd prd [] s = (Ok sm, s') ->
  sm = [] \/ sm = [("https_publish_dir", VStr hrd)]
  \/ sm = [("http_publish_dir", VStr prd)]
  \/ sm = [("https_publish_dir", VStr hrd); ("http_publish_dir", VStr prd)].
Proof.
  unfold handle_publish_links. intros H.
  apply bind_Ok in H as (sm1 & sa & H1 & H2).
  apply handle_publish_link_summary in H1. apply handle_publish_link_summary in H2.
  destruct H1 as [-> | ->]; destruct H2 as [-> | ->]; simpl; auto.
Qed.

(** X18.  The counts in the summary of a completed publish.  For packages
    and for distributions alike the published count is the attempted
    count minus the error count, and the errors of the report are as many
    as the two error counts together.  The package error count never
    exceeds the attempted count, so the published package count is not
    negative; distributions have no such bound, since their errors are
    counted per file and their attempts per unit. *)
Theorem publish_repo_summary_counts (repo : Repo) (config : Config) (s s' : PyState W) r :
  publish_repo repo config s = (Ok r, s') ->
  completed r = true ->
  exists pkg_attempted pkg_errors distro_attempted distro_errors : nat,
    config_get (report_summary r) "num_package_units_attempted"
    = VInt (Z.of_nat pkg_attempted)
    /\ config_get (report_summary r) "num_package_units_errors" = VInt (Z.of_nat pkg_errors)
    /\ config_get (report_summary r) "num_package_units_published"
       = VInt (Z.of_nat pkg_attempted - Z.of_nat pkg_errors)
    /\ config_get (report_summary r) "num_distribution_units_attempted"
       = VInt (Z.of_nat distro_attempted)
    /\ config_get (report_summary r) "num_distribution_units_errors"
       = VInt (Z.of_nat distro_errors)
    /\ config_get (report_summary r) "num_distribution_units_published"
       = VInt (Z.of_nat distro_attempted - Z.of_nat distro_errors)
    /\ (pkg_errors <= pkg_attempted)%nat
    /\ length (report_errors r) = (pkg_errors + distro_errors)%nat.
Proof.
  intros H Hdone.
  destruct (publish_repo_stages repo config s s' r H Hdone)
    as (s0 & s1 & s2 & s3 & s4 & s5 & du & de & pu & pe & relpath & hd & hrd & pd & prd
        & sm & groups & cats & skipmd & duration
        & _ & Hp & _ & _ & _ & _ & Hlinks & _ & Hsum & Hr).
  exists (length pu), (length pe), (length du), (length de).
  rewrite Hsum. apply handle_publish_links_summary_shape in Hlinks.
  assert (Herrs : length (report_errors r) = (length pe + length de)%nat).
  { assert (He : report_errors r = pe ++ de).
    { rewrite Hr. cbv zeta. destruct (pe ++ de); reflexivity. }
    rewrite He. apply length_app. }
  pose proof (publish_package_units_errors_bounded _ _ _ _ _ _ Hp) as Hbound.
  destruct Hlinks as [-> | [-> | [-> | ->]]]; repeat split; try reflexivity; assumption.
Qed.

(** X19.  With "rpm" and "distribution" both in the skip list a publish
    that completes cannot fail: no unit is attempted, of any package type
    (srpm and drpm go with rpm), and the report is a success without
    errors. *)
Theorem publish_repo_skipping_packages_and_distributions
    (repo : Repo) (config : Config) (skip : list string) (s s' : PyState W) r :
  config_get config "skip" = VList skip ->
  mem_string "rpm" skip = true ->
  mem_string "distribution" skip = true ->
  publish_repo repo config s = (Ok r, s') ->
  completed r = true ->
  is_success r = true
  /\ report_errors r = []
  /\ config_get (report_summary r) "num_package_units_attempted" = VInt 0
  /\ config_get (report_summary r) "num_distribution_units_attempted" = VInt 0.
Proof.
  intros Hskip Hrpm Hdist H Hdone.
  destruct (publish_repo_stages repo config s s' r H Hdone)
    as (s0 & s1 & s2 & s3 & s4 & s5 & du & de & pu & pe & relpath & hd & hrd & pd & prd
        & sm & groups & cats & skipmd & duration
        & Hd & Hp & _ & _ & _ & _ & Hlinks & _ & Hsum & Hr).
  rewrite Hskip in Hd, Hp.
  assert (Htruthy : truthy (VList skip) = true).
  { destruct skip; [discriminate Hrpm | reflexivity]. }
  unfold publish_distribution_units, in_skip_list, bind, ret in Hd.
  rewrite Htruthy, Hdist in Hd. injection Hd as <- <- _.
  unfold publish_package_units, in_skip_list, bind, ret in Hp.
  rewrite Htruthy, Hrpm in Hp. injection Hp as <- <- _.
  rewrite Hsum. rewrite Hr. cbv zeta. simpl app.
  apply handle_publish_links_summary_shape in Hlinks.
  destruct Hlinks as [-> | [-> | [-> | ->]]]; repeat split; reflexivity.
Qed.

(** X20.  The calls of the path migration.  It reads the repository
    scratchpad; when that records an old relative path, it removes the
    old publish directory under the HTTPS root and then under the HTTP
    root, each one if it exists, without comparing the old path with the
    new one; then it writes the scratchpad back with the new relative
    path as the old one, its other entries untouched. *)
Theorem migrate_publish_path_calls
    (relpath https_publish_dir http_publish_dir : path) (s s' : PyState W) :
  migrate_publish_path relpath https_publish_dir http_publish_dir s = (Ok tt, s') ->
  exists rs w1 removals,
    conduit_get_repo_scratchpad (world s) = (Ok rs, w1)
    /\ calls s'
       = calls s ++ removals
         ++ [EvSetRepoScratchpad {| old_relative_path := Some relpath;
                                    rs_other := rs_other rs |}]
    /\ match old_relative_path rs with
       | None => removals = []
       | Some old =>
           let old_https := os_path_join https_publish_dir old in
           let old_http := os_path_join http_publish_dir old in
           let w2 := if os_path_exists old_https w1
                     then snd (util_remove_repo_publish_dir https_publish_dir old_https w1)
                     else w1 in
           removals
           = (if os_path_exists old_https w1
              then [EvRemoveRepoPublishDir https_publish_dir old_https] else [])
             ++ (if os_path_exists old_http w2
                 then [EvRemoveRepoPublishDir http_publish_dir old_http] else [])
       end.
Proof.
  unfold migrate_publish_path, bind, fetch, ask, call, ret.
  destruct (conduit_get_repo_scratchpad (world s)) as [[rs|e] w1]; [|discriminate].
  state_norm.
  destruct (old_relative_path rs) as [old|] eqn:Eold; cbv zeta; state_norm.
  - destruct (os_path_exists (os_path_join https_publish_dir old) w1) eqn:E1; state_norm.
    + destruct (util_remove_repo_publish_dir https_publish_dir _ w1) as [[[]|e] w2] eqn:R1;
        state_norm; [|discriminate].
      destruct (os_path_exists (os_path_join http_publish_dir old) w2) eqn:E2; state_norm.
      * destruct (util_remove_repo_publish_dir http_publish_dir _ w2) as [[[]|e] w3];
          state_norm; [|discriminate].
        destruct (conduit_set_repo_scratchpad _ w3) as [r4 w4]. trace_done rs w1.
      * destruct (conduit_set_repo_scratchpad _ w2) as [r4 w4]. trace_done rs w1.
    + destruct (os_path_exists (os_path_join http_publish_dir old) w1) eqn:E2; state_norm.
      * destruct (util_remove_repo_publish_dir http_publish_dir _ w1) as [[[]|e] w3];
          state_norm; [|discriminate].
        destruct (conduit_set_repo_scratchpad _ w3) as [r4 w4]. trace_done rs w1.
      * destruct (conduit_set_repo_scratchpad _ w1) as [r4 w4]. trace_done rs w1.
  - destruct (conduit_set_repo_scratchpad _ w1) as [r4 w4]. trace_done rs w1.
Qed.

(** X21.  The calls of [distributor_removed] when it returns: the
    certificates of the repository are deleted, then its protected-repo
    entry under the normalized relative path, then the HTTPS and the HTTP
    publish directories, each one if [os.path.exists] says it is there (a
    publish link whose target is gone is left behind). *)
Theorem distributor_removed_calls (repo : Repo) (config : Config) (s s' : PyState W) :
  distributor_removed repo config s = (Ok tt, s') ->
  exists url hd pd,
    get_repo_relative_path repo config = VStr url
    /\ get_https_publish_dir config = VStr hd
    /\ get_http_publish_dir config = VStr pd
    /\ let rel := strip_leading_slash url in
       let hrd := rstrip_slash (os_path_join hd rel) in
       let prd := rstrip_slash (os_path_join pd rel) in
       let w2 := snd (delete_protected_repo rel
                        (snd (delete_for_repo (repo_id repo) (world s)))) in
       let w3 := if os_path_exists hrd w2
                 then snd (util_remove_repo_publish_dir hd hrd w2) else w2 in
       calls s'
       = calls s
         ++ [EvDeleteCertsForRepo (repo_id repo); EvDeleteProtectedRepo rel]
         ++ (if os_path_exists hrd w2 then [EvRemoveRepoPublishDir hd hrd] else [])
         ++ (if os_path_exists prd w3 then [EvRemoveRepoPublishDir pd prd] else []).
Proof.
  unfold distributor_removed, normalized_relative_path, repo_publish_dir.
  destruct (get_repo_relative_path repo config) as [| | |url|]; try discriminate.
  unfold bind, call, ret, raise, ask. state_norm.
  destruct (delete_for_repo (repo_id repo) (world s)) as [[[]|e1] w1];
    state_norm; [|discriminate].
  destruct (delete_protected_repo (strip_leading_slash url) w1) as [[[]|e2] w2] eqn:D2;
    state_norm; [|discriminate].
  destruct (get_https_publish_dir config) as [| | |hd|]; try discriminate.
  destruct (get_http_publish_dir config) as [| | |pd|]; try discriminate.
  state_norm.
  destruct (os_path_exists (rstrip_slash (os_path_join hd (strip_leading_slash url))) w2)
    eqn:E1; state_norm.
  - destruct (util_remove_repo_publish_dir hd _ w2) as [[[]|e3] w3] eqn:R1;
      state_norm; [|discriminate].
    destruct (os_path_exists (rstrip_slash (os_path_join pd (strip_leading_slash url))) w3)
      eqn:E2; state_norm.
    + destruct (util_remove_repo_publish_dir pd _ w3) as [r4 w4].
      intros H. injection H as _ <-. exists url, hd, pd.
      split; [reflexivity|]. split; [reflexivity|]. split; [reflexivity|].
      cbv zeta. rewrite D2. cbn [snd]. rewrite E1, R1. cbn [snd]. rewrite E2.
      cbn [calls with_world record_call]. repeat rewrite <- app_assoc. reflexivity.
    + intros H. injection H as <-. exists url, hd, pd.
      split; [reflexivity|]. split; [reflexivity|]. split; [reflexivity|].
      cbv zeta. rewrite D2. cbn [snd]. rewrite E1, R1. cbn [snd]. rewrite E2.
      cbn [calls with_world record_call]. repeat rewrite <- app_assoc. reflexivity.
  - destruct (os_path_exists (rstrip_slash (os_path_join pd (strip_leading_slash url))) w2)
      eqn:E2; state_norm.
    + destruct (util_remove_repo_publish_dir pd _ w2) as [r4 w4].
      intros H. injection H as _ <-. exists url, hd, pd.
      split; [reflexivity|]. split; [reflexivity|]. split; [reflexivity|].
      cbv zeta. rewrite D2. cbn [snd]. rewrite E1, E2.
      cbn [calls with_world record_call]. repeat rewrite <- app_assoc. reflexivity.
    + intros H. injection H as <-. exists url, hd, pd.
      split; [reflexivity|]. split; [reflexivity|]. split; [reflexivity|].
      cbv zeta. rewrite D2. cbn [snd]. rewrite E1, E2.
      cbn [calls with_world record_call]. repeat rewrite <- app_assoc. reflexivity.
Qed.

(** A computation that begins with a call has it first in its trace. *)
Lemma bind_call_trace {A B} ev (op : W -> Res A * W) (k : A -> M (PyState W) B) s :
  (forall a, emits any_event (k a)) ->
  exists evs, calls (snd (bind (call ev op) k s)) = calls s ++ ev :: evs.
Proof.
  intros Hk. unfold bind, call.
  destruct (op (world (record_call ev s))) as [[a|e] w'].
  - destruct (Hk a (with_world w' (record_call ev s))) as (evs & E & _).
    exists evs. rewrite E. cbn [calls with_world record_call].
    rewrite <- app_assoc. reflexivity.
  - exists []. reflexivity.
Qed.

(** X22.  How [distributor_removed] fails early.  A relative path that is
    not a string raises before anything is called.  When deleting the
    certificates raises, the protected-repo entry and the publish
    directories are left as they are: the exception leaves
    [distributor_removed] with that one call made. *)
Theorem distributor_removed_stops_at_the_first_failure
    (repo : Repo) (config : Config) (s : PyState W) :
  let run := distributor_removed repo config s in
  match get_repo_relative_path repo config with
  | VStr url =>
      match delete_for_repo (repo_id repo) (world s) with
      | (Raise e, w1) =>
          fst run = Raise e
          /\ calls (snd run) = calls s ++ [EvDeleteCertsForRepo (repo_id repo)]
          /\ world (snd run) = w1
      | (Ok _, _) =>
          exists evs, calls (snd run)
                      = calls s ++ EvDeleteCertsForRepo (repo_id repo)
                                   :: EvDeleteProtectedRepo (strip_leading_slash url) :: evs
      end
  | _ => run = (Raise (AttributeError "startswith"), s)
  end.
Proof.
  cbv zeta. remember (distributor_removed repo config s) as run eqn:Hrun.
  unfold distributor_removed, normalized_relative_path in Hrun.
  destruct (get_repo_relative_path repo config) as [| | |url|]; try exact Hrun.
  unfold bind at 1 in Hrun. unfold ret at 1 in Hrun.
  unfold bind at 1 in Hrun. unfold call at 1 in Hrun.
  cbn [world with_world record_call] in Hrun.
  destruct (delete_for_repo (repo_id repo) (world s)) as [[[]|e] w1].
  2: { subst run. repeat split; reflexivity. }
  match type of Hrun with
  | _ = bind (call ?ev ?op) ?k ?s1 =>
      destruct (bind_call_trace ev op k s1) as (evs & Ev)
  end.
  { intros _. unfold repo_publish_dir. emits_auto. }
  rewrite <- Hrun in Ev. exists evs. rewrite Ev. cbn [calls with_world record_call].
  rewrite <- app_assoc. reflexivity.
Qed.

Lemma get_set_phase_other p phase v ps :
  p <> phase -> get_phase p (set_phase phase v ps) = get_phase p ps.
Proof. destruct p, phase; intros H; try reflexivity; congruence. Qed.

(** What one protocol step returns and how it leaves the phases. *)
Lemma handle_publish_link_outcome phase key enabled wd pdir rdir summary (s s' : PyState W) sm :
  handle_publish_link phase key enabled wd pdir rdir summary s = (Ok sm, s') ->
  (forall p, p <> phase ->
     get_phase p (progress_status s') = get_phase p (progress_status s))
  /\ ((truthy enabled = true
       /\ get_phase phase (progress_status s') = StateOnly FINISHED
       /\ sm = summary ++ [(key, VStr rdir)])
      \/ (truthy enabled = true
          /\ get_phase phase (progress_status s') = StateOnly FAILED /\ sm = summary)
      \/ (truthy enabled = false
          /\ get_phase phase (progress_status s') = StateOnly SKIPPED /\ sm = summary)).
Proof.
  unfold handle_publish_link.
  destruct (truthy enabled).
  - unfold bind, try_except, set_progress, progress_callback, call, ret.
    cbn [world record_call with_world with_progress_status progress_status calls fst snd].
    destruct (util_create_symlink wd rdir _) as [[b|e] w2];
      cbn [world record_call with_world with_progress_status progress_status calls fst snd].
    + destruct (util_generate_listing_files pdir rdir w2) as [[[]|e] w3];
        cbn [world record_call with_world with_progress_status progress_status calls fst snd];
        intros H; injection H as <- <-;
        cbn [world record_call with_world with_progress_status progress_status];
        (split; [intros p Hp; rewrite !get_set_phase_other by exact Hp; reflexivity|]);
        rewrite get_set_phase; auto.
    + intros H; injection H as <- <-;
        cbn [world record_call with_world with_progress_status progress_status];
        (split; [intros p Hp; rewrite !get_set_phase_other by exact Hp; reflexivity|]);
        rewrite get_set_phase; auto.
  - unfold bind, set_progress, progress_callback, call, ask, ret.
    cbn [world record_call with_world with_progress_status progress_status calls fst snd].
    destruct (os_path_lexists rdir _);
      cbn [world record_call with_world with_progress_status progress_status calls fst snd].
    + destruct (util_remove_repo_publish_dir pdir rdir _) as [[[]|e] w2];
        cbn [world record_call with_world with_progress_status progress_status calls fst snd];
        intros H; [|discriminate H]; injection H as <- <-;
        cbn [world record_call with_world with_progress_status progress_status];
        (split; [intros p Hp; rewrite !get_set_phase_other by exact Hp; reflexivity|]);
        rewrite get_set_phase; auto.
    + intros H; injection H as <- <-;
        cbn [world record_call with_world with_progress_status progress_status];
        (split; [intros p Hp; rewrite !get_set_phase_other by exact Hp; reflexivity|]);
        rewrite get_set_phase; auto.
Qed.

(** X23.  The protocol steps, their phases and the summary.  After the two
    steps each protocol phase is FINISHED, FAILED or SKIPPED, and SKIPPED
    exactly when the protocol is not enabled in the configuration.  The
    summary holds the publish directory of a protocol exactly when its
    phase is FINISHED, HTTPS before HTTP: a failed protocol leaves no
    trace in the summary, and does not fail the publish. *)
Theorem handle_publish_links_summary_follows_the_phases
    (repo : Repo) (config : Config)
    (https_publish_dir https_repo_publish_dir http_publish_dir http_repo_publish_dir : path)
    (s s' : PyState W) (summary : Summary) :
  handle_publish_links repo config https_publish_dir https_repo_publish_dir
    http_publish_dir http_repo_publish_dir [] s = (Ok summary, s') ->
  let https := get_phase publish_https (progress_status s') in
  let http := get_phase publish_http (progress_status s') in
  is_final_protocol_state https = true
  /\ is_final_protocol_state http = true
  /\ (https = StateOnly SKIPPED <-> truthy (config_get config "https") = false)
  /\ (http = StateOnly SKIPPED <-> truthy (config_get config "http") = false)
  /\ summary
     = (if is_finished https then [("https_publish_dir", VStr https_repo_publish_dir)] else [])
       ++ (if is_finished http then [("http_publish_dir", VStr http_repo_publish_dir)] else []).
Proof.
  unfold handle_publish_links. intros H.
  apply bind_Ok in H as (sm1 & s1 & H1 & H2).
  apply handle_publish_link_outcome in H1 as [_ H1].
  apply handle_publish_link_outcome in H2 as [Hother H2].
  cbv zeta. rewrite (Hother publish_https) by discriminate.
  destruct H1 as [(E1 & -> & ->) | [(E1 & -> & ->) | (E1 & -> & ->)]];
    destruct H2 as [(E2 & -> & ->) | [(E2 & -> & ->) | (E2 & -> & ->)]];
    rewrite E1, E2; repeat split; try reflexivity; try discriminate.
Qed.

End OrchestratorMore.

Import MemHost Scenario OrchestratorScenario.

(** Witness: one distribution unit with two files, none in storage.  The
    published distribution count is 1 - 2. *)
Lemma publish_repo_summary_counts_witness :
  exists r s',
    publish_repo repo1 (minimal_config "r") (new_distributor distribution_missing_world)
    = (Ok r, s')
    /\ completed r = true
    /\ config_get (report_summary r) "num_distribution_units_published" = VInt (-1)
    /\ exists pkg_attempted pkg_errors : nat,
         config_get (report_summary r) "num_package_units_published"
         = VInt (Z.of_nat pkg_attempted - Z.of_nat pkg_errors)
         /\ (pkg_errors <= pkg_attempted)%nat.
Proof.
  destruct (publish_repo repo1 (minimal_config "r") (new_distributor distribution_missing_world))
    as [[r|e] s'] eqn:Hrun; [|vm_compute in Hrun; discriminate Hrun].
  exists r, s'. split; [reflexivity|].
  assert (Hr : completed r = true
               /\ config_get (report_summary r) "num_distribution_units_published"
                  = VInt (-1)).
  { vm_compute in Hrun. injection Hrun as <- _. split; reflexivity. }
  destruct Hr as [Hdone Hneg]. split; [exact Hdone|]. split; [exact Hneg|].
  destruct (publish_repo_summary_counts (host:=mem_host) repo1 (minimal_config "r") _ _ _
              Hrun Hdone)
    as (pa & pe & da & de & _ & _ & Hpub & _ & _ & _ & Hle & _).
  exists pa, pe. split; [exact Hpub | exact Hle].
Defined.

(** Witness: packages are associated and missing from storage, but
    skipped. *)
Lemma publish_repo_skipping_packages_and_distributions_witness :
  let config := minimal_config "r" ++ [("skip", VList ["rpm"; "distribution"])] in
  exists r s',
    publish_repo repo1 config (new_distributor missing_package_world) = (Ok r, s')
    /\ is_success r = true /\ report_errors r = [].
Proof.
  intros config.
  destruct (publish_repo repo1 config (new_distributor missing_package_world))
    as [[r|e] s'] eqn:Hrun; [|vm_compute in Hrun; discriminate Hrun].
  exists r, s'. split; [reflexivity|].
  assert (Hdone : completed r = true).
  { vm_compute in Hrun. injection Hrun as <- _. reflexivity. }
  destruct (publish_repo_skipping_packages_and_distributions (host:=mem_host) repo1 config
              ["rpm"; "distribution"] _ _ _ eq_refl eq_refl eq_refl Hrun Hdone)
    as (Hs & He & _).
  split; [exact Hs | exact He].
Defined.

(** Witness: a republish under the unchanged relative path "r" removes
    both publish links before the protocol steps create them again. *)
Lemma migrate_publish_path_calls_witness :
  let hd := "/var/lib/pulp/published/https/repos" in
  let pd := "/var/lib/pulp/published/http/repos" in
  let s := new_distributor published_world in
  exists s',
    migrate_publish_path "r" hd pd s = (Ok tt, s')
    /\ calls s'
       = [EvRemoveRepoPublishDir hd "/var/lib/pulp/published/https/repos/r";
          EvRemoveRepoPublishDir pd "/var/lib/pulp/published/http/repos/r";
          EvSetRepoScratchpad {| old_relative_path := Some "r";
                                 rs_other := [("importer", VStr "yum")] |}].
Proof.
  intros hd pd s. eexists. split; [vm_compute; reflexivity|].
  destruct (migrate_publish_path_calls (host:=mem_host) "r" hd pd s _
              ltac:(vm_compute; reflexivity))
    as (rs & w1 & removals & Hget & Hcalls & Hold).
  vm_compute in Hget. injection Hget as <- <-.
  cbn [old_relative_path] in Hold. cbv zeta in Hold. rewrite Hold in Hcalls.
  exact Hcalls.
Defined.

(** Witness: the repository published under "r" is removed. *)
Lemma distributor_removed_calls_witness :
  let s := new_distributor published_world in
  exists s',
    distributor_removed repo1 (minimal_config "r") s = (Ok tt, s')
    /\ calls s'
       = [EvDeleteCertsForRepo "repo1"; EvDeleteProtectedRepo "r";
          EvRemoveRepoPublishDir "/var/lib/pulp/published/https/repos"
                                 "/var/lib/pulp/published/https/repos/r";
          EvRemoveRepoPublishDir "/var/lib/pulp/published/http/repos"
                                 "/var/lib/pulp/published/http/repos/r"].
Proof.
  intros s. eexists. split; [vm_compute; reflexivity|].
  destruct (distributor_removed_calls (host:=mem_host) repo1 (minimal_config "r") s _
              ltac:(vm_compute; reflexivity))
    as (url & hd & pd & Hurl & Hhd & Hpd & Hcalls).
  vm_compute in Hurl, Hhd, Hpd. injection Hurl as <-. injection Hhd as <-.
  injection Hpd as <-. exact Hcalls.
Defined.

(** Witness: HTTPS cannot be published, HTTP can. *)
Lemma handle_publish_links_summary_follows_the_phases_witness :
  let https_dir := "/var/lib/pulp/published/https/repos" in
  let http_dir := "/var/lib/pulp/published/http/repos" in
  exists s',
    handle_publish_links repo1 (minimal_config "r") https_dir (https_dir ++ "/r")%string
      http_dir (http_dir ++ "/r")%string [] (new_distributor https_denied_world)
    = (Ok [("http_publish_dir", VStr (http_dir ++ "/r")%string)], s')
    /\ get_phase publish_https (progress_status s') = StateOnly FAILED
    /\ is_finished (get_phase publish_http (progress_status s')) = true.
Proof.
  intros https_dir http_dir. eexists. split; [vm_compute; reflexivity|].
  destruct (handle_publish_links_summary_follows_the_phases (host:=mem_host)
              repo1 (minimal_config "r") https_dir (https_dir ++ "/r")%string
              http_dir (http_dir ++ "/r")%string (new_distributor https_denied_world) _ _
              ltac:(vm_compute; reflexivity))
    as (_ & _ & _ & _ & _).
  split; reflexivity.
Defined.

(** ** The overall result and the protocol steps of a publish *)

Section CompletedPublish.
Context {W : Type} {host : Host W}.

Lemma keeps_run {X A} (f : PyState W -> X) (m : M (PyState W) A) s r s' :
  keeps f m -> m s = (r, s') -> f s' = f s.
Proof. intros Hk Hrun. specialize (Hk s). rewrite Hrun in Hk. exact Hk. Qed.

(** A publish on a distributor that is not canceled, if it returns,
    returns a failure or a success report: the flag it reads after the
    symlink phases is the flag it read at the start.  It went through
    every stage, the first of them in the state the two assignments at
    the top of [publish_repo] leave, and its report is built from their
    results. *)
Lemma publish_repo_not_canceled (repo : Repo) (config : Config) (s s' : PyState W) r :
  publish_repo repo config s = (Ok r, s') ->
  canceled s = false ->
  completed r = true
  /\ exists s1 s2 s3 s4 distro_units distro_errors pkg_units pkg_errors
            relpath https_publish_dir https_repo_publish_dir
            http_publish_dir http_repo_publish_dir summary duration,
       publish_distribution_units repo (config_get config "skip")
         (with_repo_working_dir (working_dir repo)
            (with_progress_status initial_progress_status s))
       = (Ok (distro_units, distro_errors), s1)
       /\ publish_package_units repo (config_get config "skip") s1
          = (Ok (pkg_units, pkg_errors), s2)
       /\ repo_publish_dir (get_https_publish_dir config) relpath s3
          = (Ok (https_publish_dir, https_repo_publish_dir), s3)
       /\ repo_publish_dir (get_http_publish_dir config) relpath s3
          = (Ok (http_publish_dir, http_repo_publish_dir), s3)
       /\ migrate_publish_path relpath https_publish_dir http_publish_dir s3 = (Ok tt, s4)
       /\ handle_publish_links repo config https_publish_dir https_repo_publish_dir
            http_publish_dir http_repo_publish_dir [] s4 = (Ok summary, s')
       /\ r = (let details := {| errors := pkg_errors ++ distro_errors;
                                 time_metadata_sec := duration |} in
               match pkg_errors ++ distro_errors with
               | _ :: _ => FailureReport (report_summary r) details
               | [] => SuccessReport (report_summary r) details
               end).
Proof.
  unfold publish_repo. intros H Hc.
  apply bind_Ok in H as (x0 & sa & Hm0 & H). unfold modify in Hm0. injection Hm0 as _ <-.
  apply bind_Ok in H as (x1 & s0 & Hm1 & H). unfold modify in Hm1. injection Hm1 as _ <-.
  apply bind_Ok in H as (c0 & sb & Hc0 & H).
  unfold gets in Hc0. injection Hc0 as <- <-.
  cbn [canceled with_repo_working_dir with_progress_status] in H. rewrite Hc in H.
  apply bind_Ok in H as ([distro_units distro_errors] & s1 & Hdistro & H).
  apply bind_Ok in H as ([pkg_units pkg_errors] & s2 & Hpkg & H).
  apply bind_Ok in H as (eskip & sc & Heskip & H).
  apply bind_Ok in H as (updateinfo_xml_path & sd & Hupd & H).
  apply bind_Ok in H as (c1 & se & Hc1 & H).
  unfold gets in Hc1. injection Hc1 as <- <-.
  assert (Hsd : canceled sd = false).
  { rewrite <- Hc.
    apply (keeps_run canceled) in Hdistro;
      [|apply keeps_publish_distribution_units; reflexivity].
    apply (keeps_run canceled) in Hpkg;
      [|apply keeps_publish_package_units; reflexivity].
    apply (keeps_run canceled) in Heskip; [|apply keeps_in_skip_list].
    apply (keeps_run canceled) in Hupd.
    - rewrite Hupd, Heskip, Hpkg, Hdistro. reflexivity.
    - destruct (negb eskip).
      + apply keeps_bind; [apply keeps_fetch; reflexivity|].
        intros errata_units. apply keeps_call; reflexivity.
      + apply keeps_ret. }
  rewrite Hsd in H.
  apply bind_Ok in H as (gskip & sf & _ & H).
  apply bind_Ok in H as ([[groups_xml_path existing_groups] existing_cats] & sg & _ & H).
  apply bind_Ok in H as (t_start & sh & _ & H).
  apply bind_Ok in H as (x2 & si & _ & H).
  apply bind_Ok in H as ([metadata_status metadata_errors] & sj & _ & H).
  apply bind_Ok in H as (t_end & s3' & _ & H).
  apply bind_Ok in H as (relpath & s3 & Hrel & H).
  apply bind_Ok in H as ([hd hrd] & s3a & Hhttps & H).
  assert (s3a = s3) as ->.
  { unfold repo_publish_dir in Hhttps.
    destruct (get_https_publish_dir config); try discriminate Hhttps.
    injection Hhttps as _ _ <-. reflexivity. }
  apply bind_Ok in H as ([pd prd] & s3b & Hhttp & H).
  assert (s3b = s3) as ->.
  { unfold repo_publish_dir in Hhttp.
    destruct (get_http_publish_dir config); try discriminate Hhttp.
    injection Hhttp as _ _ <-. reflexivity. }
  apply bind_Ok in H as ([] & s4 & Hmig & H).
  apply bind_Ok in H as (summary & s5 & Hlinks & H).
  cbn [errors] in H.
  destruct (pkg_errors ++ distro_errors) as [|e es] eqn:Eerr;
    injection H as <- <-; (split; [reflexivity|]);
    exists s1, s2, s3, s4, distro_units, distro_errors, pkg_units, pkg_errors,
      relpath, hd, hrd, pd, prd, summary;
    eexists; rewrite Eerr; repeat split; eauto.
Qed.

(** C6.  Overall publish result.  A publish that returns on a canceled
    distributor returns the cancel report.  On a distributor that is not
    canceled it runs to completion: it returns a failure report exactly
    when the package errors followed by the distribution errors, as the
    two symlink phases of this run returned them, are not empty, and a
    success report otherwise.  The errors of the report are that list:
    what metadata generation returns, and which phases were skipped, has
    no part in it. *)
Theorem C6_overall_publish_result (repo : Repo) (config : Config) (s s' : PyState W) r :
  publish_repo repo config s = (Ok r, s') ->
  if canceled s then r = CancelReport []
  else
    completed r = true
    /\ exists s1 s2 distro_units distro_errors pkg_units pkg_errors,
         publish_distribution_units repo (config_get config "skip")
           (with_repo_working_dir (working_dir repo)
              (with_progress_status initial_progress_status s))
         = (Ok (distro_units, distro_errors), s1)
         /\ publish_package_units repo (config_get config "skip") s1
            = (Ok (pkg_units, pkg_errors), s2)
         /\ report_errors r = pkg_errors ++ distro_errors
         /\ (is_failure r = true <-> pkg_errors ++ distro_errors <> [])
         /\ (is_success r = true <-> pkg_errors ++ distro_errors = []).
Proof.
  intros H. destruct (canceled s) eqn:Hc.
  - destruct (publish_repo_canceled repo config s Hc) as (s2 & Hrun & _).
    rewrite Hrun in H. injection H as <- _. reflexivity.
  - destruct (publish_repo_not_canceled repo config s s' r H Hc)
      as (Hdone & s1 & s2 & s3 & s4 & du & de & pu & pe & relpath & hd & hrd & pd & prd
          & summary & duration & Hd & Hp & _ & _ & _ & _ & Hr).
    split; [exact Hdone|].
    exists s1, s2, du, de, pu, pe.
    split; [exact Hd|]. split; [exact Hp|].
    rewrite Hr. cbv zeta.
    destruct (pe ++ de) as [|e es]; simpl; repeat split; try congruence; try discriminate.
Qed.

(** A protocol step that raises is a disabled one whose link removal
    raised: the phase is SKIPPED, the removal is the only call made, and
    no other phase has been touched. *)
Lemma handle_publish_link_raises phase key enabled wd pdir rdir summary (s s' : PyState W) e :
  handle_publish_link phase key enabled wd pdir rdir summary s = (Raise e, s') ->
  let s1 := snd (progress_callback phase (StateOnly SKIPPED) s) in
  truthy enabled = false
  /\ os_path_lexists rdir (world s1) = true
  /\ fst (util_remove_repo_publish_dir pdir rdir (world s1)) = Raise e
  /\ link_calls s s' = [EvRemoveRepoPublishDir pdir rdir]
  /\ progress_status s' = set_phase phase (StateOnly SKIPPED) (progress_status s).
Proof.
  unfold handle_publish_link, link_calls.
  destruct (truthy enabled).
  - unfold bind, try_except, set_progress, progress_callback, call, ret.
    cbn [world record_call with_world with_progress_status progress_status calls fst snd].
    destruct (util_create_symlink wd rdir _) as [[b|e1] w2];
      cbn [world record_call with_world with_progress_status progress_status calls fst snd].
    + destruct (util_generate_listing_files pdir rdir w2) as [[[]|e2] w3];
        cbn [world record_call with_world with_progress_status progress_status calls fst snd];
        intros H; discriminate H.
    + intros H; discriminate H.
  - unfold bind, set_progress, progress_callback, call, ask, ret.
    cbn [world record_call with_world with_progress_status progress_status calls fst snd].
    destruct (os_path_lexists rdir _);
      cbn [world record_call with_world with_progress_status progress_status calls fst snd];
      [|intros H; discriminate H].
    destruct (util_remove_repo_publish_dir pdir rdir _) as [[[]|e1] w2];
      cbn [world record_call with_world with_progress_status progress_status calls fst snd];
      intros H; [discriminate H|].
    injection H as <- <-.
    cbn [world record_call with_world with_progress_status progress_status calls fst snd].
    repeat rewrite <- app_assoc. rewrite skipn_calls.
    repeat split; reflexivity.
Qed.

(** C9.  The protocol steps, HTTPS then HTTP.  Each step acts on its own
    configuration entry.  Enabled, it creates or refreshes the published
    symlink and then regenerates the listing files; it always returns,
    marking the phase FAILED when one of the two calls raises and
    FINISHED otherwise.  Disabled, it marks the phase SKIPPED and removes
    the published link if there is one; an exception of that removal is
    not caught.  Whenever the HTTPS step returns, whatever its phase, the
    HTTP step is run in the state it leaves.  The HTTPS step raises only
    when HTTPS is disabled and the removal of its link raises: the
    exception then leaves the protocol steps with the HTTP step not
    attempted and the HTTP phase untouched.  A publish that is not
    canceled and returns went through both steps. *)
Theorem C9_protocol_independence (repo : Repo) (config : Config)
    (https_publish_dir https_repo_publish_dir http_publish_dir http_repo_publish_dir : path)
    (summary : Summary) (s : PyState W) :
  (forall phase key enabled pdir rdir,
     let wd := working_dir repo in
     let run := handle_publish_link phase key enabled wd pdir rdir summary s in
     if truthy enabled then
       let s1 := snd (progress_callback phase (StateOnly IN_PROGRESS) s) in
       match util_create_symlink wd rdir (world s1) with
       | (Raise _, _) =>
           fst run = Ok summary
           /\ get_phase phase (progress_status (snd run)) = StateOnly FAILED
           /\ link_calls s (snd run) = [EvCreateSymlink wd rdir]
       | (Ok _, w2) =>
           match util_generate_listing_files pdir rdir w2 with
           | (Raise _, _) =>
               fst run = Ok summary
               /\ get_phase phase (progress_status (snd run)) = StateOnly FAILED
               /\ link_calls s (snd run)
                  = [EvCreateSymlink wd rdir; EvGenerateListingFiles pdir rdir]
           | (Ok _, _) =>
               fst run = Ok (summary ++ [(key, VStr rdir)])
               /\ get_phase phase (progress_status (snd run)) = StateOnly FINISHED
               /\ link_calls s (snd run)
                  = [EvCreateSymlink wd rdir; EvGenerateListingFiles pdir rdir]
           end
       end
     else
       let s1 := snd (progress_callback phase (StateOnly SKIPPED) s) in
       get_phase phase (progress_status (snd run)) = StateOnly SKIPPED
       /\ if os_path_lexists rdir (world s1) then
            link_calls s (snd run) = [EvRemoveRepoPublishDir pdir rdir]
            /\ match util_remove_repo_publish_dir pdir rdir (world s1) with
               | (Ok _, _) => fst run = Ok summary
               | (Raise e, _) => fst run = Raise e
               end
          else link_calls s (snd run) = [] /\ fst run = Ok summary)
  /\ (let https_step :=
        handle_publish_link publish_https "https_publish_dir" (config_get config "https")
          (working_dir repo) https_publish_dir https_repo_publish_dir summary s in
      let steps := handle_publish_links repo config https_publish_dir https_repo_publish_dir
                     http_publish_dir http_repo_publish_dir summary s in
      match fst https_step with
      | Ok summary1 =>
          steps = handle_publish_link publish_http "http_publish_dir"
                    (config_get config "http") (working_dir repo)
                    http_publish_dir http_repo_publish_dir summary1 (snd https_step)
      | Raise e =>
          let s1 := snd (progress_callback publish_https (StateOnly SKIPPED) s) in
          steps = (Raise e, snd https_step)
          /\ truthy (config_get config "https") = false
          /\ os_path_lexists https_repo_publish_dir (world s1) = true
          /\ fst (util_remove_repo_publish_dir https_publish_dir https_repo_publish_dir
                    (world s1)) = Raise e
          /\ link_calls s (snd steps)
             = [EvRemoveRepoPublishDir https_publish_dir https_repo_publish_dir]
          /\ get_phase publish_http (progress_status (snd steps))
             = get_phase publish_http (progress_status s)
      end)
  /\ (forall s0 s' r,
        publish_repo repo config s0 = (Ok r, s') -> canceled s0 = false ->
        exists relpath hd hrd pd prd (s3 s4 : PyState W) sm,
          repo_publish_dir (get_https_publish_dir config) relpath s3 = (Ok (hd, hrd), s3)
          /\ repo_publish_dir (get_http_publish_dir config) relpath s3 = (Ok (pd, prd), s3)
          /\ handle_publish_links repo config hd hrd pd prd [] s4 = (Ok sm, s')).
Proof.
  split; [|split].
  3: { intros s0 s' r H Hc.
       destruct (publish_repo_not_canceled repo config s0 s' r H Hc)
         as (_ & s1 & s2 & s3 & s4 & du & de & pu & pe & relpath & hd & hrd & pd & prd
             & sm & duration & _ & _ & Hh & Hp & _ & Hl & _).
       exists relpath, hd, hrd, pd, prd, s3, s4, sm. auto. }
  - intros phase key enabled pdir rdir. apply handle_publish_link_cases.
  - cbv zeta. unfold handle_publish_links, bind.
    destruct (handle_publish_link publish_https "https_publish_dir"
                (config_get config "https") (working_dir repo)
                https_publish_dir https_repo_publish_dir summary s) as [[summary1|e] s1] eqn:E;
      cbn [fst snd]; [reflexivity|].
    destruct (handle_publish_link_raises _ _ _ _ _ _ _ _ _ _ E)
      as (Hoff & Hthere & Hraise & Hcalls & Hps).
    split; [reflexivity|]. split; [exact Hoff|]. split; [exact Hthere|].
    split; [exact Hraise|]. split; [exact Hcalls|].
    rewrite Hps. reflexivity.
Qed.

End CompletedPublish.

(** C6 (witness): a publish over HTTPS only whose metadata generation
    fails still succeeds, a publish with a package missing from storage
    fails, and the same publish on a canceled distributor returns the
    cancel report. *)
Lemma C6_overall_publish_result_witness :
  (exists r s', publish_repo repo1 https_only_config (new_distributor metadata_failing_world)
                = (Ok r, s')
                /\ completed r = true /\ is_success r = true /\ report_errors r = [])
  /\ (exists r s', publish_repo repo1 https_only_config (new_distributor missing_package_world)
                   = (Ok r, s')
                   /\ completed r = true /\ is_failure r = true
                   /\ report_errors r
                      = [("/content/p1.rpm", "/wd/p1.rpm",
                          MsgSourcePathMissing "/content/p1.rpm")])
  /\ fst (publish_repo repo1 https_only_config
            (with_canceled true (new_distributor missing_package_world)))
     = Ok (CancelReport []).
Proof.
  split; [|split].
  3: { destruct (publish_repo repo1 https_only_config
                   (with_canceled true (new_distributor missing_package_world)))
         as [[r|e] s'] eqn:Hrun; [|vm_compute in Hrun; discriminate Hrun].
       pose proof (C6_overall_publish_result repo1 https_only_config _ _ _ Hrun) as Hc6.
       cbn [canceled with_canceled] in Hc6. rewrite Hc6. reflexivity. }
  - destruct (publish_repo repo1 https_only_config (new_distributor metadata_failing_world))
      as [[r|e] s'] eqn:Hrun; [|vm_compute in Hrun; discriminate Hrun].
    exists r, s'. split; [reflexivity|].
    assert (Herr : report_errors r = []).
    { vm_compute in Hrun. injection Hrun as <- _. reflexivity. }
    pose proof (C6_overall_publish_result repo1 https_only_config _ _ _ Hrun) as Hc6.
    cbn [canceled new_distributor] in Hc6.
    destruct Hc6 as (Hdone & s1 & s2 & du & de & pu & pe & _ & _ & He & _ & Hs).
    split; [exact Hdone|]. split; [|exact Herr].
    apply Hs. rewrite <- He. exact Herr.
  - destruct (publish_repo repo1 https_only_config (new_distributor missing_package_world))
      as [[r|e] s'] eqn:Hrun; [|vm_compute in Hrun; discriminate Hrun].
    exists r, s'. split; [reflexivity|].
    assert (Herr : report_errors r = [("/content/p1.rpm", "/wd/p1.rpm",
                                       MsgSourcePathMissing "/content/p1.rpm")]).
    { vm_compute in Hrun. injection Hrun as <- _. reflexivity. }
    pose proof (C6_overall_publish_result repo1 https_only_config _ _ _ Hrun) as Hc6.
    cbn [canceled new_distributor] in Hc6.
    destruct Hc6 as (Hdone & s1 & s2 & du & de & pu & pe & _ & _ & He & Hf & _).
    split; [exact Hdone|]. split; [|exact Herr].
    apply Hf. rewrite <- He, Herr. discriminate.
Defined.

Import ProtocolScenario.

(** C9 (witness): both protocols enabled, and creating the HTTPS link
    raises.  The HTTPS phase is FAILED, the HTTP link is published all the
    same, and the publish completes.  With HTTP alone enabled and an HTTPS
    link left by an earlier publish, the HTTPS link is removed and the
    HTTP link and its listing file are in place. *)
Lemma C9_protocol_independence_witness :
  let s := new_distributor https_denied_world in
  let config := minimal_config "r" in
  let https_dir := "/var/lib/pulp/published/https/repos" in
  let http_dir := "/var/lib/pulp/published/http/repos" in
  canceled s = false
  /\ (exists summary1 s1,
        handle_publish_link publish_https "https_publish_dir" (config_get config "https")
          (working_dir repo1) https_dir (https_dir ++ "/r")%string [] s = (Ok summary1, s1)
        /\ get_phase publish_https (progress_status s1) = StateOnly FAILED
        /\ let run := handle_publish_links repo1 config https_dir (https_dir ++ "/r")%string
                        http_dir (http_dir ++ "/r")%string [] s in
           get_phase publish_http (progress_status (snd run)) = StateOnly FINISHED
           /\ node_at (fs (world (snd run))) (http_dir ++ "/r")%string = Some (NLink "/wd"))
  /\ (exists r s', publish_repo repo1 config s = (Ok r, s')
                   /\ exists relpath hd hrd pd prd (s3 s4 : PyState World) sm,
                        repo_publish_dir (get_https_publish_dir config) relpath s3
                        = (Ok (hd, hrd), s3)
                        /\ repo_publish_dir (get_http_publish_dir config) relpath s3
                           = (Ok (pd, prd), s3)
                        /\ handle_publish_links repo1 config hd hrd pd prd [] s4
                           = (Ok sm, s'))
  /\ (let s := new_distributor https_link_left_world in
      let run := handle_publish_links repo1 http_only_config
                   https_dir (https_dir ++ "/r")%string
                   http_dir (http_dir ++ "/r")%string [] s in
      node_at (fs (world s)) (https_dir ++ "/r")%string = Some (NLink "/wd")
      /\ fst run = Ok [("http_publish_dir", VStr (http_dir ++ "/r")%string)]
      /\ get_phase publish_https (progress_status (snd run)) = StateOnly SKIPPED
      /\ get_phase publish_http (progress_status (snd run)) = StateOnly FINISHED
      /\ node_at (fs (world (snd run))) (https_dir ++ "/r")%string = None
      /\ node_at (fs (world (snd run))) (http_dir ++ "/r")%string = Some (NLink "/wd")
      /\ node_at (fs (world (snd run))) (http_dir ++ "/listing")%string = Some NFile).
Proof.
  intros s config https_dir http_dir.
  destruct (C9_protocol_independence repo1 config https_dir (https_dir ++ "/r")%string
              http_dir (http_dir ++ "/r")%string [] s) as (_ & Hseq & Hpub).
  split; [reflexivity|]. split; [|split].
  3: { intros s2 run.
       destruct (C9_protocol_independence repo1 http_only_config
                   https_dir (https_dir ++ "/r")%string
                   http_dir (http_dir ++ "/r")%string [] s2) as (_ & Hseq2 & _).
       cbv zeta in Hseq2.
       destruct (handle_publish_link publish_https "https_publish_dir"
                   (config_get http_only_config "https") (working_dir repo1)
                   https_dir (https_dir ++ "/r")%string [] s2)
         as [[summary1|e] s1] eqn:E1; [|vm_compute in E1; discriminate E1].
       cbn [fst snd] in Hseq2. subst run. rewrite Hseq2.
       vm_compute in E1. injection E1 as <- <-.
       vm_compute. repeat split; reflexivity. }
  - cbv zeta in Hseq.
    destruct (handle_publish_link publish_https "https_publish_dir" (config_get config "https")
                (working_dir repo1) https_dir (https_dir ++ "/r")%string [] s)
      as [[summary1|e] s1] eqn:E1; [|vm_compute in E1; discriminate E1].
    cbn [fst snd] in Hseq.
    exists summary1, s1. split; [reflexivity|].
    split.
    + vm_compute in E1. injection E1 as _ <-. reflexivity.
    + cbv zeta. rewrite Hseq. vm_compute in E1. injection E1 as <- <-.
      vm_compute. split; reflexivity.
  - destruct (publish_repo repo1 config s) as [[r|e] s'] eqn:Hrun;
      [|vm_compute in Hrun; discriminate Hrun].
    exists r, s'. split; [reflexivity|].
    exact (Hpub s s' r Hrun eq_refl).
Defined.

(** C9 (counterexample): the protocol steps are not independent when
    the removal of a disabled protocol's link raises.  HTTP is enabled and
    HTTPS is not; an HTTPS link of the repository is in place and cannot
    be removed.  The exception of the removal leaves the protocol steps,
    and the publish with them: the HTTP link is never attempted, no listing
    file is written, the HTTP phase is still NOT_STARTED and nothing is
    published over HTTP. *)
Lemma C9_counterexample :
  let s := new_distributor https_link_stuck_world in
  let https_dir := "/var/lib/pulp/published/https/repos" in
  let http_dir := "/var/lib/pulp/published/http/repos" in
  let steps := handle_publish_links (host:=removal_failing_host) repo1 http_only_config
                 https_dir (https_dir ++ "/r")%string http_dir (http_dir ++ "/r")%string [] s in
  let run := publish_repo (host:=removal_failing_host) repo1 http_only_config s in
  truthy (config_get http_only_config "http") = true
  /\ fst steps = Raise (OSError "Permission denied")
  /\ link_calls s (snd steps) = [EvRemoveRepoPublishDir https_dir (https_dir ++ "/r")%string]
  /\ fst run = Raise (OSError "Permission denied")
  /\ get_phase publish_https (progress_status (snd run)) = StateOnly SKIPPED
  /\ get_phase publish_http (progress_status (snd run)) = StateOnly NOT_STARTED
  /\ existsb (fun ev => match ev with
                        | EvCreateSymlink _ link => (link =? http_dir ++ "/r")%string
                        | EvGenerateListingFiles _ _ => true
                        | _ => false
                        end) (calls (snd run)) = false
  /\ node_at (fs (world (snd run))) (http_dir ++ "/r")%string = None.
Proof.
  vm_compute. repeat split; reflexivity.
Qed.

(** ** Copying the importer's repodata *)

Section RepodataProperties.
Context {W : Type} {host : Host W}.
Variable shutil_rmtree : path -> W -> Res unit * W.
Variable shutil_copytree : path -> path -> W -> Res unit * W.

(** X24.  The outcomes of [copy_importer_repodata].  Without a repodata
    directory under the source it returns False and has touched and
    logged nothing.  Otherwise it returns True with nothing logged, or it
    returns False after an IOError or OSError with the two error lines
    logged, or it raises: an exception of another class is not caught,
    and nothing is logged for it.  It never raises IOError or OSError. *)
Theorem copy_importer_repodata_outcomes
    (src_working_dir tgt_working_dir : path) (s : RepodataState W) :
  let run := copy_importer_repodata shutil_rmtree shutil_copytree
               src_working_dir tgt_working_dir s in
  if os_path_exists (os_path_join src_working_dir "repodata") (rd_world s) then
    match fst run with
    | Ok true => rd_log (snd run) = rd_log s
    | Ok false =>
        exists e, is_os_error e = true
                  /\ rd_log (snd run)
                     = rd_log s ++ [LogUnableToCopyRepodata src_working_dir tgt_working_dir;
                                    LogTraceback e]
    | Raise e => is_os_error e = false /\ rd_log (snd run) = rd_log s
    end
  else run = (Ok false, s).
Proof.
  cbv zeta. unfold copy_importer_repodata, try_except, bind, rd_ask, rd_call, rd_error, ret,
    raise.
  destruct (os_path_exists (os_path_join src_working_dir "repodata") (rd_world s));
    cbn [negb rd_world rd_log fst snd]; [|reflexivity].
  destruct (os_path_exists (os_path_join tgt_working_dir "repodata") (rd_world s));
    cbn [negb rd_world rd_log fst snd].
  - destruct (shutil_rmtree _ (rd_world s)) as [[[]|e1] w1]; cbn [rd_world rd_log fst snd].
    + destruct (shutil_copytree _ _ w1) as [[[]|e2] w2]; cbn [rd_world rd_log fst snd];
        [reflexivity|].
      destruct (is_os_error e2) eqn:E; cbn [rd_world rd_log fst snd].
      * exists e2. split; [exact E|]. rewrite <- app_assoc. reflexivity.
      * split; [exact E | reflexivity].
    + destruct (is_os_error e1) eqn:E; cbn [rd_world rd_log fst snd].
      * exists e1. split; [exact E|]. rewrite <- app_assoc. reflexivity.
      * split; [exact E | reflexivity].
  - destruct (shutil_copytree _ _ (rd_world s)) as [[[]|e2] w2]; cbn [rd_world rd_log fst snd];
      [reflexivity|].
    destruct (is_os_error e2) eqn:E; cbn [rd_world rd_log fst snd].
    + exists e2. split; [exact E|]. rewrite <- app_assoc. reflexivity.
    + split; [exact E | reflexivity].
Qed.

(** X25.  A failed copy is destructive.  When the target already has a
    repodata directory it is removed before the copy starts; if the copy
    then fails with an IOError or OSError, [copy_importer_repodata]
    returns False and leaves the world the failed copy left: the old
    repodata of the target is not put back. *)
Theorem copy_importer_repodata_failed_copy_loses_the_target
    (src_working_dir tgt_working_dir : path) (s : RepodataState W) (e : Exn) (w1 w2 : W) :
  let src_repodata_dir := os_path_join src_working_dir "repodata" in
  let tgt_repodata_dir := os_path_join tgt_working_dir "repodata" in
  os_path_exists src_repodata_dir (rd_world s) = true ->
  os_path_exists tgt_repodata_dir (rd_world s) = true ->
  shutil_rmtree tgt_repodata_dir (rd_world s) = (Ok tt, w1) ->
  shutil_copytree src_repodata_dir tgt_repodata_dir w1 = (Raise e, w2) ->
  is_os_error e = true ->
  copy_importer_repodata shutil_rmtree shutil_copytree src_working_dir tgt_working_dir s
  = (Ok false,
     {| rd_world := w2;
        rd_log := rd_log s ++ [LogUnableToCopyRepodata src_working_dir tgt_working_dir;
                               LogTraceback e] |}).
Proof.
  cbv zeta. intros Hsrc Htgt Hrm Hcp He.
  unfold copy_importer_repodata, try_except, bind, rd_ask, rd_call, rd_error, ret, raise.
  rewrite Hsrc. cbn [negb rd_world rd_log]. rewrite Htgt, Hrm.
  cbn [rd_world rd_log]. rewrite Hcp, He. cbn [rd_world rd_log].
  rewrite <- app_assoc. reflexivity.
Qed.

End RepodataProperties.

Import MemHost Scenario RepodataScenario.

(** Witness: the target's repodata is removed, the copy is refused, and
    the target is left without repodata. *)
Lemma copy_importer_repodata_failed_copy_loses_the_target_witness :
  let s := {| rd_world := stale_repodata_world; rd_log := [] |} in
  let run := copy_importer_repodata rmtree copytree "/importer" "/wd" s in
  fst run = Ok false
  /\ node_at (fs (rd_world s)) "/wd/repodata" = Some NDir
  /\ node_at (fs (rd_world (snd run))) "/wd/repodata" = None.
Proof.
  intros s run.
  pose proof (copy_importer_repodata_failed_copy_loses_the_target (host:=mem_host)
                rmtree copytree "/importer" "/wd" s (OSError "Permission denied")
                (with_fs [("/importer/repodata", NDir)] stale_repodata_world)
                (with_fs [("/importer/repodata", NDir)] stale_repodata_world)
                eq_refl eq_refl eq_refl eq_refl eq_refl) as Hrun.
  subst run. rewrite Hrun. repeat split; reflexivity.
Defined.

(** ** The consumer payload *)

Section ConsumerPayloadProperties.
Context {W : Type} {host : Host W}.
Variable pulp_server_config_get : string -> string -> W -> Res string.
Variable open_read : path -> W -> Res string.
Variable repo_auth_config_get : string -> string -> W -> Res string.

Lemma read_Ok {A} (op : W -> Res A) (w w' : W) a :
  read op w = (Ok a, w') -> op w = Ok a /\ w' = w.
Proof. unfold read. intros H. injection H as -> <-. split; reflexivity. Qed.

(** X26.  What a payload holds when [create_consumer_payload] returns
    one.  The relative path is [RELATIVE_URL], a slash and the relative
    path of the repository as configured: a leading slash, which publish
    drops, is kept.  The protocols are those enabled, "http" before
    "https".  The client certificate and the global authentication
    exclude each other: the payload carries the configured [auth_cert]
    exactly when [auth_cert] and [auth_ca] are both set, and only
    otherwise looks for the global certificates. *)
Theorem create_consumer_payload_fields (repo : Repo) (config : Config) (w w' : W) p :
  create_consumer_payload pulp_server_config_get open_read repo_auth_config_get repo config w
  = (Ok p, w') ->
  w' = w
  /\ payload_repo_name p = display_name repo
  /\ (exists url, get_repo_relative_path repo config = VStr url
                  /\ payload_relative_path p = (RELATIVE_URL ++ "/" ++ url)%string)
  /\ payload_protocols p
     = filter (fun proto => truthy (config_get config proto)) ["http"; "https"]
  /\ (if (truthy (config_get config "auth_cert") && truthy (config_get config "auth_ca"))%bool
      then payload_client_cert p = config_get config "auth_cert"
           /\ payload_global_auth p = None
      else payload_client_cert p = VNone).
Proof.
  unfold create_consumer_payload. intros H.
  apply bind_Ok in H as (server_name & w1 & H1 & H). apply read_Ok in H1 as [_ ->].
  apply bind_Ok in H as (ssl_ca_path & w2 & H2 & H). apply read_Ok in H2 as [_ ->].
  apply bind_Ok in H as (ca_there & w3 & H3 & H). injection H3 as _ <-.
  apply bind_Ok in H as (ca_cert & w4 & H4 & H).
  assert (w4 = w) as ->.
  { destruct ca_there.
    - apply bind_Ok in H4 as (p1 & wa & Ha & H4). apply read_Ok in Ha as [_ ->].
      apply bind_Ok in H4 as (text & wb & Hb & H4). apply read_Ok in Hb as [_ ->].
      injection H4 as _ <-. reflexivity.
    - injection H4 as _ <-. reflexivity. }
  apply bind_Ok in H as (relative_path & w5 & H5 & H).
  unfold join_relative_url in H5.
  destruct (get_repo_relative_path repo config) as [| | |url|]; try discriminate H5.
  injection H5 as <- <-.
  assert (Hproto : forall a b : bool,
            (if a then ["http"] else []) ++ (if b then ["https"] else [])
            = filter (fun proto => if (proto =? "http")%string then a else b)
                     ["http"; "https"]).
  { intros [|] [|]; reflexivity. }
  destruct (truthy (config_get config "auth_cert") && truthy (config_get config "auth_ca"))%bool.
  - injection H as <- <-. cbn [payload_repo_name payload_relative_path payload_protocols
                               payload_client_cert payload_global_auth].
    split; [reflexivity|]. split; [reflexivity|]. split; [eauto|].
    split; [|split; reflexivity].
    simpl. destruct (truthy (config_get config "http")), (truthy (config_get config "https"));
      reflexivity.
  - apply bind_Ok in H as (global_auth & w6 & H6 & H).
    injection H as <- <-. cbn [payload_repo_name payload_relative_path payload_protocols
                               payload_client_cert payload_global_auth].
    assert (w6 = w) as ->.
    { unfold load_global_auth in H6.
      apply bind_Ok in H6 as (d & wa & Ha & H6). apply read_Ok in Ha as [_ ->].
      apply bind_Ok in H6 as (ca_t & wb & Hb & H6). injection Hb as _ <-.
      apply bind_Ok in H6 as (cert_t & wc & Hc & H6).
      assert (wc = w) as ->.
      { destruct ca_t; injection Hc as _ <-; reflexivity. }
      destruct cert_t; [|injection H6 as _ <-; reflexivity].
      apply bind_Ok in H6 as (c1 & wd & Hd & H6). apply read_Ok in Hd as [_ ->].
      apply bind_Ok in H6 as (c2 & we & He & H6). apply read_Ok in He as [_ ->].
      apply bind_Ok in H6 as (c3 & wf & Hf & H6). apply read_Ok in Hf as [_ ->].
      injection H6 as _ <-. reflexivity. }
    split; [reflexivity|]. split; [reflexivity|]. split; [eauto|].
    split; [|reflexivity].
    simpl. destruct (truthy (config_get config "http")), (truthy (config_get config "https"));
      reflexivity.
Qed.

(** X27.  The global authentication is all or nothing, and its key is read
    unchecked.  The three files are read only when the CA and the
    certificate both exist; the key file is then opened without a check
    of its own, so a missing key makes the load raise what [open]
    raises instead of leaving the global authentication out. *)
Theorem load_global_auth_reads_the_key_unchecked (w : W) (dir cert : string) (e : Exn) :
  let cert_path := os_path_join dir "pulp-global-repo.cert" in
  let key_path := os_path_join dir "pulp-global-repo.key" in
  let ca_path := os_path_join dir "pulp-global-repo.ca" in
  repo_auth_config_get "repos" "global_cert_location" w = Ok dir ->
  os_path_exists ca_path w = true ->
  os_path_exists cert_path w = true ->
  open_read cert_path w = Ok cert ->
  open_read key_path w = Raise e ->
  load_global_auth open_read repo_auth_config_get w = (Raise e, w)
  /\ forall repo config,
       (truthy (config_get config "auth_cert") && truthy (config_get config "auth_ca"))%bool
       = false ->
       exists e', fst (create_consumer_payload pulp_server_config_get open_read
                         repo_auth_config_get repo config w) = Raise e'.
Proof.
  cbv zeta. intros Hdir Hca Hcert Hread Hkey.
  assert (Hload : load_global_auth open_read repo_auth_config_get w = (Raise e, w)).
  { unfold load_global_auth, bind, read, gets, ret. rewrite Hdir, Hca, Hcert, Hread, Hkey.
    reflexivity. }
  split; [exact Hload|].
  intros repo config Hauth. unfold create_consumer_payload. rewrite Hauth.
  unfold bind at 1, read at 1.
  destruct (pulp_server_config_get "server" "server_name" w);
    [|eexists; reflexivity].
  unfold bind at 1, read at 1.
  destruct (pulp_server_config_get "security" "ssl_ca_certificate" w) as [ssl|e1] eqn:Essl;
    [|eexists; reflexivity].
  unfold bind at 1, gets at 1.
  unfold bind at 1.
  assert (Hca_cert : exists r, (if os_path_exists ssl w
                                then bind (read (pulp_server_config_get "security"
                                                   "ssl_ca_certificate"))
                                       (fun p => bind (read (open_read p))
                                                   (fun text => ret (VStr text)))
                                else ret (config_get config "https_ca")) w = (r, w)).
  { destruct (os_path_exists ssl w); [|eexists; reflexivity].
    unfold bind, read, ret. rewrite Essl. destruct (open_read ssl w); eexists; reflexivity. }
  destruct Hca_cert as (r & ->). destruct r as [ca_cert|e2]; [|eexists; reflexivity].
  unfold bind at 1, join_relative_url.
  destruct (get_repo_relative_path repo config); unfold raise, ret;
    try (eexists; reflexivity).
  cbv zeta. unfold bind. rewrite Hload. eexists; reflexivity.
Qed.

End ConsumerPayloadProperties.

Import MemHost Scenario PayloadScenario.

(** Witness: a configured certificate pair, and a relative url with a
    leading slash. *)
Lemma create_consumer_payload_fields_witness :
  let config := [("relative_url", VStr "/pub/r"); ("http", VBool false); ("https", VBool true);
                 ("auth_cert", VStr "CERT"); ("auth_ca", VStr "CA")] in
  exists p,
    create_consumer_payload server_config read_file repo_auth_config repo1 config empty_world
    = (Ok p, empty_world)
    /\ payload_relative_path p = "/pulp/repos//pub/r"
    /\ payload_protocols p = ["https"]
    /\ payload_client_cert p = VStr "CERT"
    /\ payload_global_auth p = None.
Proof.
  intros config. eexists. split; [vm_compute; reflexivity|].
  destruct (create_consumer_payload_fields (host:=mem_host) server_config read_file
              repo_auth_config repo1 config empty_world _ _ ltac:(vm_compute; reflexivity))
    as (_ & _ & (url & Hurl & Hrel) & Hproto & Hcert & Hglobal).
  vm_compute in Hurl. injection Hurl as <-.
  split; [exact Hrel|]. split; [exact Hproto|]. split; [exact Hcert | exact Hglobal].
Defined.

(** Witness: the global certificate and CA are installed without the
    key. *)
Lemma load_global_auth_reads_the_key_unchecked_witness :
  load_global_auth (host:=mem_host) read_file repo_auth_config global_key_missing_world
  = (Raise (OSError "No such file or directory"), global_key_missing_world)
  /\ exists e', fst (create_consumer_payload server_config read_file repo_auth_config
                       repo1 (minimal_config "r") global_key_missing_world) = Raise e'.
Proof.
  destruct (load_global_auth_reads_the_key_unchecked (host:=mem_host) server_config read_file
              repo_auth_config global_key_missing_world "/etc/pki/pulp/content"
              "/etc/pki/pulp/content/pulp-global-repo.cert"
              (OSError "No such file or directory")
              eq_refl eq_refl eq_refl eq_refl eq_refl) as (Hload & Hpayload).
  split; [exact Hload|]. exact (Hpayload repo1 (minimal_config "r") eq_refl).
Defined.

(** ** The filelists parser *)

Section FilelistsProperties.
Import Filelists.

Lemma sort_fold (elements : list Element) (acc : Files) :
  fold_left sort_step elements acc
  = {| file := file acc ++ map text (filter (fun e => negb (is_dir e)) elements);
       dir := dir acc ++ map text (filter is_dir elements) |}.
Proof.
  revert acc. induction elements as [|e rest IH]; intros acc.
  - cbn [fold_left filter map]. rewrite !app_nil_r. destruct acc; reflexivity.
  - cbn [fold_left filter]. rewrite IH. unfold sort_step.
    destruct (is_dir e); cbn [negb file dir map]; rewrite <- app_assoc; reflexivity.
Qed.

(** X28.  [_sort_files_from_dirs] is a stable partition.  The [dir] list
    holds the text of exactly the elements whose [type] attribute is
    ['dir'], the [file] list the text of all the others (also of those
    with another [type], or none), each in the order of the input; no
    element is dropped or listed twice, and sorting a concatenation is
    sorting the parts. *)
Theorem sort_files_from_dirs_partitions (elements more : list Element) :
  dir (_sort_files_from_dirs elements) = map text (filter is_dir elements)
  /\ file (_sort_files_from_dirs elements)
     = map text (filter (fun e => negb (is_dir e)) elements)
  /\ (length (file (_sort_files_from_dirs elements))
      + length (dir (_sort_files_from_dirs elements)) = length elements)%nat
  /\ dir (_sort_files_from_dirs (elements ++ more))
     = dir (_sort_files_from_dirs elements) ++ dir (_sort_files_from_dirs more)
  /\ file (_sort_files_from_dirs (elements ++ more))
     = file (_sort_files_from_dirs elements) ++ file (_sort_files_from_dirs more).
Proof.
  unfold _sort_files_from_dirs. rewrite !sort_fold. cbn [file dir app].
  split; [reflexivity|]. split; [reflexivity|]. split.
  - rewrite !length_map. induction elements as [|e rest IH]; [reflexivity|].
    cbn [filter length]. destruct (is_dir e); cbn [negb length]; lia.
  - rewrite !filter_app, !map_app. split; reflexivity.
Qed.

(** X29.  The outcomes of [process_package_element].  It returns exactly
    when the element has the attributes [name] and [arch] and its first
    [version] child has [epoch], [ver] and [rel]; the unit key then holds
    these five values and the files are the sorted [file] children.
    Otherwise it raises for the first entry of the unit key that cannot
    be evaluated: [KeyError] for a missing attribute, and
    [AttributeError] when there is no [version] child, which is only
    reached when [name] is present. *)
Theorem process_package_element_outcomes (element : Element) :
  match process_package_element element with
  | Ok (unit_key, files) =>
      exists v, find element "version" = Some v
                /\ get (attrib element) "name" = Some (name unit_key)
                /\ get (attrib v) "epoch" = Some (epoch unit_key)
                /\ get (attrib v) "ver" = Some (version unit_key)
                /\ get (attrib v) "rel" = Some (release unit_key)
                /\ get (attrib element) "arch" = Some (arch unit_key)
                /\ files = _sort_files_from_dirs (findall element "file")
  | Raise e =>
      (get (attrib element) "name" = None /\ e = KeyError "name")
      \/ (get (attrib element) "name" <> None
          /\ ((find element "version" = None /\ e = AttributeError "attrib")
              \/ (exists v key, find element "version" = Some v
                                /\ In key ["epoch"; "ver"; "rel"]
                                /\ get (attrib v) key = None /\ e = KeyError key)
              \/ (get (attrib element) "arch" = None /\ e = KeyError "arch")))
  end.
Proof.
  unfold process_package_element, and_then, subscript, version_attrib.
  destruct (get (attrib element) "name") as [n|]; [|left; split; reflexivity].
  destruct (find element "version") as [v|];
    [|right; split; [discriminate | left; split; reflexivity]].
  unfold subscript.
  destruct (get (attrib v) "epoch") as [ep|] eqn:Eep;
    [|right; split; [discriminate|]; right; left; exists v, "epoch";
      cbn [In]; auto].
  destruct (get (attrib v) "ver") as [ve|] eqn:Eve;
    [|right; split; [discriminate|]; right; left; exists v, "ver";
      cbn [In]; auto].
  destruct (get (attrib v) "rel") as [re|] eqn:Ere;
    [|right; split; [discriminate|]; right; left; exists v, "rel";
      cbn [In]; auto 6].
  destruct (get (attrib element) "arch") as [ar|];
    [|right; split; [discriminate|]; right; right; split; reflexivity].
  exists v. cbn [name epoch version release arch]. auto 10.
Qed.

End FilelistsProperties.
